(** * CloverQuery: card-expiration classification and customer prioritisation

    A shallow embedding of the classification core of the repository:

    - [app/lib/card-expiration-analyzer.ts]: [CardExpirationAnalyzer]
      (code parsing, day count, status tiers, population summary) and
      [ClientStatusAnalyzer] (the client-status taxonomy);
    - [app/routes/customers.tsx] and [app/routes/customers.print.tsx]: the
      action-required worklist filter and the card shown on the printed list.

    The TypeScript runs on the JavaScript built-ins [parseInt],
    [String.prototype.substring], [String.prototype.trim], [Date] and
    [Math.ceil]/[Math.floor]; module [JS] embeds the parts of ECMAScript
    those calls use.  The ambient clock ([new Date()], [Date.now()]) is an
    explicit argument [now]; the host time zone is an explicit argument
    too, as the offset function ECMAScript reads it through. *)

From Stdlib Require Import ZArith List Bool Lia String Ascii NArith.
Import ListNotations.
Local Open Scope Z_scope.

(* ===================================================================== *)
(** * JavaScript built-ins                                                *)
(* ===================================================================== *)

Module JS.

(** A string is a sequence of UTF-16 code units; [length] counts them. *)
Definition code_unit := Z.
Definition jsstring := list code_unit.

Definition of_string (s : string) : jsstring :=
  map (fun a => Z.of_N (N_of_ascii a)) (list_ascii_of_string s).

(** Numbers.  Every number the modelled code computes is an integer or NaN
    (negative zero compares and prints like zero in all the uses below and
    is identified with it). *)
Inductive number : Type :=
| NaN
| Num (z : Z).

Definition num_add (a b : number) : number :=
  match a, b with
  | Num x, Num y => Num (x + y)
  | _, _ => NaN
  end.

Definition num_sub (a b : number) : number :=
  match a, b with
  | Num x, Num y => Num (x - y)
  | _, _ => NaN
  end.

(** Relational operators: any comparison with NaN is false. *)
Definition num_ltb (a b : number) : bool :=
  match a, b with
  | Num x, Num y => x <? y
  | _, _ => false
  end.

Definition num_leb (a b : number) : bool :=
  match a, b with
  | Num x, Num y => x <=? y
  | _, _ => false
  end.

(** Truthiness of an optional number ([x && ...], [!x], [x || y]): present,
    and not 0. *)
Definition truthyNum (n : option Z) : option Z :=
  match n with
  | Some v => if v =? 0 then None else Some v
  | None => None
  end.

(** Ceiling and floor of an integer quotient by a positive divisor:
    [Math.ceil (a / d)] and [Math.floor (a / d)].  The quotient is taken
    exactly; the double-precision quotient has the same ceiling and floor
    for the time differences in milliseconds that occur between dates. *)
Definition ceil_div (a d : Z) : Z := - ((- a) / d).
Definition floor_div (a d : Z) : Z := a / d.

(** ** Strings *)

(** WhiteSpace and LineTerminator code points (the characters skipped by
    [parseInt] and stripped by [trim]). *)
Definition isWhiteSpace (c : code_unit) : bool :=
  (c =? 9) || (c =? 10) || (c =? 11) || (c =? 12) || (c =? 13) || (c =? 32)
  || (c =? 160) || (c =? 5760) || ((8192 <=? c) && (c <=? 8202))
  || (c =? 8232) || (c =? 8233) || (c =? 8239) || (c =? 8287)
  || (c =? 12288) || (c =? 65279).

Fixpoint trimStart (s : jsstring) : jsstring :=
  match s with
  | c :: s' => if isWhiteSpace c then trimStart s' else s
  | [] => []
  end.

Definition trimEnd (s : jsstring) : jsstring := rev (trimStart (rev s)).

Definition trim (s : jsstring) : jsstring := trimEnd (trimStart s).

(** [s.substring(start, end)] for non-negative integer arguments. *)
Definition substring (s : jsstring) (start stop : nat) : jsstring :=
  let len := List.length s in
  let lo := Nat.min (Nat.min start stop) len in
  let hi := Nat.min (Nat.max start stop) len in
  firstn (hi - lo) (skipn lo s).

Definition isDigit (c : code_unit) : bool := (48 <=? c) && (c <=? 57).

(** The longest prefix of decimal digits, read as a number; [None] when the
    prefix is empty. *)
Fixpoint digitsPrefix (acc : option Z) (s : jsstring) : option Z :=
  match s with
  | c :: s' =>
      if isDigit c
      then digitsPrefix (Some (10 * match acc with Some a => a | None => 0 end
                               + (c - 48))) s'
      else acc
  | [] => acc
  end.

(** [parseInt(s, 10)]: skip leading white space, read an optional sign, then
    the longest run of decimal digits; NaN when there is no digit. *)
Definition parseInt10 (s : jsstring) : number :=
  let s1 := trimStart s in
  let '(sign, s2) :=
    match s1 with
    | 45 :: r => (-1, r)
    | 43 :: r => (1, r)
    | _ => (1, s1)
    end in
  match digitsPrefix None s2 with
  | Some v => Num (sign * v)
  | None => NaN
  end.

(** ** Dates (ECMAScript, Date objects: day number and time within day) *)

Definition msPerDay : Z := 86400000.

Definition Day (t : Z) : Z := t / msPerDay.
Definition TimeWithinDay (t : Z) : Z := t mod msPerDay.

Definition isLeapYear (y : Z) : bool :=
  if negb (y mod 4 =? 0) then false
  else if negb (y mod 100 =? 0) then true
  else if negb (y mod 400 =? 0) then false
  else true.

Definition DaysInYear (y : Z) : Z := if isLeapYear y then 366 else 365.

Definition DayFromYear (y : Z) : Z :=
  365 * (y - 1970) + (y - 1969) / 4 - (y - 1901) / 100 + (y - 1601) / 400.

Definition TimeFromYear (y : Z) : Z := msPerDay * DayFromYear y.

(** The year containing day number [d]: the largest [y] with
    [DayFromYear y <= d].  The estimate from the mean year length is off by
    at most one. *)
Definition YearFromDay (d : Z) : Z :=
  let y := 1970 + (d * 400) / 146097 in
  if d <? DayFromYear y then y - 1
  else if DayFromYear (y + 1) <=? d then y + 1
  else y.

Definition YearFromTime (t : Z) : Z := YearFromDay (Day t).

Definition InLeapYear (t : Z) : Z :=
  if isLeapYear (YearFromTime t) then 1 else 0.

Definition DayWithinYear (t : Z) : Z := Day t - DayFromYear (YearFromTime t).

(** Day within the year on which month [m] (0 = January) starts; [m = 12]
    gives the length of the year. *)
Definition monthStart (leap m : Z) : Z :=
  match m with
  | 0 => 0
  | 1 => 31
  | 2 => 59 + leap
  | 3 => 90 + leap
  | 4 => 120 + leap
  | 5 => 151 + leap
  | 6 => 181 + leap
  | 7 => 212 + leap
  | 8 => 243 + leap
  | 9 => 273 + leap
  | 10 => 304 + leap
  | 11 => 334 + leap
  | _ => 365 + leap
  end.

Definition MonthFromTime (t : Z) : Z :=
  let d := DayWithinYear t in
  let l := InLeapYear t in
  if d <? 31 then 0
  else if d <? 59 + l then 1
  else if d <? 90 + l then 2
  else if d <? 120 + l then 3
  else if d <? 151 + l then 4
  else if d <? 181 + l then 5
  else if d <? 212 + l then 6
  else if d <? 243 + l then 7
  else if d <? 273 + l then 8
  else if d <? 304 + l then 9
  else if d <? 334 + l then 10
  else 11.

Definition DateFromTime (t : Z) : Z :=
  DayWithinYear t - monthStart (InLeapYear t) (MonthFromTime t) + 1.

(** [MakeDay(year, month, date)]: the day number of the [date]-th day
    (counted from 1, any integer allowed) of month [month] (counted from 0,
    any integer allowed, carried into the year) of [year]; NaN when an
    argument is NaN.  Results beyond the range of time values are cut off by
    [TimeClip] in the constructor. *)
Definition MakeDay (year month date : number) : number :=
  match year, month, date with
  | Num y, Num m, Num dt =>
      let ym := y + m / 12 in
      let mn := m mod 12 in
      Num (DayFromYear ym + monthStart (if isLeapYear ym then 1 else 0) mn
           + dt - 1)
  | _, _, _ => NaN
  end.

Definition MakeTime (hour min sec ms : Z) : Z :=
  hour * 3600000 + min * 60000 + sec * 1000 + ms.

Definition MakeDate (day : number) (time : Z) : number :=
  match day with
  | Num d => Num (d * msPerDay + time)
  | NaN => NaN
  end.

Definition TimeClip (t : number) : number :=
  match t with
  | Num v => if Z.abs v <=? 8640000000000000 then Num v else NaN
  | NaN => NaN
  end.

(** A Date object is its time value: milliseconds since the epoch in UTC,
    or NaN for an invalid date. *)
Record Date : Type := mkDate { timeValue : number }.

(** The host time zone, as ECMAScript's [LocalTZA(t, isUTC)]: the offset of
    local time from UTC in milliseconds, at the instant [t] when [isUTC] is
    true, and for the local time value [t] when it is false (a local time
    that a transition skips or repeats is read with the offset in force
    before the transition). *)
Definition Zone : Type := Z -> bool -> Z.

(** A zone without transitions.  A number standing where a zone is expected
    denotes the zone of that fixed offset. *)
Definition fixedOffset (tz : Z) : Zone := fun _ _ => tz.
Coercion fixedOffset : Z >-> Zone.

Section LocalTime.
Variable zone : Zone.

Definition LocalTime (t : Z) : Z := t + zone t true.
Definition UTC (t : Z) : Z := t - zone t false.

(** [new Date(year, monthIndex, day)]: local midnight of that day; a year
    in 0..99 means 1900 + year. *)
Definition newDate (year month day : number) : Date :=
  let yr :=
    match year with
    | Num y => if (0 <=? y) && (y <=? 99) then Num (1900 + y) else Num y
    | NaN => NaN
    end in
  match MakeDate (MakeDay yr month day) (MakeTime 0 0 0 0) with
  | Num t => mkDate (TimeClip (Num (UTC t)))
  | NaN => mkDate NaN
  end.

Definition getDate (d : Date) : number :=
  match timeValue d with
  | Num t => Num (DateFromTime (LocalTime t))
  | NaN => NaN
  end.

Definition getMonth (d : Date) : number :=
  match timeValue d with
  | Num t => Num (MonthFromTime (LocalTime t))
  | NaN => NaN
  end.

Definition getFullYear (d : Date) : number :=
  match timeValue d with
  | Num t => Num (YearFromTime (LocalTime t))
  | NaN => NaN
  end.

Definition getHours (d : Date) : number :=
  match timeValue d with
  | Num t => Num (TimeWithinDay (LocalTime t) / 3600000)
  | NaN => NaN
  end.
End LocalTime.

Definition getTime (d : Date) : number := timeValue d.

(** [new Date(value)] for a number: the time value, when it is in range. *)
Definition newDateValue (value : number) : Date := mkDate (TimeClip value).

(** [new Date("YYYY-MM-DD")]: a date-only ISO string is UTC midnight. *)
Definition newDateISO (y m d : Z) : Date :=
  mkDate (TimeClip (MakeDate (MakeDay (Num y) (Num (m - 1)) (Num d)) 0)).

(** ** Further string built-ins *)

Fixpoint jsstring_eqb (a b : jsstring) : bool :=
  match a, b with
  | [], [] => true
  | x :: a', y :: b' => (x =? y) && jsstring_eqb a' b'
  | _, _ => false
  end.

(** [s.startsWith(prefix)] *)
Fixpoint startsWith (s prefix : jsstring) : bool :=
  match prefix, s with
  | [], _ => true
  | p :: prefix', c :: s' => (c =? p) && startsWith s' prefix'
  | _ :: _, [] => false
  end.

(** [s.slice(start, end)] and [s.slice(start)] for non-negative indices. *)
Definition slice (s : jsstring) (start stop : nat) : jsstring :=
  firstn (stop - start) (skipn start s).

Definition sliceFrom (s : jsstring) (start : nat) : jsstring := skipn start s.

(** [s.replace(/\D/g, '')]: the decimal digits of [s], in order. *)
Definition digitsOnly (s : jsstring) : jsstring := filter isDigit s.

(** Value of a character as a digit of some radix: 0-9, then a-z or A-Z. *)
Definition digitValue (c : code_unit) : option Z :=
  if (48 <=? c) && (c <=? 57) then Some (c - 48)
  else if (97 <=? c) && (c <=? 122) then Some (c - 87)
  else if (65 <=? c) && (c <=? 90) then Some (c - 55)
  else None.

Fixpoint radixPrefix (radix : Z) (acc : option Z) (s : jsstring) : option Z :=
  match s with
  | c :: s' =>
      match digitValue c with
      | Some v =>
          if v <? radix
          then radixPrefix radix
                 (Some (radix * match acc with Some a => a | None => 0 end + v)) s'
          else acc
      | None => acc
      end
  | [] => acc
  end.

(** [parseInt(s)] without a radix: as with radix 10, except that a prefix
    [0x] or [0X] after the sign selects radix 16. *)
Definition parseInt (s : jsstring) : number :=
  let s1 := trimStart s in
  let '(sign, s2) :=
    match s1 with
    | 45 :: r => (-1, r)
    | 43 :: r => (1, r)
    | _ => (1, s1)
    end in
  let '(radix, s3) :=
    match s2 with
    | 48 :: 120 :: r => (16, r)
    | 48 :: 88 :: r => (16, r)
    | _ => (10, s2)
    end in
  match radixPrefix radix None s3 with
  | Some v => Num (sign * v)
  | None => NaN
  end.

End JS.

Import JS.

(* ===================================================================== *)
(** * Records read by the core ([app/lib/clover-client.ts])               *)
(* ===================================================================== *)

Module Clover.

(** [CustomerCard]; the analyzer tolerates a missing [expirationDate]. *)
Record CustomerCard : Type := mkCard {
  first6 : option jsstring;
  last4 : option jsstring;
  expirationDate : option jsstring;
  cardType : option jsstring
}.

(** The [cards] field of a customer as it reaches the analyzers: absent, a
    flat array, or the platform's nested object [{ elements: [...] }]
    (whose [elements] may itself be missing). *)
Inductive CardsField : Type :=
| CardsAbsent
| CardsArray (cards : list CustomerCard)
| CardsNested (elements : option (list CustomerCard)).

Inductive Currency : Type := USD | CAD.

Record Customer : Type := mkCustomer {
  id : jsstring;
  cards : CardsField;
  createdTime : option Z;
  customerSince : option Z;
  merchantCurrency : Currency
}.

End Clover.

(* ===================================================================== *)
(** * [CardExpirationAnalyzer]                                            *)
(* ===================================================================== *)

Module CardExpirationAnalyzer.
Import Clover.

Inductive Status : Type := Expired | ExpiringSoon | ExpiringLater | Valid.

Inductive WarningLevel : Type := Critical | Warning | Info | NoWarning.

Record ExpirationStatus : Type := mkExpirationStatus {
  status : Status;
  daysUntilExpiration : number;
  expirationDate : Date;
  warningLevel : WarningLevel
}.

Definition Status_eqb (a b : Status) : bool :=
  match a, b with
  | Expired, Expired | ExpiringSoon, ExpiringSoon
  | ExpiringLater, ExpiringLater | Valid, Valid => true
  | _, _ => false
  end.

Record Analysis : Type := mkAnalysis {
  card : CustomerCard;
  expiration : ExpirationStatus
}.

Record CustomerWithExpiration : Type := mkCustomerWithExpiration {
  customer : Customer;
  expirationAnalysis : list Analysis
}.

Record Bucket : Type := mkBucket {
  bucketCustomers : Z;
  bucketCards : Z
}.

Record Summary : Type := mkSummary {
  totalCustomers : Z;
  totalCards : Z;
  summaryExpired : Bucket;
  summaryExpiringSoon : Bucket;
  summaryExpiringLater : Bucket
}.

Section WithZone.
Variable zone : Zone.

Definition getLastDayOfMonth (year month : number) : number :=
  getDate zone (newDate zone year month (Num 0)).

(** [None] is [null]: the code is missing, empty, or not 4 units long. *)
Definition parseExpirationDate (code : option jsstring) : option Date :=
  match code with
  | None => None
  | Some s =>
      match s with
      | [] => None
      | _ =>
          if negb (Nat.eqb (List.length s) 4) then None
          else
            let month := parseInt10 (substring s 0 2) in
            let year := num_add (parseInt10 (substring s 2 4)) (Num 2000) in
            Some (newDate zone year (num_sub month (Num 1))
                    (getLastDayOfMonth year month))
      end
  end.

Definition getDaysUntilExpiration (now : Z) (expDate : Date) : number :=
  match num_sub (getTime expDate) (Num now) with
  | Num timeDiff => Num (ceil_div timeDiff (1000 * 3600 * 24))
  | NaN => NaN
  end.

(** No operation of the [try] block can raise ([parseInt], [substring],
    the [Date] constructor and accessors and [Math.ceil] are total), so
    the [catch] branch is never entered and the function is its [try]
    block. *)
Definition analyzeCardExpiration (now : Z) (code : option jsstring)
  : option ExpirationStatus :=
  match parseExpirationDate code with
  | None => None
  | Some expDate =>
      let daysUntil := getDaysUntilExpiration now expDate in
      let '(st, wl) :=
        if num_ltb daysUntil (Num 0) then (Expired, Critical)
        else if num_leb daysUntil (Num 30) then (ExpiringSoon, Critical)
        else if num_leb daysUntil (Num 90) then (ExpiringLater, Warning)
        else (Valid, NoWarning) in
      Some (mkExpirationStatus st daysUntil expDate wl)
  end.

(** The record substituted for a card without expiration. *)
Definition noExpirationFallback : ExpirationStatus :=
  mkExpirationStatus Valid (Num 999999) (newDateISO 2099 12 31) NoWarning.

(** The cards to classify, from either shape of the [cards] field. *)
Definition cardsOf (c : Customer) : list CustomerCard :=
  match cards c with
  | CardsArray l => l
  | CardsNested (Some l) => l
  | _ => []
  end.

(** The body of the inner [cards.map]: the card with its classification,
    or with the fallback when the classification is [null]. *)
Definition analyzeCard (now : Z) (c : CustomerCard) : Analysis :=
  mkAnalysis c
    match analyzeCardExpiration now (Clover.expirationDate c) with
    | Some e => e
    | None => noExpirationFallback
    end.

(** The body of the outer [customers.map]: the customer itself (the
    spread keeps its [cards] field as it came) with its records. *)
Definition analyzeCustomer (now : Z) (c : Customer) : CustomerWithExpiration :=
  mkCustomerWithExpiration c (map (analyzeCard now) (cardsOf c)).

Definition analyzeCustomers (now : Z) (customers : list Customer)
  : list CustomerWithExpiration :=
  map (analyzeCustomer now) customers.
End WithZone.

Definition hasStatusIn (statuses : list Status) (c : CustomerWithExpiration) : bool :=
  existsb (fun a => existsb (Status_eqb (status (expiration a))) statuses)
          (expirationAnalysis c).

Definition filterByStatus (customers : list CustomerWithExpiration)
  (statuses : list Status) : list CustomerWithExpiration :=
  filter (hasStatusIn statuses) customers.

Definition getExpiredCards cs := filterByStatus cs [Expired].
Definition getExpiringSoonCards cs := filterByStatus cs [ExpiringSoon].
Definition getExpiringLaterCards cs := filterByStatus cs [ExpiringLater].

(** [Array.isArray(customer.cards) ? customer.cards : []] *)
Definition rawCardArray (c : Customer) : list CustomerCard :=
  match cards c with
  | CardsArray l => l
  | _ => []
  end.

(** [xs.reduce((sum, c) => sum + c.expirationAnalysis.length, 0)] *)
Definition countRecords (cs : list CustomerWithExpiration) : Z :=
  fold_left (fun sum c => sum + Z.of_nat (List.length (expirationAnalysis c))) cs 0.

Definition generateSummary (customers : list CustomerWithExpiration) : Summary :=
  let totalCustomers := Z.of_nat (List.length customers) in
  let totalCards :=
    fold_left
      (fun sum c => sum + Z.of_nat (List.length (rawCardArray (customer c))))
      customers 0 in
  let expired := getExpiredCards customers in
  let expiringSoon := getExpiringSoonCards customers in
  let expiringLater := getExpiringLaterCards customers in
  mkSummary totalCustomers totalCards
    (mkBucket (Z.of_nat (List.length expired)) (countRecords expired))
    (mkBucket (Z.of_nat (List.length expiringSoon)) (countRecords expiringSoon))
    (mkBucket (Z.of_nat (List.length expiringLater)) (countRecords expiringLater)).

End CardExpirationAnalyzer.

(* ===================================================================== *)
(** * [ClientStatusAnalyzer]                                              *)
(* ===================================================================== *)

Module ClientStatusAnalyzer.
Import Clover CardExpirationAnalyzer.

Inductive ClientStatusTag : Type :=
| NewNeedsPayment | ExpiredCards | ExpiringCards | AllGood | InactiveOld.

Inductive Priority : Type := PCritical | PHigh | PMedium | PLow | PNone.

Record ClientStatus : Type := mkClientStatus {
  clientStatusTag : ClientStatusTag;
  priority : Priority;
  daysOld : number;
  hasCards : bool;
  requiresAction : bool;
  actionMessage : string
}.

Record CustomerWithStatus : Type := mkCustomerWithStatus {
  base : Customer;
  clientStatus : ClientStatus;
  statusAnalysis : option (list Analysis)
}.

(** [now] is the time value of [getCurrentDate()]. *)
Definition getDaysSinceCreated (now createdTime : Z) : number :=
  let createdDate := newDateValue (Num createdTime) in
  match num_sub (Num now) (getTime createdDate) with
  | Num timeDiff => Num (floor_div timeDiff (1000 * 3600 * 24))
  | NaN => NaN
  end.

Definition hasPaymentMethods (c : Customer) : bool :=
  match cards c with
  | CardsArray (_ :: _) => true
  | CardsNested (Some (_ :: _)) => true
  | _ => false
  end.

(** [customer.createdTime || customer.customerSince] *)
Definition creationTime (c : Customer) : option Z :=
  match truthyNum (createdTime c) with
  | Some t => Some t
  | None => customerSince c
  end.

Definition analyzeClientStatus (now : Z) (c : Customer)
  (analysis : option (list Analysis)) : ClientStatus :=
  let hasCards := hasPaymentMethods c in
  match truthyNum (creationTime c) with
  | None =>
      mkClientStatus (if hasCards then AllGood else InactiveOld) PNone (Num 999)
        hasCards false
        (if hasCards then "Customer is set up properly"
         else "Old customer - no action needed")
  | Some created =>
      let daysOld := getDaysSinceCreated now created in
      let cardIssue :=
        match analysis with
        | Some l =>
            if hasCards then
              let hasExpiredCards :=
                existsb (fun a => Status_eqb (status (expiration a)) Expired) l in
              let hasExpiringSoonCards :=
                existsb (fun a => Status_eqb (status (expiration a)) ExpiringSoon) l in
              if hasExpiredCards then
                Some (mkClientStatus ExpiredCards PCritical daysOld hasCards true
                        "URGENT: Customer has expired credit cards")
              else if hasExpiringSoonCards then
                Some (mkClientStatus ExpiringCards PHigh daysOld hasCards true
                        "Customer has cards expiring soon")
              else None
            else None
        | None => None
        end in
      match cardIssue with
      | Some r => r
      | None =>
          if negb hasCards && num_leb daysOld (Num 180) then
            mkClientStatus NewNeedsPayment PHigh daysOld hasCards true
              "New customer needs payment method setup"
          else if negb hasCards && num_ltb (Num 365) daysOld then
            mkClientStatus InactiveOld PNone daysOld hasCards false
              "Old inactive customer - no action needed"
          else if negb hasCards then
            mkClientStatus InactiveOld PLow daysOld hasCards false
              "Customer has not set up payment methods"
          else
            mkClientStatus AllGood PNone daysOld hasCards false
              "Customer is set up properly"
      end
  end.

Definition analyzeCustomersWithStatus (now : Z)
  (customers : list (Customer * option (list Analysis))) : list CustomerWithStatus :=
  map (fun ca => mkCustomerWithStatus (fst ca)
                   (analyzeClientStatus now (fst ca) (snd ca)) (snd ca))
      customers.

Definition getCustomersRequiringAction (customers : list CustomerWithStatus)
  : list CustomerWithStatus :=
  filter (fun c => requiresAction (clientStatus c)) customers.

Definition ClientStatusTag_eqb (a b : ClientStatusTag) : bool :=
  match a, b with
  | NewNeedsPayment, NewNeedsPayment | ExpiredCards, ExpiredCards
  | ExpiringCards, ExpiringCards | AllGood, AllGood
  | InactiveOld, InactiveOld => true
  | _, _ => false
  end.

Definition filterByClientStatus (customers : list CustomerWithStatus)
  (statuses : list ClientStatusTag) : list CustomerWithStatus :=
  filter (fun c => existsb (ClientStatusTag_eqb (clientStatusTag (clientStatus c)))
                           statuses)
         customers.

Record StatusSummary : Type := mkStatusSummary {
  total : Z;
  countNewNeedsPayment : Z;
  countExpiredCards : Z;
  countExpiringCards : Z;
  countAllGood : Z;
  countInactiveOld : Z;
  countRequiresAction : Z;
  breakdownNewNeedsPayment : list CustomerWithStatus;
  breakdownExpiredCards : list CustomerWithStatus;
  breakdownExpiringCards : list CustomerWithStatus;
  breakdownAllGood : list CustomerWithStatus;
  breakdownInactiveOld : list CustomerWithStatus
}.

Definition generateStatusSummary (customers : list CustomerWithStatus)
  : StatusSummary :=
  let total := Z.of_nat (List.length customers) in
  let withTag tag :=
    filter (fun c => ClientStatusTag_eqb (clientStatusTag (clientStatus c)) tag)
           customers in
  let newNeedsPayment := withTag NewNeedsPayment in
  let expiredCards := withTag ExpiredCards in
  let expiringCards := withTag ExpiringCards in
  let allGood := withTag AllGood in
  let inactiveOld := withTag InactiveOld in
  let requiresAction := filter (fun c => requiresAction (clientStatus c)) customers in
  mkStatusSummary total
    (Z.of_nat (List.length newNeedsPayment))
    (Z.of_nat (List.length expiredCards))
    (Z.of_nat (List.length expiringCards))
    (Z.of_nat (List.length allGood))
    (Z.of_nat (List.length inactiveOld))
    (Z.of_nat (List.length requiresAction))
    newNeedsPayment expiredCards expiringCards allGood inactiveOld.

End ClientStatusAnalyzer.

(* ===================================================================== *)
(** * [ExpirationMonitorService] ([app/lib/expiration-monitor.ts])        *)
(* ===================================================================== *)

Module ExpirationMonitorService.
Import Clover CardExpirationAnalyzer.

Record MerchantError : Type := mkMerchantError {
  errorCurrency : Currency;
  errorMessage : jsstring;
  errorStatus : option Z
}.

Record ExpirationMonitorResult : Type := mkResult {
  summary : Summary;
  expired : list CustomerWithExpiration;
  expiringSoon : list CustomerWithExpiration;
  expiringLater : list CustomerWithExpiration;
  byMerchantUSD : option (list CustomerWithExpiration);
  byMerchantCAD : option (list CustomerWithExpiration);
  merchantErrors : list MerchantError
}.

Definition isCurrency (cur : Currency) (c : CustomerWithExpiration) : bool :=
  match merchantCurrency (customer c), cur with
  | USD, USD | CAD, CAD => true
  | _, _ => false
  end.

(** [runAnalysis] once the merchants have answered with [allCustomers] and
    [errors]; [now] is the clock read by the analyzer. *)
Definition runAnalysis (zone : Zone) (now : Z) (allCustomers : list Customer)
  (errors : list MerchantError) : ExpirationMonitorResult :=
  let analyzedCustomers := analyzeCustomers zone now allCustomers in
  let expired := getExpiredCards analyzedCustomers in
  let expiringSoon := getExpiringSoonCards analyzedCustomers in
  let expiringLater := getExpiringLaterCards analyzedCustomers in
  let summary := generateSummary analyzedCustomers in
  let usdCustomers := filter (isCurrency USD) analyzedCustomers in
  let cadCustomers := filter (isCurrency CAD) analyzedCustomers in
  mkResult summary expired expiringSoon expiringLater
    (match usdCustomers with [] => None | _ :: _ => Some usdCustomers end)
    (match cadCustomers with [] => None | _ :: _ => Some cadCustomers end)
    errors.

Definition getUrgentCustomers (zone : Zone) (now : Z) (allCustomers : list Customer)
  (errors : list MerchantError) : list CustomerWithExpiration :=
  let result := runAnalysis zone now allCustomers errors in
  expired result ++ expiringSoon result.

End ExpirationMonitorService.

(* ===================================================================== *)
(** * Customer list routes ([customers.tsx], [customers.print.tsx])       *)
(* ===================================================================== *)

Module Routes.

(** Status strings carried by the customer list payload
    ([CardAnalysisSchema]) and the further literal the print view tests. *)
Inductive CardStatus : Type :=
| StValid | StExpired | StExpiringSoon | StNoExpiration | StActive.

Definition CardStatus_eqb (a b : CardStatus) : bool :=
  match a, b with
  | StValid, StValid | StExpired, StExpired | StExpiringSoon, StExpiringSoon
  | StNoExpiration, StNoExpiration | StActive, StActive => true
  | _, _ => false
  end.

Record CardAnalysis : Type := mkCardAnalysis {
  card : Clover.CustomerCard;
  status : CardStatus;
  daysUntil : Z
}.

(** A customer of the list payload ([CustomerWithAnalysisSchema]). *)
Record ListedCustomer : Type := mkListedCustomer {
  businessName : option jsstring;
  customerSince : option Z;
  cards : option (list CardAnalysis);
  hasExpired : bool;
  hasExpiringSoon : bool;
  totalCards : Z
}.

(** [new Date('2025-07-21').getTime()] *)
Definition cleanupDate : Z :=
  Eval vm_compute in
    match getTime (newDateISO 2025 7 21) with Num t => t | NaN => 0 end.

Definition threeMonthsAgo (now : Z) : Z := now - 90 * 24 * 60 * 60 * 1000.

(** The predicate of [categorizedCustomers.actionRequired]. *)
Definition actionRequired (now : Z) (c : ListedCustomer) : bool :=
  match businessName c with
  | None | Some [] => false
  | Some name =>
      match trim name with
      | [] => false
      | _ =>
          let hasCards := totalCards c >? 0 in
          let isNewCustomer :=
            match truthyNum (customerSince c) with
            | Some since =>
                if hasCards then since >=? threeMonthsAgo now
                else since >=? cleanupDate
            | None => false
            end in
          let hasExpiringSoon := hasExpiringSoon c in
          let hasRecentlyExpired :=
            match cards c with
            | Some l =>
                existsb (fun card =>
                           if CardStatus_eqb (status card) StExpired then
                             let daysOverdue := Z.abs (daysUntil card) in
                             daysOverdue <=? 180
                           else false) l
            | None => false
            end in
          isNewCustomer || hasExpiringSoon || hasRecentlyExpired
      end
  end.

Definition actionRequiredCustomers (now : Z) (customers : list ListedCustomer)
  : list ListedCustomer :=
  filter (actionRequired now) customers.

(** The same filter as written in the print view. *)
Definition printActionRequired (now : Z) (c : ListedCustomer) : bool :=
  match businessName c with
  | None | Some [] => false
  | Some name =>
      match trim name with
      | [] => false
      | _ =>
          let hasCards := totalCards c >? 0 in
          let isNewCustomer :=
            match truthyNum (customerSince c) with
            | Some since =>
                if hasCards then since >=? threeMonthsAgo now
                else since >=? cleanupDate
            | None => false
            end in
          let hasRecentlyExpired :=
            match cards c with
            | Some l =>
                existsb (fun card =>
                           if CardStatus_eqb (status card) StExpired then
                             Z.abs (daysUntil card) <=? 180
                           else false) l
            | None => false
            end in
          isNewCustomer || hasExpiringSoon c || hasRecentlyExpired
      end
  end.

(** ** [getCardStatus] of the print view *)

(** The translation key of the label shown. *)
Inductive Label : Type :=
| LExpired | LExpiring | LNoPaymentMethod | LActive.

(** What [getCardStatus] returns: the label (its text is [t label],
    followed by a space and [expiry] when [expiry] is not empty) and the
    masked card number.  [selected] records the card the texts were taken
    from. *)
Record CardStatusView : Type := mkView {
  label : Label;
  expiry : jsstring;
  cardNumber : jsstring;
  selected : option CardAnalysis
}.

Definition formatCardNumber (f6 l4 : jsstring) : jsstring :=
  match f6, l4 with
  | [], _ | _, [] => []
  | _, _ =>
      substring f6 0 4 ++ of_string " " ++ substring f6 4 6
        ++ of_string "** **** " ++ l4
  end.

Definition formatExpiry (e : jsstring) : jsstring :=
  match e with
  | [] => []
  | _ =>
      if negb (Nat.eqb (List.length e) 4) then []
      else substring e 0 2 ++ of_string "/" ++ substring e 2 4
  end.

Definition viewOf (l : Label) (c : CardAnalysis) : CardStatusView :=
  let number :=
    match Clover.first6 (card c), Clover.last4 (card c) with
    | Some ((_ :: _) as f6), Some ((_ :: _) as l4) => formatCardNumber f6 l4
    | _, _ => []
    end in
  let exp :=
    match Clover.expirationDate (card c) with
    | Some ((_ :: _) as e) => formatExpiry e
    | _ => []
    end in
  mkView l exp number (Some c).

(** [xs.reduce((best, card) => better(card, best) ? card : best)] on a
    non-empty array: the first element is the initial accumulator. *)
Definition reduce1 (better : CardAnalysis -> CardAnalysis -> bool)
  (first : CardAnalysis) (rest : list CardAnalysis) : CardAnalysis :=
  fold_left (fun best card => if better card best then card else best) rest first.

Definition getCardStatus (cards : option (list CardAnalysis)) : CardStatusView :=
  let cards := match cards with Some l => l | None => [] end in
  let expiredCards := filter (fun c => CardStatus_eqb (status c) StExpired) cards in
  let expiringSoonCards :=
    filter (fun c => CardStatus_eqb (status c) StExpiringSoon) cards in
  match expiredCards with
  | e :: es =>
      let mostRecent :=
        reduce1 (fun card recent =>
                   Z.abs (daysUntil card) <? Z.abs (daysUntil recent)) e es in
      viewOf LExpired mostRecent
  | [] =>
      match expiringSoonCards with
      | e :: es =>
          let soonest :=
            reduce1 (fun card soon => daysUntil card <? daysUntil soon) e es in
          viewOf LExpiring soonest
      | [] =>
          match cards with
          | [] => mkView LNoPaymentMethod [] [] None
          | _ =>
              let activeCards :=
                filter (fun c => CardStatus_eqb (status c) StValid
                                 || CardStatus_eqb (status c) StActive) cards in
              match activeCards with
              | e :: es =>
                  let earliest :=
                    reduce1 (fun card early => daysUntil card <? daysUntil early)
                            e es in
                  viewOf LActive earliest
              | [] => mkView LActive [] [] None
              end
          end
      end
  end.

(** ** The other categories and the sort key of [customers.tsx] *)

Record Categories : Type := mkCategories {
  catExpired : list ListedCustomer;
  catExpiring : list ListedCustomer;
  catNoCards : list ListedCustomer;
  catActive : list ListedCustomer;
  catActionRequired : list ListedCustomer
}.

Definition categorizedCustomers (now : Z) (customers : list ListedCustomer)
  : Categories :=
  mkCategories
    (filter (fun c => hasExpired c) customers)
    (filter (fun c => hasExpiringSoon c && negb (hasExpired c)) customers)
    (filter (fun c => totalCards c =? 0) customers)
    (filter (fun c => (totalCards c >? 0) && negb (hasExpired c)
                      && negb (hasExpiringSoon c)) customers)
    (filter (actionRequired now) customers).

(** [getUrgency] of the urgency sort. *)
Definition getUrgency (c : ListedCustomer) : Z :=
  if hasExpired c then 4
  else if hasExpiringSoon c then 3
  else if totalCards c =? 0 then 2
  else 1.

(** ** [CompactCustomerCard] *)

Inductive TileStatus : Type := TileActive | TileExpired | TileExpiring | TileNoCards.

Record Tile : Type := mkTile {
  tileStatus : TileStatus;
  tileUrgency : Z;
  tileIsNew : bool;
  tileRecentlyExpired : list CardAnalysis;
  tileShown : list CardAnalysis;
  tileMore : option Z
}.

(** The values [CompactCustomerCard] computes before rendering: the status
    and urgency of the tile, the NEW badge, the (at most two) cards listed
    and the count behind "+N more cards". *)
Definition compactCustomerCard (now : Z) (c : ListedCustomer) : Tile :=
  let cards := match cards c with Some l => l | None => [] end in
  let expiredCards := filter (fun k => CardStatus_eqb (status k) StExpired) cards in
  let expiringSoonCards :=
    filter (fun k => CardStatus_eqb (status k) StExpiringSoon) cards in
  let hasCards := Z.of_nat (List.length cards) >? 0 in
  let isNewCustomer :=
    match truthyNum (customerSince c) with
    | Some since =>
        if hasCards then since >=? threeMonthsAgo now else since >=? cleanupDate
    | None => false
    end in
  let recentlyExpiredCards :=
    filter (fun card => let daysOverdue := Z.abs (daysUntil card) in
                        daysOverdue <=? 180) expiredCards in
  let '(st, urgency) :=
    match expiredCards, expiringSoonCards, cards with
    | _ :: _, _, _ => (TileExpired, 3)
    | [], _ :: _, _ => (TileExpiring, 2)
    | [], [], [] => (TileNoCards, 1)
    | [], [], _ :: _ => (TileActive, 0)
    end in
  let listed := expiredCards ++ expiringSoonCards in
  mkTile st urgency isNewCustomer recentlyExpiredCards
    (firstn 2 listed)
    (if Z.of_nat (List.length listed) >? 2
     then Some (Z.of_nat (List.length listed) - 2) else None).

(** What [formatDaysAgo] prints: nothing ([null]), the word for today, or a
    count followed by [j], [m] or [a]. *)
Inductive Ago : Type :=
| AgoNull
| AgoToday
| AgoDays (n : Z)
| AgoMonths (n : Z)
| AgoYears (n : Z).

Definition formatDaysAgo (now : Z) (timestamp : option Z) : Ago :=
  match truthyNum timestamp with
  | None => AgoNull
  | Some ts =>
      let days := floor_div (now - ts) (1000 * 60 * 60 * 24) in
      if days =? 0 then AgoToday
      else if days =? 1 then AgoDays 1
      else if days <? 30 then AgoDays days
      else if days <? 365 then AgoMonths (floor_div days 30)
      else AgoYears (floor_div days 365)
  end.

(** ** [formatPhone] of the print view *)

Definition formatPhone (phone : jsstring) : jsstring :=
  match phone with
  | [] => []
  | _ =>
      let cleaned := digitsOnly phone in
      if Nat.eqb (List.length cleaned) 10 then
        of_string "(" ++ slice cleaned 0 3 ++ of_string ") " ++ slice cleaned 3 6
          ++ of_string "-" ++ sliceFrom cleaned 6
      else if Nat.eqb (List.length cleaned) 11
              && match cleaned with c :: _ => c =? 49 | [] => false end then
        of_string "+1 (" ++ slice cleaned 1 4 ++ of_string ") " ++ slice cleaned 4 7
          ++ of_string "-" ++ sliceFrom cleaned 7
      else phone
  end.

End Routes.

(* ===================================================================== *)
(** * The customers API loader ([api.customers])                          *)
(* ===================================================================== *)

Module ApiCustomers.
Import Clover.

(** A row of the [cards] query. *)
Record CardRow : Type := mkCardRow {
  rowCustomerId : jsstring;
  rowCard : CustomerCard
}.

(** A row of the [customers] query (contact and audit columns left out). *)
Record CustomerRow : Type := mkCustomerRow {
  rowId : jsstring;
  rowBusinessName : option jsstring;
  rowCustomerSince : option Z
}.

(** The accumulator of [cards.reduce(...)]: an object from customer id to
    the array of that customer's rows, keys in order of first insertion.
    (Customer ids are vendor identifiers, never the name of a member of
    [Object.prototype].) *)
Definition Groups : Type := list (jsstring * list CardRow).

Fixpoint pushRow (acc : Groups) (row : CardRow) : Groups :=
  match acc with
  | [] => [(rowCustomerId row, [row])]
  | (k, rows) :: acc' =>
      if jsstring_eqb k (rowCustomerId row) then (k, rows ++ [row]) :: acc'
      else (k, rows) :: pushRow acc' row
  end.

Definition cardsByCustomer (cards : list CardRow) : Groups :=
  fold_left pushRow cards [].

(** [cardsByCustomer[id] || []] *)
Fixpoint groupOf (acc : Groups) (id : jsstring) : list CardRow :=
  match acc with
  | [] => []
  | (k, rows) :: acc' => if jsstring_eqb k id then rows else groupOf acc' id
  end.

Record PayloadCard : Type := mkPayloadCard {
  pcCard : CustomerCard;
  pcStatus : Routes.CardStatus;
  pcDaysUntil : number
}.

Record PayloadCustomer : Type := mkPayloadCustomer {
  pId : jsstring;
  pBusinessName : option jsstring;
  pCustomerSince : option Z;
  pCards : list PayloadCard;
  pHasExpired : bool;
  pHasExpiringSoon : bool;
  pTotalCards : Z
}.

Section WithZone.
Variable zone : Zone.

(** The body of [customerCards.map(card => ...)]. *)
Definition cardAnalysis (now : Z) (card : CustomerCard) : PayloadCard :=
  match expirationDate card with
  | None | Some [] => mkPayloadCard card Routes.StNoExpiration (Num 999999)
  | Some code =>
      let month := parseInt (substring code 0 2) in
      let year := num_add (Num 2000) (parseInt (substring code 2 4)) in
      let expDate := newDate zone year (num_sub month (Num 1)) (Num 28) in
      let daysDiff :=
        match num_sub (getTime expDate) (Num now) with
        | Num diff => Num (ceil_div diff (1000 * 60 * 60 * 24))
        | NaN => NaN
        end in
      let status :=
        if num_ltb daysDiff (Num 0) then Routes.StExpired
        else if num_leb daysDiff (Num 30) then Routes.StExpiringSoon
        else Routes.StValid in
      mkPayloadCard card status daysDiff
  end.

(** The body of [customers.map(customer => ...)], with [now] the clock it
    reads. *)
Definition customerWithAnalysis (now : Z) (groups : Groups)
  (customer : CustomerRow) : PayloadCustomer :=
  let customerCards := groupOf groups (rowId customer) in
  let analysis := map (fun row => cardAnalysis now (rowCard row)) customerCards in
  mkPayloadCustomer (rowId customer) (rowBusinessName customer)
    (rowCustomerSince customer) analysis
    (existsb (fun c => Routes.CardStatus_eqb (pcStatus c) Routes.StExpired) analysis)
    (existsb (fun c => Routes.CardStatus_eqb (pcStatus c) Routes.StExpiringSoon)
             analysis)
    (Z.of_nat (List.length customerCards)).

Definition customersWithAnalysis (now : Z) (customers : list CustomerRow)
  (cards : list CardRow) : list PayloadCustomer :=
  map (customerWithAnalysis now (cardsByCustomer cards)) customers.
End WithZone.

(** The customer as the pages read it from the JSON response.  A NaN day
    count is serialised as [null], which [Math.abs] and [<] read as 0. *)
Definition received (p : PayloadCustomer) : Routes.ListedCustomer :=
  Routes.mkListedCustomer (pBusinessName p) (pCustomerSince p)
    (Some (map (fun c => Routes.mkCardAnalysis (pcCard c) (pcStatus c)
                           match pcDaysUntil c with Num d => d | NaN => 0 end)
               (pCards p)))
    (pHasExpired p) (pHasExpiringSoon p) (pTotalCards p).

End ApiCustomers.

(* ===================================================================== *)
(** * The CSV export filter ([api.export.ts])                             *)
(* ===================================================================== *)

Module ApiExport.

(** A property value of a customer object parsed from the JSON response.
    An array or object is represented by the number [ToNumber] gives for
    it. *)
Inductive value : Type :=
| VUndefined
| VNull
| VBool (b : bool)
| VNum (n : number)
| VString (s : jsstring)
| VObject (asNumber : number).

(** A customer object: its own properties by name. *)
Definition object : Type := list (string * value).

Fixpoint prop (o : object) (name : string) : value :=
  match o with
  | [] => VUndefined
  | (k, v) :: o' => if String.eqb k name then v else prop o' name
  end.

Definition truthy (v : value) : bool :=
  match v with
  | VUndefined | VNull => false
  | VBool b => b
  | VNum (Num n) => negb (n =? 0)
  | VNum NaN => false
  | VString [] => false
  | VString (_ :: _) => true
  | VObject _ => true
  end.

Inductive StatusParam : Type := StatusAll | StatusActionRequired | StatusOther.

Section Conversions.
(** [ToNumber] on strings (the numeric-literal grammar is not modelled). *)
Variable stringToNumber : jsstring -> number.

Definition toNumber (v : value) : number :=
  match v with
  | VUndefined => NaN
  | VNull => Num 0
  | VBool b => Num (if b then 1 else 0)
  | VNum n => n
  | VString s => stringToNumber s
  | VObject n => n
  end.

(** The callback of [customers.filter] under [status !== 'all'].  (The
    [map] before it adds or overwrites [firstName], [lastName],
    [businessName], [merchantCurrency], [email] and [phone] only.) *)
Definition statusFilter (status : StatusParam) (now : Z) (customer : object) : bool :=
  match status with
  | StatusActionRequired =>
      truthy (prop customer "has_expired")
      || truthy (prop customer "has_expiring_soon")
      || (truthy (prop customer "customer_since")
          && match toNumber (prop customer "customer_since") with
             | Num since => now - since * 1000 <? 6 * 30 * 24 * 60 * 60 * 1000
             | NaN => false
             end
          && match prop customer "total_cards" with
             | VNum (Num n) => n =? 0
             | _ => false
             end)
  | _ => false
  end.

(** The customers that reach the CSV, for an empty search term. *)
Definition exported (status : StatusParam) (now : Z) (customers : list object)
  : list object :=
  match status with
  | StatusAll => customers
  | _ => filter (statusFilter status now) customers
  end.
End Conversions.

(** The property names of a customer object built by the customers API
    loader, followed by the two names the export's [map] adds. *)
Definition customerKeys : list string :=
  [ "id"; "firstName"; "lastName"; "businessName"; "merchantId";
    "merchantCurrency"; "customerSince"; "marketingAllowed"; "lastSyncedAt";
    "createdAt"; "updatedAt"; "emailAddresses"; "phoneNumbers"; "cards";
    "hasExpired"; "hasExpiringSoon"; "totalCards"; "primaryEmail";
    "primaryPhone"; "metadata"; "email"; "phone" ]%string.

Definition fromCustomersApi (o : object) : Prop :=
  forall k v, In (k, v) o -> In k customerKeys.

End ApiExport.

(* ===================================================================== *)
(** * [SimpleCache] and [CacheManager] ([app/lib/cache.ts], cache utils)  *)
(* ===================================================================== *)

Module Cache.

Section WithData.
(** The cached data; [None] is a cached [null]. *)
Variable T : Type.

Record CacheEntry : Type := mkEntry {
  data : option T;
  timestamp : Z;
  ttl : Z
}.

(** A [Map<string, CacheEntry>]: keys are unique and keep the order of
    their first insertion. *)
Definition Store : Type := list (jsstring * CacheEntry).

Fixpoint mapGet (m : Store) (key : jsstring) : option CacheEntry :=
  match m with
  | [] => None
  | (k, e) :: m' => if jsstring_eqb k key then Some e else mapGet m' key
  end.

Fixpoint mapSet (m : Store) (key : jsstring) (e : CacheEntry) : Store :=
  match m with
  | [] => [(key, e)]
  | (k, e0) :: m' =>
      if jsstring_eqb k key then (k, e) :: m' else (k, e0) :: mapSet m' key e
  end.

Fixpoint mapDelete (m : Store) (key : jsstring) : Store :=
  match m with
  | [] => []
  | (k, e) :: m' =>
      if jsstring_eqb k key then m' else (k, e) :: mapDelete m' key
  end.

Definition mapHas (m : Store) (key : jsstring) : bool :=
  match mapGet m key with Some _ => true | None => false end.

Record SimpleCache : Type := mkCache {
  cache : Store;
  defaultTTL : Z
}.

(** [new SimpleCache()] *)
Definition newCache : SimpleCache := mkCache [] (5 * 60 * 1000).

Definition isExpired (now : Z) (e : CacheEntry) : bool := now - timestamp e >? ttl e.

(** [get]: the data and the cache afterwards (an expired entry is removed). *)
Definition get (now : Z) (c : SimpleCache) (key : jsstring)
  : option T * SimpleCache :=
  match mapGet (cache c) key with
  | None => (None, c)
  | Some entry =>
      if isExpired now entry
      then (None, mkCache (mapDelete (cache c) key) (defaultTTL c))
      else (data entry, c)
  end.

(** [set]: [ttl || this.defaultTTL] takes the default for a missing or zero
    [ttl]. *)
Definition set (now : Z) (c : SimpleCache) (key : jsstring) (d : option T)
  (ttlArg : option Z) : SimpleCache :=
  let entry :=
    mkEntry d now
      match truthyNum ttlArg with
      | Some t => t
      | None => defaultTTL c
      end in
  mkCache (mapSet (cache c) key entry) (defaultTTL c).

Definition has (now : Z) (c : SimpleCache) (key : jsstring) : bool * SimpleCache :=
  match get now c key with
  | (Some _, c') => (true, c')
  | (None, c') => (false, c')
  end.

Definition delete (c : SimpleCache) (key : jsstring) : bool * SimpleCache :=
  (mapHas (cache c) key, mkCache (mapDelete (cache c) key) (defaultTTL c)).

Definition clear (c : SimpleCache) : SimpleCache := mkCache [] (defaultTTL c).

Record KeyInfo : Type := mkKeyInfo {
  infoKey : jsstring;
  infoAge : Z;
  infoTtl : Z;
  infoExpired : bool
}.

Record Stats : Type := mkStats {
  totalEntries : Z;
  validEntries : Z;
  expiredEntries : Z;
  cacheKeys : list KeyInfo
}.

Definition getStats (now : Z) (c : SimpleCache) : Stats :=
  let entries := cache c in
  let valid := filter (fun ke => now - timestamp (snd ke) <=? ttl (snd ke)) entries in
  let expired := filter (fun ke => now - timestamp (snd ke) >? ttl (snd ke)) entries in
  mkStats (Z.of_nat (List.length entries)) (Z.of_nat (List.length valid))
    (Z.of_nat (List.length expired))
    (map (fun ke => mkKeyInfo (fst ke) (now - timestamp (snd ke)) (ttl (snd ke))
                      (now - timestamp (snd ke) >? ttl (snd ke))) entries).

Definition cleanup (now : Z) (c : SimpleCache) : Z * SimpleCache :=
  let keysToDelete :=
    map fst (filter (fun ke => now - timestamp (snd ke) >? ttl (snd ke)) (cache c)) in
  (Z.of_nat (List.length keysToDelete),
   mkCache (fold_left mapDelete keysToDelete (cache c)) (defaultTTL c)).

(** [withCache(key, fn, ttl)]: [fn] is run only on a miss; [now] is the
    clock at the lookup and [later] the clock when the result is stored.
    The third component tells whether [fn] was run. *)
Definition withCache (now later : Z) (c : SimpleCache) (key : jsstring)
  (fn : unit -> option T) (ttlArg : option Z) : option T * SimpleCache * bool :=
  match get now c key with
  | (Some cached, c') => (Some cached, c', false)
  | (None, c') =>
      let result := fn tt in
      (result, set later c' key result ttlArg, true)
  end.

(** ** [CacheManager] *)

Definition customersPrefix : jsstring := of_string "customers_".

(** [clearCustomerCaches]: the number of keys cleared and the cache
    afterwards. *)
Definition clearCustomerCaches (now : Z) (c : SimpleCache) : Z * SimpleCache :=
  let stats := getStats now c in
  fold_left
    (fun (acc : Z * SimpleCache) (info : KeyInfo) =>
       if startsWith (infoKey info) customersPrefix
       then (fst acc + 1, snd (delete (snd acc) (infoKey info)))
       else acc)
    (cacheKeys stats) (0, c).

Definition merchantKey (merchantId currency : jsstring) : jsstring :=
  of_string "customers_" ++ merchantId ++ of_string "_" ++ currency.

Definition clearMerchantCache (c : SimpleCache) (merchantId currency : jsstring)
  : bool * SimpleCache :=
  delete c (merchantKey merchantId currency).

(** The key under which [CloverClient.getCustomersWithCards] caches the
    customers of a merchant. *)
Definition customersCacheKey (merchantId currency : jsstring) : jsstring :=
  of_string "customers_v6_production_" ++ merchantId ++ of_string "_" ++ currency.

End WithData.

Arguments mkEntry {T}.
Arguments data {T}.
Arguments timestamp {T}.
Arguments ttl {T}.
Arguments mapGet {T}.
Arguments mapSet {T}.
Arguments mapDelete {T}.
Arguments mapHas {T}.
Arguments mkCache {T}.
Arguments cache {T}.
Arguments defaultTTL {T}.
Arguments isExpired {T}.
Arguments get {T}.
Arguments set {T}.
Arguments has {T}.
Arguments delete {T}.
Arguments clear {T}.
Arguments getStats {T}.
Arguments cleanup {T}.
Arguments withCache {T}.
Arguments clearCustomerCaches {T}.
Arguments clearMerchantCache {T}.

(** The keys of the map are pairwise different. *)
Definition wellFormed {T : Type} (c : SimpleCache T) : Prop :=
  NoDup (map fst (cache c)).

(** The time to live an entry gets from the [ttl] argument of [set]. *)
Definition effectiveTTL {T : Type} (c : SimpleCache T) (ttlArg : option Z) : Z :=
  match ttlArg with
  | Some 0 | None => defaultTTL c
  | Some t => t
  end.

End Cache.

(* ===================================================================== *)
(** * Reference notions the properties are stated against                 *)
(* ===================================================================== *)

Module Calendar.

(** The Gregorian rule, as the specification words it: a leap year is
    divisible by 4, and by 400 if divisible by 100. *)
Definition leapYear (y : Z) : bool :=
  (y mod 4 =? 0) && (negb (y mod 100 =? 0) || (y mod 400 =? 0)).

(** Length of month [m] (1 = January) of year [y]: 28, 29, 30 or 31. *)
Definition daysInMonth (y m : Z) : Z :=
  match m with
  | 1 | 3 | 5 | 7 | 8 | 10 | 12 => 31
  | 4 | 6 | 9 | 11 => 30
  | 2 => if leapYear y then 29 else 28
  | _ => 0
  end.

Definition leapDay (y : Z) : Z := if isLeapYear y then 1 else 0.

(** Day number (days since the epoch) of the calendar date with year [y],
    month index [mi] (0 = January) and day of month [dt]. *)
Definition dayNumber (y mi dt : Z) : Z :=
  DayFromYear y + monthStart (leapDay y) mi + dt - 1.

(** Local midnight at the start of that date, as a time value. *)
Definition localMidnight (tz y m dt : Z) : Z :=
  dayNumber y (m - 1) dt * msPerDay - tz.

(** Local time value (milliseconds on the local clock) at which that date
    starts. *)
Definition localStart (y m dt : Z) : Z := dayNumber y (m - 1) dt * msPerDay.

(** The instant at which that date starts in [zone]: the instant the zone
    assigns to its local midnight. *)
Definition zonedMidnight (zone : Zone) (y m dt : Z) : Z :=
  localStart y m dt - zone (localStart y m dt) false.

(** Local time value at which the last day of month [m] starts. *)
Definition lastDayStart (y m : Z) : Z := localStart y m (daysInMonth y m).

(** Value of two decimal digits. *)
Definition twoDigits (a b : code_unit) : Z := 10 * (a - 48) + (b - 48).

End Calendar.
Import Calendar.

Module Counting.
Import Clover CardExpirationAnalyzer.

(** Sum of [f] over a list. *)
Fixpoint sumZ {A : Type} (f : A -> Z) (l : list A) : Z :=
  match l with
  | [] => 0
  | x :: l' => f x + sumZ f l'
  end.

(** The customer has at least one classification record in status [st]. *)
Definition flagged (st : Status) (c : CustomerWithExpiration) : Prop :=
  exists a, In a (expirationAnalysis c) /\ status (expiration a) = st.

Definition flaggedb (st : Status) (c : CustomerWithExpiration) : bool :=
  existsb (fun a => Status_eqb (status (expiration a)) st) (expirationAnalysis c).

(** Number of classification records of a customer. *)
Definition records (c : CustomerWithExpiration) : Z :=
  Z.of_nat (List.length (expirationAnalysis c)).

(** What a bucket of the summary reports for status [st]: the number of
    flagged customers, and the number of classification records of the
    flagged customers. *)
Definition bucketReports (st : Status) (b : Bucket)
  (cs : list CustomerWithExpiration) : Prop :=
  bucketCustomers b = sumZ (fun c => if flaggedb st c then 1 else 0) cs
  /\ bucketCards b = sumZ (fun c => if flaggedb st c then records c else 0) cs.

(** Two classified customers that differ at most in the day counts and
    dates of their records. *)
Definition sameStatuses (c c' : CustomerWithExpiration) : Prop :=
  customer c = customer c'
  /\ map (fun a => status (expiration a)) (expirationAnalysis c)
     = map (fun a => status (expiration a)) (expirationAnalysis c').

(** Some record of the (optional) analysis has status [st]. *)
Definition anyRecordb (analysis : option (list Analysis)) (st : Status) : bool :=
  match analysis with
  | Some l => existsb (fun a => Status_eqb (status (expiration a)) st) l
  | None => false
  end.

End Counting.
Import Counting.

Module PolicyA.
Import Routes.

Definition cardList (c : ListedCustomer) : list CardAnalysis :=
  match cards c with
  | Some l => l
  | None => []
  end.

(** The summary fields of a listed customer agree with its cards:
    [totalCards] is their number, and [hasExpired] and [hasExpiringSoon]
    are the OR of expired, respectively expiring-soon, over them.  The
    loader of the customers API builds every customer so. *)
Definition derivedFields (c : ListedCustomer) : Prop :=
  totalCards c = Z.of_nat (List.length (cardList c))
  /\ hasExpired c = existsb (fun k => CardStatus_eqb (status k) StExpired) (cardList c)
  /\ hasExpiringSoon c
     = existsb (fun k => CardStatus_eqb (status k) StExpiringSoon) (cardList c).

(** The business name is present and not blank after trimming. *)
Definition hasBusinessName (c : ListedCustomer) : Prop :=
  exists name, businessName c = Some name /\ trim name <> [].

(** (a) [customerSince] is present and at or after the cleanup cutoff for a
    customer without cards, at or after [now] minus 90 days otherwise. *)
Definition isNewCustomer (now : Z) (c : ListedCustomer) : Prop :=
  exists since,
    customerSince c = Some since
    /\ match cardList c with
       | [] => cleanupDate <= since
       | _ :: _ => now - 90 * msPerDay <= since
       end.

(** (b) some card is expiring soon. *)
Definition hasExpiringSoonCard (c : ListedCustomer) : Prop :=
  exists k, In k (cardList c) /\ status k = StExpiringSoon.

(** (c) some card is expired by at most 180 days. *)
Definition hasRecentlyExpiredCard (c : ListedCustomer) : Prop :=
  exists k, In k (cardList c) /\ status k = StExpired /\ Z.abs (daysUntil k) <= 180.

Definition qualifies (now : Z) (c : ListedCustomer) : Prop :=
  hasBusinessName c
  /\ (isNewCustomer now c \/ hasExpiringSoonCard c \/ hasRecentlyExpiredCard c).

End PolicyA.

Module Selection.
Import Routes.

Definition isExpired (k : CardAnalysis) : bool := CardStatus_eqb (status k) StExpired.
Definition isExpiringSoon (k : CardAnalysis) : bool :=
  CardStatus_eqb (status k) StExpiringSoon.
Definition isActive (k : CardAnalysis) : bool :=
  CardStatus_eqb (status k) StValid || CardStatus_eqb (status k) StActive.

Definition anyCard (pool : CardAnalysis -> bool) (l : list CardAnalysis) : Prop :=
  exists k, In k l /\ pool k = true.

(** The masked number printed for a card: the first four digits, a space,
    the next two digits, the mask and the last four digits; nothing unless
    both parts of the number are on the card and not empty. *)
Definition maskedNumber (k : CardAnalysis) : jsstring :=
  match Clover.first6 (card k), Clover.last4 (card k) with
  | Some f6, Some l4 =>
      match f6, l4 with
      | [], _ | _, [] => []
      | _, _ =>
          firstn 4 f6 ++ of_string " " ++ firstn 2 (skipn 4 f6)
            ++ of_string "** **** " ++ l4
      end
  | _, _ => []
  end.

(** The expiry printed after the label: MM/YY for a code of four
    characters, nothing otherwise. *)
Definition monthSlashYear (k : CardAnalysis) : jsstring :=
  match Clover.expirationDate (card k) with
  | Some [a; b; c; d] => [a; b; 47; c; d]
  | _ => []
  end.

(** The view shows card [k] under label [lab]. *)
Definition showsCard (lab : Label) (k : CardAnalysis) (v : CardStatusView) : Prop :=
  label v = lab /\ cardNumber v = maskedNumber k /\ expiry v = monthSlashYear k
  /\ selected v = Some k.

(** The view shows, under label [lab], a card of [pool] whose [key] is
    smallest among the cards of [pool]. *)
Definition showsLeast (lab : Label) (pool : CardAnalysis -> bool)
  (key : CardAnalysis -> Z) (l : list CardAnalysis) (v : CardStatusView) : Prop :=
  exists k,
    showsCard lab k v /\ In k l /\ pool k = true
    /\ forall k', In k' l -> pool k' = true -> key k <= key k'.

Definition noPaymentMethod : CardStatusView := mkView LNoPaymentMethod [] [] None.

(** The selection rule as the specification states it: expired cards first
    (least overdue), then expiring-soon cards (soonest), then active cards
    (soonest), and in the remaining case "no payment method". *)
Definition statedRule (cards : option (list CardAnalysis)) : Prop :=
  let l := match cards with Some l => l | None => [] end in
  let v := getCardStatus cards in
  (anyCard isExpired l ->
   showsLeast LExpired isExpired (fun k => Z.abs (daysUntil k)) l v)
  /\ (~ anyCard isExpired l -> anyCard isExpiringSoon l ->
      showsLeast LExpiring isExpiringSoon daysUntil l v)
  /\ (~ anyCard isExpired l -> ~ anyCard isExpiringSoon l -> anyCard isActive l ->
      showsLeast LActive isActive daysUntil l v)
  /\ (~ anyCard isExpired l -> ~ anyCard isExpiringSoon l -> ~ anyCard isActive l ->
      v = noPaymentMethod).

End Selection.

Module Notions.
Import Clover CardExpirationAnalyzer.

(** How far a status is on the way to expiry. *)
Definition statusRank (st : Status) : Z :=
  match st with
  | Valid => 0
  | ExpiringLater => 1
  | ExpiringSoon => 2
  | Expired => 3
  end.

(** Local midnight that begins the first day of the month after month [m]
    (1 = January) of year [y]. *)
Definition firstOfNextMonth (zone : Zone) (y m : Z) : Z :=
  zonedMidnight zone (y + m / 12) (m mod 12 + 1) 1.

(** The instant the zone assigns to the local midnight [tl] reads, on the
    local clock, as a time of the day that starts at [tl] (the time [tl]
    itself, or later in that day when a transition skips [tl]). *)
Definition keepsDay (zone : Zone) (tl : Z) : Prop :=
  let u := tl - zone tl false in
  tl <= u + zone u true < tl + msPerDay.

(** A zone that changes its offset once: [before] until the instant
    [switch], [after] from then on. *)
Definition switchingZone (switch before after : Z) : Zone :=
  fun t isUTC =>
    if isUTC then (if t <? switch then before else after)
    else (if t <? switch + Z.max before after then before else after).

(** [t] is the creation timestamp of the customer: [createdTime] when it is
    present and not 0, otherwise [customerSince] when that is present and
    not 0. *)
Definition timestampOf (c : Customer) (t : Z) : Prop :=
  (createdTime c = Some t /\ t <> 0)
  \/ ((createdTime c = None \/ createdTime c = Some 0)
      /\ customerSince c = Some t /\ t <> 0).

(** The time value is in the range of dates (100 000 000 days either side
    of the epoch). *)
Definition validTime (t : Z) : Prop := Z.abs t <= 100000000 * msPerDay.

(** The [cards] field is an array or missing (not the nested shape). *)
Definition flatShape (c : Customer) : Prop :=
  match cards c with
  | CardsNested _ => False
  | _ => True
  end.

(** The code of the card is absent, empty or not four characters long. *)
Definition noParsableCode (k : CustomerCard) : Prop :=
  match Clover.expirationDate k with
  | None => True
  | Some s => List.length s <> 4%nat
  end.

(** The code is a month 01..12 followed by a two-digit year. *)
Definition monthYearCode (s : jsstring) : Prop :=
  exists a b c d,
    s = [a; b; c; d]
    /\ isDigit a = true /\ isDigit b = true /\ isDigit c = true /\ isDigit d = true
    /\ 1 <= twoDigits a b <= 12.

(** The record substituted for a card without expiration: valid, 999999
    days, 31 December 2099 (UTC), no warning. *)
Definition sentinel : ExpirationStatus :=
  mkExpirationStatus Valid (Num 999999) (mkDate (Num (localMidnight 0 2099 12 31)))
    NoWarning.

(** The fallback as the specification states it: a card whose code is
    absent or is not a month and a year receives the sentinel record. *)
Definition statedFallback (zone : Zone) (now : Z) (k : CustomerCard) : Prop :=
  match Clover.expirationDate k with
  | None => True
  | Some s => ~ monthYearCode s
  end ->
  expiration (analyzeCard zone now k) = sentinel.

(** The card has no expiration code at all (absent or empty). *)
Definition noCode (k : CustomerCard) : Prop :=
  Clover.expirationDate k = None \/ Clover.expirationDate k = Some [].

(** Number of occurrences of an element satisfying [p]. *)
Definition countIf {A : Type} (p : A -> bool) (l : list A) : Z :=
  Z.of_nat (List.length (filter p l)).

End Notions.
Import Notions.

Module ClientRules.
Import Clover CardExpirationAnalyzer ClientStatusAnalyzer.

(** Rule 2 as the specification states it, on the cards of the customer: a
    customer with a creation timestamp one of whose cards the card
    classifier finds expired has status expired-cards, priority critical. *)
Definition statedRule2 (zone : Zone) (now : Z) (c : Customer)
  (analysis : option (list Analysis)) : Prop :=
  (exists t, timestampOf c t) ->
  (exists k, In k (cardsOf c)
             /\ status (expiration (analyzeCard zone now k)) = Expired) ->
  let r := analyzeClientStatus now c analysis in
  clientStatusTag r = ExpiredCards /\ priority r = PCritical.

End ClientRules.

(* ===================================================================== *)
(** * The calendar arithmetic of [Date]                                   *)
(* ===================================================================== *)

Ltac zdiv := Z.div_mod_to_equations; lia.

Arguments DayFromYear : simpl never.

Lemma DayFromYear_bounds (z : Z) :
  146097 * (z - 1970) - 600 <= 400 * DayFromYear z <= 146097 * (z - 1970) + 600.
Proof. unfold DayFromYear. zdiv. Qed.

Lemma isLeapYear_calendar (y : Z) : isLeapYear y = leapYear y.
Proof.
  unfold isLeapYear, leapYear.
  destruct (y mod 4 =? 0), (y mod 100 =? 0), (y mod 400 =? 0); reflexivity.
Qed.

Lemma DayFromYear_succ (y : Z) : DayFromYear (y + 1) = DayFromYear y + DaysInYear y.
Proof.
  unfold DaysInYear, isLeapYear, DayFromYear.
  destruct (Z.eqb_spec (y mod 4) 0); cbn [negb]; [|zdiv].
  destruct (Z.eqb_spec (y mod 100) 0); cbn [negb]; [|zdiv].
  destruct (Z.eqb_spec (y mod 400) 0); cbn [negb]; zdiv.
Qed.

(** [YearFromDay] meets the defining property of [YearFromTime]. *)
Lemma YearFromDay_spec (d : Z) :
  DayFromYear (YearFromDay d) <= d < DayFromYear (YearFromDay d + 1).
Proof.
  unfold YearFromDay.
  set (y := 1970 + d * 400 / 146097).
  assert (Hq : 146097 * (y - 1970) <= 400 * d < 146097 * (y - 1970) + 146097)
    by (subst y; zdiv).
  clearbody y.
  pose proof (DayFromYear_bounds y). pose proof (DayFromYear_bounds (y - 1)).
  pose proof (DayFromYear_bounds (y + 1)).
  pose proof (DayFromYear_bounds (y + 1 + 1)).
  destruct (Z.ltb_spec d (DayFromYear y));
    [replace (y - 1 + 1) with y by lia; lia|].
  destruct (Z.leb_spec (DayFromYear (y + 1)) d); lia.
Qed.

Lemma DayFromYear_lt (a b : Z) : a < b -> DayFromYear a < DayFromYear b.
Proof.
  intros Hab.
  destruct (Z.eq_dec b (a + 1)) as [->|Hne].
  - rewrite DayFromYear_succ. unfold DaysInYear. destruct (isLeapYear a); lia.
  - pose proof (DayFromYear_bounds a). pose proof (DayFromYear_bounds b). lia.
Qed.

Lemma YearFromDay_unique (d y : Z) :
  DayFromYear y <= d < DayFromYear (y + 1) -> YearFromDay d = y.
Proof.
  intros Hy. pose proof (YearFromDay_spec d) as Hs.
  destruct (Z.lt_trichotomy (YearFromDay d) y) as [Hlt|[Heq|Hgt]]; [|exact Heq|].
  - assert (DayFromYear (YearFromDay d + 1) <= DayFromYear y).
    { destruct (Z.eq_dec (YearFromDay d + 1) y) as [->|]; [lia|].
      apply Z.lt_le_incl, DayFromYear_lt. lia. }
    lia.
  - assert (DayFromYear (y + 1) <= DayFromYear (YearFromDay d)).
    { destruct (Z.eq_dec (y + 1) (YearFromDay d)) as [->|]; [lia|].
      apply Z.lt_le_incl, DayFromYear_lt. lia. }
    lia.
Qed.

Lemma Day_of_midnight (d : Z) : Day (d * msPerDay) = d.
Proof. unfold Day, msPerDay. zdiv. Qed.

Ltac month_cases mi :=
  let C := fresh "C" in
  assert (C : mi = 0 \/ mi = 1 \/ mi = 2 \/ mi = 3 \/ mi = 4 \/ mi = 5 \/ mi = 6
              \/ mi = 7 \/ mi = 8 \/ mi = 9 \/ mi = 10 \/ mi = 11) by lia;
  repeat (destruct C as [->|C]); [..|subst mi];
  change (0 + 1) with 1 in *; change (1 + 1) with 2 in *;
  change (2 + 1) with 3 in *; change (3 + 1) with 4 in *;
  change (4 + 1) with 5 in *; change (5 + 1) with 6 in *;
  change (6 + 1) with 7 in *; change (7 + 1) with 8 in *;
  change (8 + 1) with 9 in *; change (9 + 1) with 10 in *;
  change (10 + 1) with 11 in *; change (11 + 1) with 12 in *;
  cbv beta iota delta [monthStart daysInMonth] in *.

Lemma leapDay_range (y : Z) : 0 <= leapDay y <= 1.
Proof. unfold leapDay. destruct (isLeapYear y); lia. Qed.

Lemma monthStart_succ (y mi : Z) :
  0 <= mi <= 11 ->
  monthStart (leapDay y) (mi + 1)
  = monthStart (leapDay y) mi + daysInMonth y (mi + 1).
Proof.
  intros H. unfold leapDay.
  month_cases mi; rewrite <- ?isLeapYear_calendar; destruct (isLeapYear y); lia.
Qed.

Lemma monthStart_range (l mi : Z) :
  0 <= l <= 1 -> 0 <= mi <= 11 ->
  0 <= monthStart l mi /\ monthStart l (mi + 1) <= 365 + l.
Proof. intros Hl Hm. month_cases mi; lia. Qed.

(** Reading back a date that was built from year, month index and day. *)
Lemma civil_roundtrip (y mi dt : Z) :
  0 <= mi <= 11 -> 1 <= dt <= daysInMonth y (mi + 1) ->
  YearFromTime (dayNumber y mi dt * msPerDay) = y
  /\ MonthFromTime (dayNumber y mi dt * msPerDay) = mi
  /\ DateFromTime (dayNumber y mi dt * msPerDay) = dt
  /\ TimeWithinDay (dayNumber y mi dt * msPerDay) = 0.
Proof.
  intros Hm Hd.
  pose proof (monthStart_succ y mi Hm) as Hs.
  pose proof (monthStart_range (leapDay y) mi (leapDay_range y) Hm) as [Hlo Hhi].
  pose proof (leapDay_range y) as Hl01.
  set (t := dayNumber y mi dt * msPerDay).
  assert (Hy : YearFromTime t = y).
  { unfold YearFromTime, t. rewrite Day_of_midnight.
    apply YearFromDay_unique. rewrite DayFromYear_succ.
    unfold dayNumber, DaysInYear. fold (leapDay y).
    replace (if isLeapYear y then 366 else 365) with (365 + leapDay y)
      by (unfold leapDay; destruct (isLeapYear y); reflexivity).
    lia. }
  assert (Hw : DayWithinYear t = monthStart (leapDay y) mi + dt - 1).
  { unfold DayWithinYear. rewrite Hy. unfold t. rewrite Day_of_midnight.
    unfold dayNumber. lia. }
  assert (Hl : InLeapYear t = leapDay y).
  { unfold InLeapYear, leapDay. rewrite Hy. reflexivity. }
  assert (Hmo : MonthFromTime t = mi).
  { unfold MonthFromTime. rewrite Hw, Hl.
    generalize dependent (leapDay y). intros l Hs Hlo Hhi Hl01 _ _.
    clear t Hy.
    month_cases mi;
      repeat match goal with
             | |- context [?a <? ?b] => destruct (Z.ltb_spec a b); try lia
             end. }
  repeat split; try assumption.
  - unfold DateFromTime. rewrite Hmo, Hw, Hl. lia.
  - unfold TimeWithinDay, t, msPerDay. zdiv.
Qed.

(** ** The [Date] constructor and accessors on calendar dates *)

Lemma dayNumber_bounds (y mi dt : Z) :
  0 <= mi <= 11 -> 0 <= dt <= 31 -> 0 <= y <= 9999 ->
  -1000000 <= dayNumber y mi dt <= 4000000.
Proof.
  intros Hm Hd Hy. unfold dayNumber.
  pose proof (DayFromYear_bounds y).
  pose proof (monthStart_range (leapDay y) mi (leapDay_range y) Hm).
  pose proof (leapDay_range y).
  assert (monthStart (leapDay y) mi <= 366).
  { clear - Hm H1. generalize dependent (leapDay y). intros l Hl.
    month_cases mi; lia. }
  lia.
Qed.

(** Day 0 of the month after month [m] is the last day of month [m]. *)
Lemma MakeDay_day0 (y m : Z) :
  1 <= m <= 12 ->
  MakeDay (Num y) (Num m) (Num 0) = Num (dayNumber y (m - 1) (daysInMonth y m)).
Proof.
  intros Hm. unfold MakeDay, dayNumber. f_equal.
  destruct (Z.eq_dec m 12) as [->|Hne].
  - change (12 / 12) with 1. change (12 mod 12) with 0. change (12 - 1) with 11.
    rewrite DayFromYear_succ. unfold DaysInYear, leapDay.
    cbv beta iota delta [monthStart daysInMonth].
    destruct (isLeapYear y); destruct (isLeapYear (y + 1)); lia.
  - replace (m / 12) with 0 by zdiv. replace (m mod 12) with m by zdiv.
    replace (y + 0) with y by lia. fold (leapDay y).
    pose proof (monthStart_succ y (m - 1) ltac:(lia)) as Hs.
    replace (m - 1 + 1) with m in Hs by lia. lia.
Qed.

Lemma MakeDay_civil (y mi dt : Z) :
  0 <= mi <= 11 -> MakeDay (Num y) (Num mi) (Num dt) = Num (dayNumber y mi dt).
Proof.
  intros Hm. unfold MakeDay, dayNumber.
  replace (mi / 12) with 0 by zdiv. replace (mi mod 12) with mi by zdiv.
  replace (y + 0) with y by lia. reflexivity.
Qed.

Lemma daysInMonth_range (y m : Z) : 1 <= m <= 12 -> 28 <= daysInMonth y m <= 31.
Proof.
  intros Hm. replace m with ((m - 1) + 1) by lia.
  assert (H : 0 <= m - 1 <= 11) by lia. revert H. generalize (m - 1). intros mi H.
  month_cases mi; destruct (leapYear y); lia.
Qed.

Section DateLemmas.
Variable tz : Z.
Hypothesis tz_small : Z.abs tz <= msPerDay.

Lemma newDate_of_dayNumber (y m d n : Z) :
  100 <= y ->
  MakeDay (Num y) (Num m) (Num d) = Num n ->
  -1000000 <= n <= 4000000 ->
  newDate tz (Num y) (Num m) (Num d) = mkDate (Num (n * msPerDay - tz)).
Proof.
  intros Hy Hn Hb. unfold newDate.
  replace ((0 <=? y) && (y <=? 99)) with false
    by (symmetry; apply andb_false_iff; right; apply Z.leb_gt; lia).
  rewrite Hn. unfold MakeDate, MakeTime, UTC, TimeClip, fixedOffset.
  replace (n * msPerDay + (0 * 3600000 + 0 * 60000 + 0 * 1000 + 0) - tz)
    with (n * msPerDay - tz) by lia.
  unfold msPerDay in *.
  destruct (Z.leb_spec (Z.abs (n * 86400000 - tz)) 8640000000000000);
    [reflexivity|lia].
Qed.

Lemma getLastDayOfMonth_correct (y m : Z) :
  100 <= y <= 9999 -> 1 <= m <= 12 ->
  CardExpirationAnalyzer.getLastDayOfMonth tz (Num y) (Num m)
  = Num (daysInMonth y m).
Proof.
  intros Hy Hm. unfold CardExpirationAnalyzer.getLastDayOfMonth.
  pose proof (daysInMonth_range y m Hm) as Hr.
  rewrite (newDate_of_dayNumber y m 0 _ ltac:(lia) (MakeDay_day0 y m Hm))
    by (apply dayNumber_bounds; lia).
  unfold getDate, timeValue, LocalTime, fixedOffset.
  replace (dayNumber y (m - 1) (daysInMonth y m) * msPerDay - tz + tz)
    with (dayNumber y (m - 1) (daysInMonth y m) * msPerDay) by lia.
  f_equal.
  apply (civil_roundtrip y (m - 1) (daysInMonth y m)); [lia|].
  replace (m - 1 + 1) with m by lia. lia.
Qed.

(** The accessors of a date built at local midnight of a calendar day. *)
Lemma localMidnight_fields (y m dt : Z) :
  1 <= m <= 12 -> 1 <= dt <= daysInMonth y m ->
  let d := mkDate (Num (localMidnight tz y m dt)) in
  getFullYear tz d = Num y /\ getMonth tz d = Num (m - 1)
  /\ getDate tz d = Num dt /\ getHours tz d = Num 0.
Proof.
  intros Hm Hd. cbv zeta.
  unfold getFullYear, getMonth, getDate, getHours, timeValue, LocalTime,
    localMidnight, fixedOffset.
  replace (dayNumber y (m - 1) dt * msPerDay - tz + tz)
    with (dayNumber y (m - 1) dt * msPerDay) by lia.
  destruct (civil_roundtrip y (m - 1) dt) as (H1 & H2 & H3 & H4);
    [lia|replace (m - 1 + 1) with m by lia; lia|].
  rewrite H1, H2, H3, H4. repeat split; reflexivity.
Qed.
End DateLemmas.

(** ** Parsing the code *)

Lemma isDigit_cases (a : Z) :
  isDigit a = true ->
  a = 48 \/ a = 49 \/ a = 50 \/ a = 51 \/ a = 52 \/ a = 53 \/ a = 54 \/ a = 55
  \/ a = 56 \/ a = 57.
Proof. unfold isDigit. intros H. apply andb_prop in H as [H1 H2]. lia. Qed.

Ltac digit_cases a H :=
  let C := fresh "C" in
  pose proof (isDigit_cases a H) as C;
  repeat (destruct C as [->|C]); [..|subst a].

Lemma parseInt10_two_digits (a b : Z) :
  isDigit a = true -> isDigit b = true ->
  parseInt10 [a; b] = Num (twoDigits a b).
Proof.
  intros Ha Hb. digit_cases a Ha; digit_cases b Hb; reflexivity.
Qed.

Lemma twoDigits_range (a b : Z) :
  isDigit a = true -> isDigit b = true -> 0 <= twoDigits a b <= 99.
Proof.
  unfold isDigit, twoDigits. intros Ha Hb.
  apply andb_prop in Ha as [? ?]. apply andb_prop in Hb as [? ?]. lia.
Qed.

Lemma parseExpirationDate_digits (tz a b c d : Z) :
  Z.abs tz <= msPerDay ->
  isDigit a = true -> isDigit b = true -> isDigit c = true -> isDigit d = true ->
  1 <= twoDigits a b <= 12 ->
  CardExpirationAnalyzer.parseExpirationDate tz (Some [a; b; c; d])
  = Some (mkDate (Num (localMidnight tz (2000 + twoDigits c d) (twoDigits a b)
                         (daysInMonth (2000 + twoDigits c d) (twoDigits a b))))).
Proof.
  intros Htz Ha Hb Hc Hd Hm.
  pose proof (twoDigits_range c d Hc Hd) as Hy.
  unfold CardExpirationAnalyzer.parseExpirationDate.
  change (negb (Nat.eqb (List.length [a; b; c; d]) 4)) with false. cbv iota.
  change (substring [a; b; c; d] 0 2) with [a; b].
  change (substring [a; b; c; d] 2 4) with [c; d].
  rewrite !parseInt10_two_digits by assumption.
  unfold num_add, num_sub.
  replace (twoDigits c d + 2000) with (2000 + twoDigits c d) by lia.
  set (y := 2000 + twoDigits c d) in *. set (m := twoDigits a b) in *.
  rewrite (getLastDayOfMonth_correct tz Htz y m) by lia.
  pose proof (daysInMonth_range y m Hm) as Hr.
  f_equal.
  apply newDate_of_dayNumber; [assumption|lia| |].
  - rewrite MakeDay_civil by lia. reflexivity.
  - apply dayNumber_bounds; lia.
Qed.

(* ===================================================================== *)
(** * The expiration codec                                                *)
(* ===================================================================== *)

Import Clover CardExpirationAnalyzer.

(** C4: a code of four decimal digits MMYY whose month is 1..12 resolves to
    a date whose year is 2000 + YY, whose month is MM and whose day is the
    last day of that month by the calendar (28, 29, 30 or 31), at local
    midnight; for February the day is 29 exactly when 2000 + YY is a leap
    year. *)
Theorem C4_last_day_of_month (tz a b c d : Z) :
  Z.abs tz <= msPerDay ->
  isDigit a = true -> isDigit b = true -> isDigit c = true -> isDigit d = true ->
  1 <= twoDigits a b <= 12 ->
  exists date,
    parseExpirationDate tz (Some [a; b; c; d]) = Some date
    /\ getFullYear tz date = Num (2000 + twoDigits c d)
    /\ getMonth tz date = Num (twoDigits a b - 1)
    /\ getDate tz date = Num (daysInMonth (2000 + twoDigits c d) (twoDigits a b))
    /\ getHours tz date = Num 0
    /\ 28 <= daysInMonth (2000 + twoDigits c d) (twoDigits a b) <= 31
    /\ (twoDigits a b = 2 ->
        getDate tz date = Num (if leapYear (2000 + twoDigits c d) then 29 else 28)).
Proof.
  intros Htz Ha Hb Hc Hd Hm.
  eexists. split; [apply parseExpirationDate_digits; assumption|].
  pose proof (daysInMonth_range (2000 + twoDigits c d) (twoDigits a b) Hm) as Hr.
  destruct (localMidnight_fields tz (2000 + twoDigits c d) (twoDigits a b)
              (daysInMonth (2000 + twoDigits c d) (twoDigits a b)))
    as (H1 & H2 & H3 & H4); [assumption|lia|].
  repeat split; try assumption; try lia.
  intros H2m. rewrite H3, H2m. reflexivity.
Qed.

(** The code "0228" is 29 February 2028 (a leap year). *)
Lemma C4_last_day_of_month_witness :
  exists date,
    parseExpirationDate 0 (Some (of_string "0228")) = Some date
    /\ getFullYear 0 date = Num 2028
    /\ getMonth 0 date = Num 1
    /\ getDate 0 date = Num 29.
Proof.
  destruct (C4_last_day_of_month 0 48 50 50 56) as (date & H & Hy & Hmo & Hd & _);
    try reflexivity; [vm_compute; discriminate|vm_compute; split; discriminate|].
  exists date. repeat split; assumption.
Defined.

Example parse_0227 :
  option_map (getDate 0) (parseExpirationDate 0 (Some (of_string "0227")))
  = Some (Num 28).
Proof. reflexivity. Qed.

Example parse_0200 :
  option_map (getDate 0) (parseExpirationDate 0 (Some (of_string "0200")))
  = Some (Num 29).
Proof. reflexivity. Qed.

Example parse_0430_other_zone :
  option_map (fun d => (getFullYear (-18000000) d, getMonth (-18000000) d,
                        getDate (-18000000) d))
             (parseExpirationDate (-18000000) (Some (of_string "0430")))
  = Some (Num 2030, Num 3, Num 30).
Proof. reflexivity. Qed.

(* ===================================================================== *)
(** * The card classifier                                                 *)
(* ===================================================================== *)

Lemma ceil_div_spec (a d : Z) :
  0 < d -> d * (ceil_div a d - 1) < a <= d * ceil_div a d.
Proof. intros Hd. unfold ceil_div. zdiv. Qed.

Lemma ceil_div_unique (a d n : Z) :
  0 < d -> d * (n - 1) < a <= d * n -> ceil_div a d = n.
Proof. intros Hd H. pose proof (ceil_div_spec a d Hd). nia. Qed.

Lemma analyzeCardExpiration_resolved (zone : Zone) (now : Z)
  (code : option jsstring) (date : Date) (e : Z) :
  parseExpirationDate zone code = Some date ->
  timeValue date = Num e ->
  let n := ceil_div (e - now) msPerDay in
  analyzeCardExpiration zone now code
  = Some (mkExpirationStatus
            (if n <? 0 then Expired else if n <=? 30 then ExpiringSoon
             else if n <=? 90 then ExpiringLater else Valid)
            (Num n) date
            (if n <? 0 then Critical else if n <=? 30 then Critical
             else if n <=? 90 then Warning else NoWarning)).
Proof.
  intros Hp He n. unfold analyzeCardExpiration. rewrite Hp.
  unfold getDaysUntilExpiration, getTime. rewrite He. unfold num_sub.
  change (1000 * 3600 * 24) with msPerDay. fold n.
  unfold num_ltb, num_leb.
  destruct (n <? 0); [reflexivity|].
  destruct (n <=? 30); [reflexivity|].
  destruct (n <=? 90); reflexivity.
Qed.

(** C1: when the code resolves to a calendar date with time value [e], the
    classifier reports the ceiling [n] of [(e - now)] in whole days (so
    [n = 0] throughout the last valid day), keeps the resolved date, and
    assigns the first matching tier: [n < 0] expired/critical, [0..30]
    expiring-soon/critical, [31..90] expiring-later/warning, above 90
    valid/none; 30, 31, 90 and 91 whole days out fall in expiring-soon,
    expiring-later, expiring-later and valid. *)
Theorem C1_days_until_and_status (zone : Zone) (now : Z) (code : option jsstring)
  (date : Date) (e : Z) :
  parseExpirationDate zone code = Some date ->
  timeValue date = Num e ->
  exists r n,
    analyzeCardExpiration zone now code = Some r
    /\ daysUntilExpiration r = Num n
    /\ expirationDate r = date
    /\ msPerDay * (n - 1) < e - now <= msPerDay * n
    /\ (- msPerDay < e - now <= 0 -> n = 0)
    /\ (n < 0 -> status r = Expired /\ warningLevel r = Critical)
    /\ (0 <= n <= 30 -> status r = ExpiringSoon /\ warningLevel r = Critical)
    /\ (31 <= n <= 90 -> status r = ExpiringLater /\ warningLevel r = Warning)
    /\ (90 < n -> status r = Valid /\ warningLevel r = NoWarning)
    /\ (e - now = 30 * msPerDay -> status r = ExpiringSoon)
    /\ (e - now = 31 * msPerDay -> status r = ExpiringLater)
    /\ (e - now = 90 * msPerDay -> status r = ExpiringLater)
    /\ (e - now = 91 * msPerDay -> status r = Valid).
Proof.
  intros Hp He.
  pose proof (analyzeCardExpiration_resolved zone now code date e Hp He) as H.
  cbv zeta in H. set (n := ceil_div (e - now) msPerDay) in *.
  pose proof (ceil_div_spec (e - now) msPerDay ltac:(reflexivity)) as Hn.
  fold n in Hn.
  eexists. exists n. split; [exact H|]. cbn [daysUntilExpiration expirationDate
                                             status warningLevel].
  assert (Hk : forall k, e - now = k * msPerDay -> n = k)
    by (intros k Hk; unfold msPerDay in *; nia).
  split; [reflexivity|]. split; [reflexivity|]. split; [exact Hn|].
  split; [unfold msPerDay in *; nia|].
  destruct (Z.ltb_spec n 0); [repeat split; intros; try lia;
    match goal with Hx : e - now = _ |- _ => apply Hk in Hx; lia end|].
  destruct (Z.leb_spec n 30); [repeat split; intros; try lia;
    match goal with Hx : e - now = _ |- _ => apply Hk in Hx; lia end|].
  destruct (Z.leb_spec n 90); repeat split; intros; try lia;
    match goal with Hx : e - now = _ |- _ => apply Hk in Hx; lia end.
Qed.

(** The code "1226" seen from local midnight of 15 November 2026. *)
Lemma C1_days_until_and_status_witness :
  exists r n,
    analyzeCardExpiration 0 (localMidnight 0 2026 11 15) (Some (of_string "1226"))
    = Some r
    /\ daysUntilExpiration r = Num n
    /\ msPerDay * (n - 1) < localMidnight 0 2026 12 31 - localMidnight 0 2026 11 15
       <= msPerDay * n.
Proof.
  destruct (C1_days_until_and_status 0 (localMidnight 0 2026 11 15)
              (Some (of_string "1226"))
              (mkDate (Num (localMidnight 0 2026 12 31)))
              (localMidnight 0 2026 12 31) eq_refl eq_refl)
    as (r & n & H1 & H2 & _ & H3 & _).
  exists r, n. repeat split; try assumption; apply H3.
Defined.

(** ** The fixture of 15 November 2026 *)

(** C8 (as the code behaves): at any instant of the local day 15 November
    2026 the code "1226" resolves to 31 December 2026, is 46 days away, and
    is classified expiring-later with warning level warning (46 is above
    the 30-day bound of expiring-soon). *)
Theorem C8_code_1226_on_2026_11_15 (tz now : Z) :
  Z.abs tz <= msPerDay ->
  localMidnight tz 2026 11 15 <= now < localMidnight tz 2026 11 16 ->
  analyzeCardExpiration tz now (Some (of_string "1226"))
  = Some (mkExpirationStatus ExpiringLater (Num 46)
            (mkDate (Num (localMidnight tz 2026 12 31))) Warning).
Proof.
  intros Htz Hnow.
  assert (Hp : parseExpirationDate tz (Some (of_string "1226"))
               = Some (mkDate (Num (localMidnight tz 2026 12 31)))).
  { change (of_string "1226") with [49; 50; 50; 54].
    rewrite parseExpirationDate_digits; try reflexivity; try assumption.
    vm_compute; split; discriminate. }
  rewrite (analyzeCardExpiration_resolved tz now _ _ _ Hp eq_refl).
  assert (Hn : ceil_div (localMidnight tz 2026 12 31 - now) msPerDay = 46).
  { apply ceil_div_unique; [reflexivity|].
    unfold localMidnight in *.
    change (dayNumber 2026 (12 - 1) 31) with 20818.
    change (dayNumber 2026 (11 - 1) 15) with 20772 in Hnow.
    change (dayNumber 2026 (11 - 1) 16) with 20773 in Hnow.
    unfold msPerDay in *. lia. }
  rewrite Hn. reflexivity.
Qed.

Lemma C8_code_1226_on_2026_11_15_witness :
  analyzeCardExpiration 0 (localMidnight 0 2026 11 15) (Some (of_string "1226"))
  = Some (mkExpirationStatus ExpiringLater (Num 46)
            (mkDate (Num (localMidnight 0 2026 12 31))) Warning).
Proof.
  apply (C8_code_1226_on_2026_11_15 0 (localMidnight 0 2026 11 15)).
  - vm_compute. discriminate.
  - vm_compute. split; [discriminate|reflexivity].
Defined.

(** C8 as stated (46 days and expiring-soon) does not hold at that
    instant. *)
Lemma C8_stated_fails :
  ~ (exists r,
       analyzeCardExpiration 0 (localMidnight 0 2026 11 15)
         (Some (of_string "1226")) = Some r
       /\ daysUntilExpiration r = Num 46
       /\ status r = ExpiringSoon).
Proof.
  intros (r & H & _ & Hs).
  vm_compute in H. injection H as <-. discriminate Hs.
Qed.

(** The other two codes of the same fixture behave as listed. *)
Example fixture_1026 :
  option_map (fun r => (status r, daysUntilExpiration r))
    (analyzeCardExpiration 0 (localMidnight 0 2026 11 15) (Some (of_string "1026")))
  = Some (Expired, Num (-15)).
Proof. reflexivity. Qed.

Example fixture_1126 :
  option_map (fun r => (status r, daysUntilExpiration r))
    (analyzeCardExpiration 0 (localMidnight 0 2026 11 15) (Some (of_string "1126")))
  = Some (ExpiringSoon, Num 15).
Proof. reflexivity. Qed.

(** ** Codes of the right length that are not a month and a year *)

Lemma parseExpirationDate_none (zone : Zone) (code : option jsstring) :
  parseExpirationDate zone code = None
  <-> code = None \/ exists s, code = Some s /\ List.length s <> 4%nat.
Proof.
  unfold parseExpirationDate. destruct code as [s|].
  - destruct s as [|c0 s].
    + split; [intros _; right; exists []; split; [reflexivity|discriminate]
             |reflexivity].
    + destruct (Nat.eqb_spec (List.length (c0 :: s)) 4) as [E|E]; cbn [negb].
      * split; [discriminate|].
        intros [H|(s' & H & Hl)]; [discriminate|].
        injection H as <-. contradiction.
      * split; [|reflexivity].
        intros _. right. exists (c0 :: s). split; [reflexivity|assumption].
  - split; [intros _; left; reflexivity|reflexivity].
Qed.

Lemma analyzeCardExpiration_none (zone : Zone) (now : Z) (code : option jsstring) :
  analyzeCardExpiration zone now code = None <-> parseExpirationDate zone code = None.
Proof.
  unfold analyzeCardExpiration. destruct (parseExpirationDate zone code) as [d|].
  - split; [|discriminate].
    destruct (num_ltb _ _); [discriminate|].
    destruct (num_leb _ _); [discriminate|].
    destruct (num_leb _ _); discriminate.
  - split; reflexivity.
Qed.

(** C5 (behaviour of the code): every four-character code is parsed and
    yields a record, never the absent-code answer.  Month "00" resolves to
    31 December of the previous year and month "13" to 31 January of the
    next, a letter after a digit is ignored, and the results are classified
    by their day count like any other date; a code without digits yields a
    record whose date is invalid and whose day count is NaN. *)
Theorem C5_malformed_codes_are_classified :
  let now := localMidnight 0 2026 11 15 in
  (forall tz t s, List.length s = 4%nat ->
                  analyzeCardExpiration tz t (Some s) <> None)
  /\ analyzeCardExpiration 0 now None = None
  /\ analyzeCardExpiration 0 now (Some (of_string "0026"))
     = Some (mkExpirationStatus Expired (Num (-319))
               (mkDate (Num (localMidnight 0 2025 12 31))) Critical)
  /\ analyzeCardExpiration 0 now (Some (of_string "1326"))
     = Some (mkExpirationStatus ExpiringLater (Num 77)
               (mkDate (Num (localMidnight 0 2027 1 31))) Warning)
  /\ analyzeCardExpiration 0 now (Some (of_string "1a26"))
     = Some (mkExpirationStatus Expired (Num (-288))
               (mkDate (Num (localMidnight 0 2026 1 31))) Critical)
  /\ analyzeCardExpiration 0 now (Some (of_string "ab26"))
     = Some (mkExpirationStatus Valid NaN (mkDate NaN) NoWarning).
Proof.
  cbv zeta. split; [|repeat split; vm_compute; reflexivity].
  intros tz t s Hs H.
  apply analyzeCardExpiration_none, parseExpirationDate_none in H.
  destruct H as [H|(s' & H & Hl)]; [discriminate H|].
  injection H as <-. contradiction.
Qed.

(* ===================================================================== *)
(** * Population analysis and summary                                     *)
(* ===================================================================== *)

Lemma Status_eqb_eq (a b : Status) : Status_eqb a b = true <-> a = b.
Proof. destruct a, b; simpl; split; intro H; congruence. Qed.

Lemma flaggedb_spec (st : Status) (c : CustomerWithExpiration) :
  flaggedb st c = true <-> flagged st c.
Proof.
  unfold flaggedb, flagged. rewrite existsb_exists.
  split; intros (a & Ha & Hs); exists a; split; try assumption;
    apply Status_eqb_eq; assumption.
Qed.

Lemma hasStatusIn_single (st : Status) (c : CustomerWithExpiration) :
  hasStatusIn [st] c = flaggedb st c.
Proof.
  unfold hasStatusIn, flaggedb.
  induction (expirationAnalysis c) as [|a l IH]; [reflexivity|].
  cbn [existsb] in *. rewrite IH, orb_false_r. reflexivity.
Qed.

Lemma fold_left_sum {A : Type} (f : A -> Z) (l : list A) (acc : Z) :
  fold_left (fun sum c => sum + f c) l acc = acc + sumZ f l.
Proof.
  revert acc. induction l as [|x l IH]; intros acc; simpl; [lia|].
  rewrite IH. lia.
Qed.


Lemma length_filter_sum {A : Type} (p : A -> bool) (l : list A) :
  Z.of_nat (List.length (filter p l)) = sumZ (fun x => if p x then 1 else 0) l.
Proof.
  induction l as [|x l IH]; [reflexivity|].
  cbn [filter sumZ]. destruct (p x); cbn [List.length]; lia.
Qed.

Lemma sumZ_filter {A : Type} (p : A -> bool) (f : A -> Z) (l : list A) :
  sumZ f (filter p l) = sumZ (fun x => if p x then f x else 0) l.
Proof.
  induction l as [|x l IH]; [reflexivity|].
  cbn [filter sumZ]. destruct (p x); cbn [sumZ]; lia.
Qed.

Lemma filterByStatus_single (st : Status) (cs : list CustomerWithExpiration) :
  filterByStatus cs [st] = filter (flaggedb st) cs.
Proof.
  unfold filterByStatus. induction cs as [|c cs IH]; [reflexivity|].
  cbn [filter]. rewrite hasStatusIn_single, IH. reflexivity.
Qed.

Lemma bucket_reports (st : Status) (cs : list CustomerWithExpiration) :
  bucketReports st
    (mkBucket (Z.of_nat (List.length (filterByStatus cs [st])))
              (countRecords (filterByStatus cs [st]))) cs.
Proof.
  unfold bucketReports, countRecords. cbn [bucketCustomers bucketCards].
  rewrite filterByStatus_single, length_filter_sum, fold_left_sum, sumZ_filter.
  split; [reflexivity|]. unfold records. lia.
Qed.

Lemma sumZ_same {A : Type} (f g : A -> Z) (l : list A) :
  (forall x, f x = g x) -> sumZ f l = sumZ g l.
Proof.
  intros H. induction l as [|x l IH]; cbn [sumZ]; [reflexivity|].
  rewrite H, IH. reflexivity.
Qed.

(** C6: the summary of a classified population reports the number of
    customers; as total cards the sum of the lengths of the customers' raw
    card arrays (every card of a flat array counts, whatever its code; a
    [cards] field that is not an array counts 0); and for each of expired,
    expiring-soon and expiring-later the number of customers with at least
    one record in that status and the number of classification records of
    those customers.  A customer whose two records are both expired adds 1
    to the expired customers and 2 to the expired records. *)
Theorem C6_summary_counts (cs : list CustomerWithExpiration) :
  let s := generateSummary cs in
  totalCustomers s = Z.of_nat (List.length cs)
  /\ totalCards s
     = sumZ (fun c => match cards (customer c) with
                      | CardsArray l => Z.of_nat (List.length l)
                      | CardsAbsent | CardsNested _ => 0
                      end) cs
  /\ (forall c l,
        cards (customer c) = CardsArray l ->
        totalCards (generateSummary (c :: cs))
        = totalCards s + Z.of_nat (List.length l))
  /\ bucketReports Expired (summaryExpired s) cs
  /\ bucketReports ExpiringSoon (summaryExpiringSoon s) cs
  /\ bucketReports ExpiringLater (summaryExpiringLater s) cs
  /\ (forall st c, flaggedb st c = true <-> flagged st c)
  /\ (forall c a1 a2,
        expirationAnalysis c = [a1; a2] ->
        status (expiration a1) = Expired -> status (expiration a2) = Expired ->
        bucketCustomers (summaryExpired (generateSummary (c :: cs)))
        = bucketCustomers (summaryExpired s) + 1
        /\ bucketCards (summaryExpired (generateSummary (c :: cs)))
           = bucketCards (summaryExpired s) + 2).
Proof.
  cbv zeta. unfold generateSummary.
  cbn [totalCustomers totalCards summaryExpired summaryExpiringSoon
       summaryExpiringLater].
  split; [reflexivity|].
  split; [rewrite fold_left_sum, Z.add_0_l; apply sumZ_same; intros c;
          unfold rawCardArray; destruct (cards (customer c)); reflexivity|].
  split; [intros c l Hc; rewrite !fold_left_sum; cbn [sumZ];
          unfold rawCardArray at 1; rewrite Hc; lia|].
  unfold getExpiredCards, getExpiringSoonCards, getExpiringLaterCards.
  split; [apply bucket_reports|]. split; [apply bucket_reports|].
  split; [apply bucket_reports|]. split; [apply flaggedb_spec|].
  intros c a1 a2 Hc H1 H2.
  destruct (bucket_reports Expired (c :: cs)) as [Hn1 Hn2].
  destruct (bucket_reports Expired cs) as [Ho1 Ho2].
  cbn [bucketCustomers bucketCards] in *.
  rewrite Hn1, Hn2, Ho1, Ho2. cbn [sumZ].
  assert (Hf : flaggedb Expired c = true).
  { unfold flaggedb. rewrite Hc. cbn [existsb]. rewrite H1. reflexivity. }
  rewrite Hf. unfold records. rewrite Hc. cbn [List.length]. lia.
Qed.

Example summary_two_expired_cards :
  let e := mkExpirationStatus Expired (Num (-3)) (mkDate (Num 0)) Critical in
  let k := mkCard None None None None in
  let c := mkCustomerWithExpiration
             (mkCustomer [] (CardsArray [k; k]) None None USD)
             [mkAnalysis k e; mkAnalysis k e] in
  generateSummary [c]
  = mkSummary 1 2 (mkBucket 1 2) (mkBucket 0 0) (mkBucket 0 0).
Proof. reflexivity. Qed.

(** ** Cards without expiration *)

Lemma existsb_of_map {A B : Type} (p : B -> bool) (f : A -> B) (l : list A) :
  existsb p (map f l) = existsb (fun x => p (f x)) l.
Proof. induction l as [|x l IH]; [reflexivity|]. cbn. rewrite IH. reflexivity. Qed.

Lemma flaggedb_sameStatuses (st : Status) (c c' : CustomerWithExpiration) :
  sameStatuses c c' -> flaggedb st c = flaggedb st c'.
Proof.
  intros [_ H]. unfold flaggedb.
  rewrite <- (existsb_of_map (fun s => Status_eqb s st)
                (fun a => status (expiration a)) (expirationAnalysis c)).
  rewrite <- (existsb_of_map (fun s => Status_eqb s st)
                (fun a => status (expiration a)) (expirationAnalysis c')).
  rewrite H. reflexivity.
Qed.

Lemma records_sameStatuses (c c' : CustomerWithExpiration) :
  sameStatuses c c' -> records c = records c'.
Proof.
  intros [_ H]. unfold records. apply (f_equal (@List.length _)) in H.
  rewrite !length_map in H. rewrite H. reflexivity.
Qed.

Lemma generateSummary_sameStatuses (cs cs' : list CustomerWithExpiration) :
  Forall2 sameStatuses cs cs' -> generateSummary cs = generateSummary cs'.
Proof.
  intros H.
  assert (Hsum : forall f : CustomerWithExpiration -> Z,
            (forall c c', sameStatuses c c' -> f c = f c') ->
            sumZ f cs = sumZ f cs').
  { intros f Hf. induction H as [|c c' l l' Hc Hl IH]; [reflexivity|].
    cbn [sumZ]. rewrite (Hf c c' Hc), IH. reflexivity. }
  pose proof (C := fun st => conj (bucket_reports st cs) (bucket_reports st cs')).
  unfold generateSummary, getExpiredCards, getExpiringSoonCards,
    getExpiringLaterCards.
  assert (Hb : forall st,
            mkBucket (Z.of_nat (List.length (filterByStatus cs [st])))
                     (countRecords (filterByStatus cs [st]))
            = mkBucket (Z.of_nat (List.length (filterByStatus cs' [st])))
                       (countRecords (filterByStatus cs' [st]))).
  { intros st. destruct (C st) as [[H1 H2] [H3 H4]].
    cbn [bucketCustomers bucketCards] in *. rewrite H1, H2, H3, H4.
    f_equal; apply Hsum; intros c c' Hc;
      rewrite (flaggedb_sameStatuses st c c' Hc);
      rewrite ?(records_sameStatuses c c' Hc); reflexivity. }
  rewrite !Hb. rewrite !fold_left_sum.
  rewrite (Hsum (fun c => Z.of_nat (List.length (rawCardArray (customer c)))))
    by (intros c c' [Hc _]; rewrite Hc; reflexivity).
  rewrite (Forall2_length H). reflexivity.
Qed.

Lemma analyzeClientStatus_statuses (now : Z) (c : Customer) (l l' : list Analysis) :
  map (fun a => status (expiration a)) l = map (fun a => status (expiration a)) l' ->
  ClientStatusAnalyzer.analyzeClientStatus now c (Some l)
  = ClientStatusAnalyzer.analyzeClientStatus now c (Some l').
Proof.
  intros H. unfold ClientStatusAnalyzer.analyzeClientStatus.
  assert (E : forall st,
            existsb (fun a => Status_eqb (status (expiration a)) st) l
            = existsb (fun a => Status_eqb (status (expiration a)) st) l').
  { intros st.
    rewrite <- (existsb_of_map (fun s => Status_eqb s st)
                  (fun a => status (expiration a)) l).
    rewrite <- (existsb_of_map (fun s => Status_eqb s st)
                  (fun a => status (expiration a)) l').
    rewrite H. reflexivity. }
  rewrite !E. reflexivity.
Qed.

(** C9 (as the code behaves): a classification record has one of the four
    statuses expired, expiring-soon, expiring-later, valid.  A card whose
    code is absent, empty or not four characters long (exactly the cards
    for which the classifier returns null) receives the record with status
    valid, 999999 days, date 2099-12-31 and no warning, which has the
    status and warning level of any card more than 90 days from expiring;
    the summary of a population and the client status of a customer do not
    change when records are replaced by records of the same status. *)
Theorem C9_no_expiration_fallback (zone : Zone) (now : Z) :
  (forall k, noParsableCode k -> analyzeCard zone now k = mkAnalysis k sentinel)
  /\ (forall k,
        analyzeCardExpiration zone now (Clover.expirationDate k) = None
        <-> noParsableCode k)
  /\ (forall c a,
        In a (expirationAnalysis (analyzeCustomer zone now c)) ->
        exists k, In k (cardsOf c) /\ a = analyzeCard zone now k
                  /\ (status (expiration a) = Expired
                      \/ status (expiration a) = ExpiringSoon
                      \/ status (expiration a) = ExpiringLater
                      \/ status (expiration a) = Valid))
  /\ (forall code r n,
        analyzeCardExpiration zone now code = Some r ->
        daysUntilExpiration r = Num n -> 90 < n ->
        status r = status sentinel /\ warningLevel r = warningLevel sentinel)
  /\ (forall cs cs',
        Forall2 sameStatuses cs cs' -> generateSummary cs = generateSummary cs')
  /\ (forall c l l',
        map (fun a => status (expiration a)) l
        = map (fun a => status (expiration a)) l' ->
        ClientStatusAnalyzer.analyzeClientStatus now c (Some l)
        = ClientStatusAnalyzer.analyzeClientStatus now c (Some l')).
Proof.
  assert (Hnone : forall k,
            analyzeCardExpiration zone now (Clover.expirationDate k) = None
            <-> noParsableCode k).
  { intros k. rewrite analyzeCardExpiration_none, parseExpirationDate_none.
    unfold noParsableCode.
    destruct (Clover.expirationDate k) as [s|]; split; intros H; auto.
    - destruct H as [H|(s' & H & Hl)]; [discriminate H|].
      injection H as <-. exact Hl.
    - right. eauto. }
  split; [|split; [|split; [|split; [|split]]]].
  - intros k Hk. apply Hnone in Hk. unfold analyzeCard. rewrite Hk. reflexivity.
  - exact Hnone.
  - intros c a Ha. unfold analyzeCustomer in Ha. cbn [expirationAnalysis] in Ha.
    apply in_map_iff in Ha as (k & <- & Hk). exists k.
    split; [assumption|]. split; [reflexivity|].
    destruct (status (expiration (analyzeCard zone now k))); auto.
  - intros code r n Hr Hn Hgt. unfold analyzeCardExpiration in Hr.
    destruct (parseExpirationDate zone code) as [d|]; [|discriminate].
    destruct (getDaysUntilExpiration now d) as [|m] eqn:E.
    + cbn in Hr. injection Hr as <-. discriminate Hn.
    + unfold num_ltb, num_leb in Hr.
      destruct (Z.ltb_spec m 0); [injection Hr as <-; cbn in Hn; injection Hn as ->; lia|].
      destruct (Z.leb_spec m 30); [injection Hr as <-; cbn in Hn; injection Hn as ->; lia|].
      destruct (Z.leb_spec m 90); injection Hr as <-; cbn in Hn; injection Hn as ->;
        [lia|split; reflexivity].
  - apply generateSummary_sameStatuses.
  - apply analyzeClientStatus_statuses.
Qed.

(** C9 as stated fails for a code that does not parse although it has four
    characters: "ab26" receives a record with an invalid date and a day
    count that is not a number, not the record for cards without
    expiration. *)
Lemma C9_stated_fails :
  ~ statedFallback 0 (localMidnight 0 2026 11 15)
      (mkCard None None (Some (of_string "ab26")) None).
Proof.
  intros H.
  assert (Hp : ~ monthYearCode (of_string "ab26")).
  { intros (a & b & c & d & E & Ha & _). injection E as <- <- <- <-.
    vm_compute in Ha. discriminate Ha. }
  specialize (H Hp). vm_compute in H. discriminate H.
Qed.

(** ** The two shapes of the [cards] field *)


Lemma totalCards_sum (cs : list CustomerWithExpiration) :
  totalCards (generateSummary cs)
  = sumZ (fun c => Z.of_nat (List.length (rawCardArray (customer c)))) cs.
Proof. unfold generateSummary. cbn [totalCards]. rewrite fold_left_sum. lia. Qed.



Example nested_customer_summary :
  let k := mkCard None None (Some (of_string "1026")) None in
  let c := mkCustomer [] (CardsNested (Some [k; k; k])) None None CAD in
  generateSummary (analyzeCustomers 0 (localMidnight 0 2026 11 15) [c])
  = mkSummary 1 0 (mkBucket 1 3) (mkBucket 0 0) (mkBucket 0 0).
Proof. reflexivity. Qed.

(* ===================================================================== *)
(** * Policy B: the client status                                         *)
(* ===================================================================== *)

Import ClientStatusAnalyzer.

Lemma hasPaymentMethods_cardsOf (c : Customer) :
  hasPaymentMethods c = true <-> cardsOf c <> [].
Proof.
  unfold hasPaymentMethods, cardsOf.
  destruct (cards c) as [|l|[l|]]; try destruct l;
    split; intro H; try reflexivity; try discriminate; try congruence.
Qed.

Lemma existsb_status (st : Status) (l : list Analysis) :
  existsb (fun a => Status_eqb (status (expiration a)) st) l = true
  <-> exists a, In a l /\ status (expiration a) = st.
Proof.
  rewrite existsb_exists.
  split; intros (a & Ha & Hs); exists a; split; try assumption;
    apply Status_eqb_eq; assumption.
Qed.

Lemma existsb_status_false (st : Status) (l : list Analysis) :
  existsb (fun a => Status_eqb (status (expiration a)) st) l = false
  <-> ~ exists a, In a l /\ status (expiration a) = st.
Proof.
  rewrite <- existsb_status.
  destruct (existsb _ l); split; intro H; congruence.
Qed.

Lemma anyRecordb_spec (analysis : option (list Analysis)) (st : Status) :
  (exists l a, analysis = Some l /\ In a l /\ status (expiration a) = st)
  <-> anyRecordb analysis st = true.
Proof.
  unfold anyRecordb. destruct analysis as [l|].
  - rewrite existsb_status. split.
    + intros (l' & a & Heq & Hin & Hs). injection Heq as <-. eauto.
    + intros (a & Hin & Hs). eauto.
  - split; [intros (l' & a & Heq & _); discriminate Heq|discriminate].
Qed.

Lemma creationTime_spec (c : Customer) (t : Z) :
  truthyNum (creationTime c) = Some t <-> timestampOf c t.
Proof.
  unfold creationTime, timestampOf, truthyNum.
  destruct (createdTime c) as [x|], (customerSince c) as [y|];
    repeat match goal with
           | |- context [?a =? 0] => destruct (Z.eqb_spec a 0)
           end;
    split; intros H; subst;
    repeat match goal with
           | H : _ \/ _ |- _ => destruct H
           | H : _ /\ _ |- _ => destruct H
           | H : Some _ = Some _ |- _ => injection H as H
           | H : None = Some _ |- _ => discriminate H
           | H : Some _ = None |- _ => discriminate H
           end; subst; try contradiction; try reflexivity; try lia; auto.
Qed.

Lemma creationTime_none (c : Customer) :
  truthyNum (creationTime c) = None <-> forall t, ~ timestampOf c t.
Proof.
  split.
  - intros H t Ht. apply creationTime_spec in Ht. congruence.
  - intros H. destruct (truthyNum (creationTime c)) as [t|] eqn:E; [|reflexivity].
    exfalso. apply (H t), creationTime_spec, E.
Qed.

Lemma getDaysSinceCreated_valid (now t : Z) :
  validTime t ->
  getDaysSinceCreated now t = Num (floor_div (now - t) msPerDay).
Proof.
  unfold validTime, getDaysSinceCreated, newDateValue, getTime, timeValue, TimeClip.
  intros H.
  replace (Z.abs t <=? 8640000000000000) with true
    by (symmetry; apply Z.leb_le; unfold msPerDay in H; lia).
  reflexivity.
Qed.

Lemma getDaysSinceCreated_invalid (now t : Z) :
  ~ validTime t -> getDaysSinceCreated now t = NaN.
Proof.
  unfold validTime, getDaysSinceCreated, newDateValue, getTime, timeValue, TimeClip.
  intros H.
  replace (Z.abs t <=? 8640000000000000) with false
    by (symmetry; apply Z.leb_gt; unfold msPerDay in H; lia).
  reflexivity.
Qed.

Lemma own_records (zone : Zone) (now : Z) (c : Customer) (st : Status) :
  (exists a, In a (expirationAnalysis (analyzeCustomer zone now c))
             /\ status (expiration a) = st)
  <-> exists k, In k (cardsOf c)
                /\ status (expiration (analyzeCard zone now k)) = st.
Proof.
  cbn [analyzeCustomer expirationAnalysis]. split.
  - intros (a & Ha & Hs). apply in_map_iff in Ha as (k & <- & Hk). eauto.
  - intros (k & Hk & Hs). exists (analyzeCard zone now k).
    split; [apply in_map; assumption|assumption].
Qed.

(** C3 (as the code behaves): the client status follows the seven rules in
    order, with the expired and expiring-soon cards of rules 2, 3 and 7
    read from the expiration analysis passed with the customer.  Without a
    creation timestamp ([createdTime], else [customerSince]; a missing or
    zero value counts as none) the status is all-good with cards and
    inactive-old without, priority none.  Otherwise, with [age] the whole
    days from the timestamp (a valid date) to now: cards and an expired
    record give expired-cards / critical; cards, no expired record and an
    expiring-soon record give expiring-cards / high; no cards and
    [age <= 180] give new-needs-payment / high; no cards and [age > 365]
    give inactive-old / none; no cards and [180 < age <= 365] give
    inactive-old / low; anything else (cards and no such record, in
    particular when no analysis is passed) is all-good / none.
    [requiresAction] holds exactly for expired-cards, expiring-cards and
    new-needs-payment, and selects the customers requiring action.  In the
    customer's own analysis a record has a status exactly when a card is
    classified with it. *)
Theorem C3_client_status_rules (now : Z) (c : Customer)
  (analysis : option (list Analysis)) :
  let r := analyzeClientStatus now c analysis in
  let withCards := cardsOf c <> [] in
  let anyRecord st :=
    exists l a, analysis = Some l /\ In a l /\ status (expiration a) = st in
  ((forall t, ~ timestampOf c t) ->
   (withCards -> clientStatusTag r = AllGood)
   /\ (~ withCards -> clientStatusTag r = InactiveOld)
   /\ priority r = PNone)
  /\ (forall t, timestampOf c t -> validTime t ->
      exists age,
        daysOld r = Num age
        /\ msPerDay * age <= now - t < msPerDay * (age + 1)
        /\ (withCards -> anyRecord Expired ->
            clientStatusTag r = ExpiredCards /\ priority r = PCritical)
        /\ (withCards -> ~ anyRecord Expired -> anyRecord ExpiringSoon ->
            clientStatusTag r = ExpiringCards /\ priority r = PHigh)
        /\ (~ withCards -> age <= 180 ->
            clientStatusTag r = NewNeedsPayment /\ priority r = PHigh)
        /\ (~ withCards -> 365 < age ->
            clientStatusTag r = InactiveOld /\ priority r = PNone)
        /\ (~ withCards -> 180 < age <= 365 ->
            clientStatusTag r = InactiveOld /\ priority r = PLow)
        /\ (withCards -> ~ anyRecord Expired -> ~ anyRecord ExpiringSoon ->
            clientStatusTag r = AllGood /\ priority r = PNone))
  /\ (forall t, timestampOf c t -> ~ validTime t ->
      daysOld r = NaN
      /\ (~ withCards -> clientStatusTag r = InactiveOld /\ priority r = PLow))
  /\ (hasCards r = true <-> withCards)
  /\ (requiresAction r = true
      <-> clientStatusTag r = ExpiredCards \/ clientStatusTag r = ExpiringCards
          \/ clientStatusTag r = NewNeedsPayment)
  /\ (forall xs,
        getCustomersRequiringAction (analyzeCustomersWithStatus now xs)
        = filter (fun w => match clientStatusTag (clientStatus w) with
                           | ExpiredCards | ExpiringCards | NewNeedsPayment => true
                           | AllGood | InactiveOld => false
                           end)
                 (analyzeCustomersWithStatus now xs))
  /\ (forall zone st,
        (exists a, In a (expirationAnalysis (analyzeCustomer zone now c))
                   /\ status (expiration a) = st)
        <-> exists k, In k (cardsOf c)
                      /\ status (expiration (analyzeCard zone now k)) = st).
Proof.
  cbv zeta.
  assert (Hreq : forall c0 an0,
            requiresAction (analyzeClientStatus now c0 an0)
            = match clientStatusTag (analyzeClientStatus now c0 an0) with
              | ExpiredCards | ExpiringCards | NewNeedsPayment => true
              | AllGood | InactiveOld => false
              end).
  { intros c0 an0. unfold analyzeClientStatus.
    destruct (truthyNum (creationTime c0)) as [t|];
      [|destruct (hasPaymentMethods c0); reflexivity].
    destruct an0 as [l|]; destruct (hasPaymentMethods c0); cbn [negb andb];
      repeat match goal with
             | |- context [if ?b then _ else _] => destruct b
             end; reflexivity. }
  pose proof (hasPaymentMethods_cardsOf c) as Hcards.
  split; [|split; [|split; [|split; [|split; [|split]]]]].
  - intros Hno. apply creationTime_none in Hno.
    unfold analyzeClientStatus. rewrite Hno.
    destruct (hasPaymentMethods c) eqn:Hc; cbn [clientStatusTag priority].
    + split; [reflexivity|]. split; [|reflexivity].
      intros H. exfalso. apply H, Hcards. reflexivity.
    + split; [|split; reflexivity].
      intros H. apply Hcards in H. discriminate H.
  - intros t Ht Hv. apply creationTime_spec in Ht.
    unfold analyzeClientStatus. rewrite Ht.
    rewrite (getDaysSinceCreated_valid now t Hv).
    set (age := floor_div (now - t) msPerDay).
    assert (Hage : msPerDay * age <= now - t < msPerDay * (age + 1))
      by (unfold age, floor_div, msPerDay; zdiv).
    exists age.
    rewrite !anyRecordb_spec. unfold anyRecordb, num_leb, num_ltb.
    destruct (hasPaymentMethods c) eqn:Hc.
    + assert (Hw : cardsOf c <> []) by (apply Hcards; reflexivity).
      destruct analysis as [l|].
      * destruct (existsb (fun a => Status_eqb (status (expiration a)) Expired) l);
          [|destruct (existsb (fun a => Status_eqb (status (expiration a))
                                 ExpiringSoon) l)];
          cbn [negb andb clientStatusTag priority daysOld];
          (split; [reflexivity|]); (split; [exact Hage|]);
          repeat split; try reflexivity; intros; try contradiction;
          try discriminate; congruence.
      * cbn [negb andb clientStatusTag priority daysOld].
        (split; [reflexivity|]); (split; [exact Hage|]).
        repeat split; try reflexivity; intros; try contradiction;
          try discriminate; congruence.
    + assert (Hw : ~ cardsOf c <> []).
      { intros H. apply Hcards in H. discriminate H. }
      destruct analysis as [l|]; cbn [negb andb];
        (destruct (Z.leb_spec age 180);
         [|destruct (Z.ltb_spec 365 age)]);
        cbn [clientStatusTag priority daysOld];
        (split; [reflexivity|]); (split; [exact Hage|]);
        repeat split; try reflexivity; intros; try contradiction; lia.
  - intros t Ht Hv. apply creationTime_spec in Ht.
    unfold analyzeClientStatus. rewrite Ht.
    rewrite (getDaysSinceCreated_invalid now t Hv).
    destruct (hasPaymentMethods c) eqn:Hc.
    + destruct analysis as [l|];
        repeat match goal with
               | |- context [if ?b then _ else _] => destruct b
               end;
        (split; [reflexivity|]); intros H; exfalso; apply H, Hcards; reflexivity.
    + destruct analysis as [l|]; cbn [negb andb num_leb num_ltb];
        repeat split; reflexivity.
  - rewrite <- Hcards. unfold analyzeClientStatus.
    destruct (truthyNum (creationTime c)) as [t|]; [|reflexivity].
    destruct analysis as [l|]; destruct (hasPaymentMethods c); cbn [negb andb];
      repeat match goal with
             | |- context [if ?b then _ else _] => destruct b
             end; reflexivity.
  - rewrite Hreq.
    destruct (clientStatusTag (analyzeClientStatus now c analysis));
      split; intros H; try reflexivity; try discriminate; auto;
      destruct H as [H|[H|H]]; discriminate H.
  - intros xs. unfold getCustomersRequiringAction, analyzeCustomersWithStatus.
    induction xs as [|x xs IH]; [reflexivity|].
    cbn [map filter clientStatus]. rewrite Hreq, IH. reflexivity.
  - intros zone st. apply own_records.
Qed.

(** C3 as stated fails when the customer is classified without an
    expiration analysis: a customer created 30 days ago whose only card
    expired in October 2020 is all-good, not expired-cards. *)
Lemma C3_stated_fails :
  ~ ClientRules.statedRule2 0 (localMidnight 0 2026 11 15)
      (mkCustomer (of_string "C1")
         (CardsArray [mkCard None None (Some (of_string "1020")) None])
         (Some (localMidnight 0 2026 10 16)) None USD)
      None.
Proof.
  intros H.
  assert (H1 : exists t,
             timestampOf
               (mkCustomer (of_string "C1")
                  (CardsArray [mkCard None None (Some (of_string "1020")) None])
                  (Some (localMidnight 0 2026 10 16)) None USD) t).
  { exists (localMidnight 0 2026 10 16). left. split; [reflexivity|].
    vm_compute. discriminate. }
  specialize (H H1). clear H1.
  assert (H2 : exists k,
             In k (cardsOf
                     (mkCustomer (of_string "C1")
                        (CardsArray [mkCard None None (Some (of_string "1020")) None])
                        (Some (localMidnight 0 2026 10 16)) None USD))
             /\ status (expiration (analyzeCard 0 (localMidnight 0 2026 11 15) k))
                = Expired).
  { exists (mkCard None None (Some (of_string "1020")) None).
    split; [left; reflexivity|reflexivity]. }
  specialize (H H2). destruct H as [H _]. vm_compute in H. discriminate H.
Qed.

(* ===================================================================== *)
(** * Policy A: the action-required worklist                              *)
(* ===================================================================== *)

Lemma CardStatus_eqb_eq (a b : Routes.CardStatus) :
  Routes.CardStatus_eqb a b = true <-> a = b.
Proof. destruct a, b; simpl; split; intro H; congruence. Qed.

Lemma notBlank_spec (c : Routes.ListedCustomer) :
  PolicyA.hasBusinessName c
  <-> match Routes.businessName c with
      | None | Some [] => false
      | Some name => match trim name with [] => false | _ :: _ => true end
      end = true.
Proof.
  unfold PolicyA.hasBusinessName.
  destruct (Routes.businessName c) as [[|x name]|].
  - split; [intros (n & H & Ht); injection H as <-; contradiction|discriminate].
  - destruct (trim (x :: name)) as [|y t] eqn:E.
    + split; [intros (n & H & Ht); injection H as <-; congruence|discriminate].
    + split; [reflexivity|].
      intros _. exists (x :: name). split; [reflexivity|]. rewrite E. discriminate.
  - split; [intros (n & H & _); discriminate H|discriminate].
Qed.

Lemma isNewCustomer_spec (now : Z) (c : Routes.ListedCustomer) :
  PolicyA.derivedFields c -> 90 * msPerDay < now ->
  PolicyA.isNewCustomer now c
  <-> match truthyNum (Routes.customerSince c) with
      | Some since =>
          if Routes.totalCards c >? 0 then since >=? Routes.threeMonthsAgo now
          else since >=? Routes.cleanupDate
      | None => false
      end = true.
Proof.
  intros (Ht & _ & _) Hnow. unfold PolicyA.isNewCustomer, truthyNum.
  rewrite Ht. unfold Routes.threeMonthsAgo, Routes.cleanupDate, msPerDay in *.
  destruct (Routes.customerSince c) as [since|].
  - destruct (Z.eqb_spec since 0) as [->|Hne].
    + split; [|discriminate].
      intros (s & Hs & Hc). injection Hs as <-.
      destruct (PolicyA.cardList c); lia.
    + destruct (PolicyA.cardList c) as [|k l]; cbn [List.length].
      * change (Z.of_nat 0 >? 0) with false. cbv iota.
        rewrite Z.geb_le. split.
        -- intros (s & Hs & Hc). injection Hs as <-. exact Hc.
        -- intros H. exists since. split; [reflexivity|exact H].
      * replace (Z.of_nat (S (List.length l)) >? 0) with true
          by (symmetry; apply Z.gtb_lt; lia).
        rewrite Z.geb_le. split.
        -- intros (s & Hs & Hc). injection Hs as <-. lia.
        -- intros H. exists since. split; [reflexivity|lia].
  - split; [intros (s & Hs & _); discriminate Hs|discriminate].
Qed.

Lemma hasRecentlyExpired_spec (c : Routes.ListedCustomer) :
  PolicyA.hasRecentlyExpiredCard c
  <-> match Routes.cards c with
      | Some l =>
          existsb (fun card =>
                     if Routes.CardStatus_eqb (Routes.status card) Routes.StExpired
                     then Z.abs (Routes.daysUntil card) <=? 180 else false) l
      | None => false
      end = true.
Proof.
  unfold PolicyA.hasRecentlyExpiredCard, PolicyA.cardList.
  destruct (Routes.cards c) as [l|].
  - rewrite existsb_exists. split.
    + intros (k & Hin & Hs & Hd). exists k. split; [assumption|].
      rewrite Hs. cbn. apply Z.leb_le. exact Hd.
    + intros (k & Hin & H). exists k. split; [assumption|].
      destruct (Routes.CardStatus_eqb (Routes.status k) Routes.StExpired) eqn:E;
        [|discriminate].
      apply CardStatus_eqb_eq in E. apply Z.leb_le in H. split; assumption.
  - split; [intros (k & [] & _)|discriminate].
Qed.

Lemma hasExpiringSoon_spec (c : Routes.ListedCustomer) :
  PolicyA.derivedFields c ->
  PolicyA.hasExpiringSoonCard c <-> Routes.hasExpiringSoon c = true.
Proof.
  intros (_ & _ & Hs). rewrite Hs. unfold PolicyA.hasExpiringSoonCard.
  rewrite existsb_exists.
  split; intros (k & Hin & H); exists k; split; try assumption;
    apply CardStatus_eqb_eq; assumption.
Qed.

Lemma actionRequired_qualifies (now : Z) (c : Routes.ListedCustomer) :
  PolicyA.derivedFields c -> 90 * msPerDay < now ->
  Routes.actionRequired now c = true <-> PolicyA.qualifies now c.
Proof.
  intros Hd Hnow. unfold PolicyA.qualifies.
  rewrite notBlank_spec, (isNewCustomer_spec now c Hd Hnow),
    (hasExpiringSoon_spec c Hd), hasRecentlyExpired_spec.
  unfold Routes.actionRequired.
  destruct (Routes.businessName c) as [[|x name]|];
    [split; [discriminate|intros [H _]; discriminate H]| |
     split; [discriminate|intros [H _]; discriminate H]].
  destruct (trim (x :: name));
    [split; [discriminate|intros [H _]; discriminate H]|].
  rewrite !orb_true_iff. tauto.
Qed.

Lemma received_derivedFields (zone : Zone) (now : Z) (groups : ApiCustomers.Groups)
  (customer : ApiCustomers.CustomerRow) :
  PolicyA.derivedFields
    (ApiCustomers.received (ApiCustomers.customerWithAnalysis zone now groups customer)).
Proof.
  unfold PolicyA.derivedFields, PolicyA.cardList, ApiCustomers.received,
    ApiCustomers.customerWithAnalysis.
  cbn [Routes.cards Routes.totalCards Routes.hasExpired Routes.hasExpiringSoon
       ApiCustomers.pCards ApiCustomers.pTotalCards ApiCustomers.pHasExpired
       ApiCustomers.pHasExpiringSoon].
  rewrite !length_map. split; [reflexivity|].
  split; rewrite !existsb_of_map; reflexivity.
Qed.

(** C2: the population of the customers page is the payload the loader of
    the customers API builds from the customer and card rows.  With the
    clock of the page past its first 90 days, a customer of that population
    is on the action-required worklist exactly when its business name is
    present and not blank after trimming and (a) it is new ([customerSince]
    present and at or after the cleanup cutoff without cards, at or after
    now minus 90 days with cards), or (b) one of its cards is expiring
    soon, or (c) one of its cards is expired by at most 180 days.  The
    print view applies the same predicate. *)
Theorem C2_action_required_worklist (zone : Zone) (serverNow now : Z)
  (customers : list ApiCustomers.CustomerRow) (cards : list ApiCustomers.CardRow)
  (c : Routes.ListedCustomer) :
  90 * msPerDay < now ->
  let population :=
    map ApiCustomers.received
      (ApiCustomers.customersWithAnalysis zone serverNow customers cards) in
  (In c (Routes.actionRequiredCustomers now population)
   <-> In c population /\ PolicyA.qualifies now c)
  /\ (In c population ->
      (Routes.actionRequired now c = true <-> PolicyA.qualifies now c))
  /\ Routes.printActionRequired now c = Routes.actionRequired now c
  /\ Routes.cleanupDate = localMidnight 0 2025 7 21.
Proof.
  intros Hnow. cbv zeta.
  set (population := map ApiCustomers.received
                       (ApiCustomers.customersWithAnalysis zone serverNow
                          customers cards)).
  assert (Hq : In c population ->
               (Routes.actionRequired now c = true <-> PolicyA.qualifies now c)).
  { intros Hin. apply in_map_iff in Hin as (p & <- & Hp).
    unfold ApiCustomers.customersWithAnalysis in Hp.
    apply in_map_iff in Hp as (row & <- & _).
    apply actionRequired_qualifies; [apply received_derivedFields|assumption]. }
  split; [|split; [exact Hq|split; reflexivity]].
  unfold Routes.actionRequiredCustomers. rewrite filter_In.
  split; intros [Hin H]; (split; [exact Hin|]); apply (Hq Hin); exact H.
Qed.

Lemma C2_action_required_worklist_witness :
  let now := localMidnight 0 2026 11 15 in
  let row := ApiCustomers.mkCustomerRow (of_string "C1") (Some (of_string "Acme"))
               None in
  let k := ApiCustomers.mkCardRow (of_string "C1")
             (mkCard None None (Some (of_string "1126")) None) in
  let population :=
    map ApiCustomers.received (ApiCustomers.customersWithAnalysis 0 now [row] [k]) in
  let c := ApiCustomers.received
             (ApiCustomers.customerWithAnalysis 0 now
                (ApiCustomers.cardsByCustomer [k]) row) in
  In c (Routes.actionRequiredCustomers now population)
  <-> In c population /\ PolicyA.qualifies now c.
Proof.
  cbv zeta.
  refine (proj1 (C2_action_required_worklist 0 (localMidnight 0 2026 11 15)
                   (localMidnight 0 2026 11 15) _ _ _ _)).
  vm_compute. reflexivity.
Defined.

(* ===================================================================== *)
(** * The card shown for a customer                                       *)
(* ===================================================================== *)

Import Selection.

Lemma reduce1_least (key : Routes.CardAnalysis -> Z) (rest : list Routes.CardAnalysis) :
  forall first,
    let r := Routes.reduce1 (fun card best => key card <? key best) first rest in
    In r (first :: rest) /\ forall x, In x (first :: rest) -> key r <= key x.
Proof.
  unfold Routes.reduce1.
  induction rest as [|y rest IH]; intros first; cbn [fold_left].
  - split; [left; reflexivity|]. intros x [<-|[]]. lia.
  - destruct (IH (if key y <? key first then y else first)) as [Hin Hmin].
    split.
    + destruct Hin as [Hin|Hin]; [|right; right; exact Hin].
      rewrite <- Hin. destruct (key y <? key first);
        [right; left; reflexivity|left; reflexivity].
    + intros x Hx.
      assert (Hb : key (fold_left
                          (fun best card => if key card <? key best then card else best)
                          rest (if key y <? key first then y else first))
                   <= key (if key y <? key first then y else first))
        by (apply Hmin; left; reflexivity).
      destruct Hx as [<-|[<-|Hx]].
      * destruct (Z.ltb_spec (key y) (key first)); lia.
      * destruct (Z.ltb_spec (key y) (key first)); lia.
      * apply Hmin. right. exact Hx.
Qed.

Lemma filter_nil_none (pool : Routes.CardAnalysis -> bool) (l : list Routes.CardAnalysis) :
  filter pool l = [] <-> ~ anyCard pool l.
Proof.
  unfold anyCard. split.
  - intros H (k & Hin & Hp).
    assert (Hk : In k (filter pool l)) by (apply filter_In; split; assumption).
    rewrite H in Hk. exact Hk.
  - intros H. destruct (filter pool l) as [|k t] eqn:E; [reflexivity|].
    exfalso. apply H. exists k. apply filter_In. rewrite E. left. reflexivity.
Qed.

Lemma substring_firstn_skipn (s : jsstring) (a b : nat) :
  (a <= b)%nat -> substring s a b = firstn (b - a) (skipn a s).
Proof.
  intros Hab. unfold substring.
  rewrite (Nat.min_l a b Hab), (Nat.max_r a b Hab).
  destruct (Nat.le_gt_cases a (List.length s)) as [Ha|Ha].
  - rewrite (Nat.min_l a _ Ha).
    destruct (Nat.le_gt_cases b (List.length s)) as [Hb|Hb].
    + rewrite (Nat.min_l b _ Hb). reflexivity.
    + rewrite (Nat.min_r b (List.length s)) by lia.
      rewrite !firstn_all2; [reflexivity|rewrite length_skipn; lia
                            |rewrite length_skipn; lia].
  - rewrite (Nat.min_r a (List.length s)) by lia.
    rewrite (Nat.min_r b (List.length s)) by lia.
    rewrite !skipn_all2 by lia. rewrite !firstn_nil. reflexivity.
Qed.

Lemma viewOf_showsCard (lab : Routes.Label) (k : Routes.CardAnalysis) :
  showsCard lab k (Routes.viewOf lab k).
Proof.
  unfold showsCard, Routes.viewOf, maskedNumber, monthSlashYear.
  cbn [Routes.label Routes.cardNumber Routes.expiry Routes.selected].
  split; [reflexivity|]. split; [|split; [|reflexivity]].
  - destruct (Clover.first6 (Routes.card k)) as [[|x f6]|];
      destruct (Clover.last4 (Routes.card k)) as [[|z l4]|]; try reflexivity.
    unfold Routes.formatCardNumber.
    rewrite !substring_firstn_skipn by lia. reflexivity.
  - destruct (Clover.expirationDate (Routes.card k)) as [[|a [|b [|c [|d [|x e]]]]]|];
      reflexivity.
Qed.

Example view_of_a_card :
  let k := Routes.mkCardAnalysis
             (mkCard (Some (of_string "411111")) (Some (of_string "1234"))
                     (Some (of_string "1226")) None) Routes.StExpired (-3) in
  Routes.getCardStatus (Some [k])
  = Routes.mkView Routes.LExpired (of_string "12/26")
      (of_string "4111 11** **** 1234") (Some k).
Proof. reflexivity. Qed.

Lemma showsLeast_reduce (lab : Routes.Label) (pool : Routes.CardAnalysis -> bool)
  (key : Routes.CardAnalysis -> Z) (l : list Routes.CardAnalysis)
  (e : Routes.CardAnalysis) (es : list Routes.CardAnalysis) :
  filter pool l = e :: es ->
  showsLeast lab pool key l
    (Routes.viewOf lab (Routes.reduce1 (fun card best => key card <? key best) e es)).
Proof.
  intros Hf. destruct (reduce1_least key es e) as [Hin Hmin].
  set (r := Routes.reduce1 (fun card best => key card <? key best) e es) in *.
  rewrite <- Hf in Hin. apply filter_In in Hin as [Hin Hp].
  exists r. split; [apply viewOf_showsCard|]. split; [assumption|].
  split; [assumption|].
  intros k' Hk' Hp'. apply Hmin. rewrite <- Hf. apply filter_In. split; assumption.
Qed.

(** C7 (as the code behaves): if some card is expired the view shows an
    expired card with the smallest absolute day count; otherwise if some
    card is expiring soon it shows the expiring-soon card with the smallest
    day count; otherwise, for a customer without cards, it is the "no
    payment method" view; otherwise if some card is valid or active it shows
    the one with the smallest day count; otherwise (cards exist, none of
    them expired, expiring soon, valid or active) it is the bare "Active"
    view with no card.  Showing a card means: its label, its masked number
    (first four digits, next two, mask, last four) and its expiry as MM/YY.
    With one card 40 days overdue and one expiring in 10 days the expired
    card is shown. *)
Theorem C7_most_relevant_card (cards : option (list Routes.CardAnalysis)) :
  let l := match cards with Some l => l | None => [] end in
  let v := Routes.getCardStatus cards in
  (anyCard isExpired l ->
   showsLeast Routes.LExpired isExpired (fun k => Z.abs (Routes.daysUntil k)) l v)
  /\ (~ anyCard isExpired l -> anyCard isExpiringSoon l ->
      showsLeast Routes.LExpiring isExpiringSoon Routes.daysUntil l v)
  /\ (l = [] -> v = noPaymentMethod)
  /\ (~ anyCard isExpired l -> ~ anyCard isExpiringSoon l -> anyCard isActive l ->
      showsLeast Routes.LActive isActive Routes.daysUntil l v)
  /\ (~ anyCard isExpired l -> ~ anyCard isExpiringSoon l -> ~ anyCard isActive l ->
      l <> [] -> v = Routes.mkView Routes.LActive [] [] None)
  /\ (forall k1 k2 e s,
        e = Routes.mkCardAnalysis k1 Routes.StExpired (-40) ->
        s = Routes.mkCardAnalysis k2 Routes.StExpiringSoon 10 ->
        showsCard Routes.LExpired e (Routes.getCardStatus (Some [e; s]))
        /\ showsCard Routes.LExpired e (Routes.getCardStatus (Some [s; e]))).
Proof.
  cbv zeta. set (l := match cards with Some l => l | None => [] end).
  assert (Hv : Routes.getCardStatus cards
               = match filter isExpired l with
                 | e :: es =>
                     Routes.viewOf Routes.LExpired
                       (Routes.reduce1
                          (fun card best => Z.abs (Routes.daysUntil card)
                                            <? Z.abs (Routes.daysUntil best)) e es)
                 | [] =>
                     match filter isExpiringSoon l with
                     | e :: es =>
                         Routes.viewOf Routes.LExpiring
                           (Routes.reduce1
                              (fun card best => Routes.daysUntil card
                                                <? Routes.daysUntil best) e es)
                     | [] =>
                         match l with
                         | [] => noPaymentMethod
                         | _ :: _ =>
                             match filter isActive l with
                             | e :: es =>
                                 Routes.viewOf Routes.LActive
                                   (Routes.reduce1
                                      (fun card best => Routes.daysUntil card
                                                        <? Routes.daysUntil best)
                                      e es)
                             | [] => Routes.mkView Routes.LActive [] [] None
                             end
                         end
                     end
                 end) by reflexivity.
  rewrite Hv. clear Hv.
  assert (Hnil : forall pool, ~ anyCard pool l -> filter pool l = [])
    by (intros pool; apply filter_nil_none).
  assert (Hcons : forall pool, anyCard pool l ->
                    exists e es, filter pool l = e :: es).
  { intros pool Ha. destruct (filter pool l) as [|e es] eqn:E; [|eauto].
    exfalso. apply (proj1 (filter_nil_none pool l) E). exact Ha. }
  split; [|split; [|split; [|split; [|split]]]].
  - intros Ae. destruct (Hcons _ Ae) as (e & es & Fe). rewrite Fe.
    apply (showsLeast_reduce Routes.LExpired isExpired
             (fun k => Z.abs (Routes.daysUntil k)) l e es Fe).
  - intros Ne As. rewrite (Hnil _ Ne).
    destruct (Hcons _ As) as (e & es & Fs). rewrite Fs.
    apply (showsLeast_reduce Routes.LExpiring isExpiringSoon Routes.daysUntil
             l e es Fs).
  - intros ->. reflexivity.
  - intros Ne Ns Aa. rewrite (Hnil _ Ne), (Hnil _ Ns).
    destruct (Hcons _ Aa) as (e & es & Fa). rewrite Fa.
    destruct l as [|k0 l0] eqn:El; [discriminate Fa|]. rewrite <- El in *.
    apply (showsLeast_reduce Routes.LActive isActive Routes.daysUntil l e es Fa).
  - intros Ne Ns Na Hl. rewrite (Hnil _ Ne), (Hnil _ Ns), (Hnil _ Na).
    destruct l; [contradiction|reflexivity].
  - intros k1 k2 e s -> ->. split; apply viewOf_showsCard.
Qed.

(** C7 as stated fails for a customer whose only card has no expiration:
    no card is expired, expiring soon or active, yet the view is not "no
    payment method". *)
Lemma C7_stated_fails :
  ~ statedRule
      (Some [Routes.mkCardAnalysis (mkCard None None None None)
               Routes.StNoExpiration 999999]).
Proof.
  intros (_ & _ & _ & H).
  assert (N : forall pool,
            pool (Routes.mkCardAnalysis (mkCard None None None None)
                    Routes.StNoExpiration 999999) = false ->
            ~ anyCard pool [Routes.mkCardAnalysis (mkCard None None None None)
                              Routes.StNoExpiration 999999]).
  { intros pool Hp (k & [<-|[]] & Hk). congruence. }
  specialize (H (N _ eq_refl) (N _ eq_refl) (N _ eq_refl)).
  vm_compute in H. discriminate H.
Qed.


(* ===================================================================== *)
(** * Further properties of the analyzer                                  *)
(* ===================================================================== *)

(** X1: analysing a population keeps the customers, in order and
    unchanged, and gives each customer one record per card of its [cards]
    field (flat or nested), in the order of the cards and each carrying its
    card. *)
Theorem X1_analyzeCustomers_keeps_population (zone : Zone) (now : Z) (cs : list Customer) :
  map customer (analyzeCustomers zone now cs) = cs
  /\ List.length (analyzeCustomers zone now cs) = List.length cs
  /\ (forall a, In a (analyzeCustomers zone now cs) ->
        map card (expirationAnalysis a) = cardsOf (customer a)
        /\ forall r, In r (expirationAnalysis a) ->
             expiration r = expiration (analyzeCard zone now (card r))).
Proof.
  unfold analyzeCustomers. split; [|split].
  - rewrite map_map. cbn [customer analyzeCustomer]. apply map_id.
  - apply length_map.
  - intros a Ha. apply in_map_iff in Ha as (c & <- & _).
    cbn [analyzeCustomer expirationAnalysis customer]. split.
    + rewrite map_map. cbn [analyzeCard card]. apply map_id.
    + intros r Hr. apply in_map_iff in Hr as (k & <- & _). reflexivity.
Qed.

Lemma ceil_div_monotone (a b d : Z) : 0 < d -> a <= b -> ceil_div a d <= ceil_div b d.
Proof.
  intros Hd Hab.
  pose proof (ceil_div_spec a d Hd). pose proof (ceil_div_spec b d Hd). nia.
Qed.

(** X2: as the clock advances a card only moves towards expiry: for a code
    that resolves to a date, a later clock gives the same date, a day count
    that is not larger, and a status that is not earlier in the order
    valid, expiring-later, expiring-soon, expired; an expired card stays
    expired. *)
Theorem X2_status_advances_with_time (zone : Zone) (now later : Z) (code : option jsstring)
  (r : ExpirationStatus) (n : Z) :
  now <= later ->
  analyzeCardExpiration zone now code = Some r ->
  daysUntilExpiration r = Num n ->
  exists r' n',
    analyzeCardExpiration zone later code = Some r'
    /\ daysUntilExpiration r' = Num n'
    /\ n' <= n
    /\ expirationDate r' = expirationDate r
    /\ statusRank (status r) <= statusRank (status r')
    /\ (status r = Expired -> status r' = Expired).
Proof.
  intros Hle Hr Hn.
  destruct (parseExpirationDate zone code) as [date|] eqn:Hp;
    [|apply (proj2 (analyzeCardExpiration_none zone now code)) in Hp; congruence].
  destruct (timeValue date) as [|e] eqn:He.
  - unfold analyzeCardExpiration in Hr. rewrite Hp in Hr.
    unfold getDaysUntilExpiration, getTime in Hr. rewrite He in Hr.
    cbn in Hr. injection Hr as <-. discriminate Hn.
  - pose proof (analyzeCardExpiration_resolved zone now code date e Hp He) as H1.
    pose proof (analyzeCardExpiration_resolved zone later code date e Hp He) as H2.
    cbv zeta in H1, H2. rewrite H1 in Hr. injection Hr as <-.
    cbn [daysUntilExpiration] in Hn. injection Hn as <-.
    pose proof (ceil_div_monotone (e - later) (e - now) msPerDay
                  ltac:(reflexivity) ltac:(lia)) as Hm.
    set (n := ceil_div (e - now) msPerDay) in *.
    set (n' := ceil_div (e - later) msPerDay) in *.
    eexists. exists n'. split; [exact H2|].
    cbn [daysUntilExpiration expirationDate status].
    split; [reflexivity|]. split; [exact Hm|]. split; [reflexivity|].
    destruct (Z.ltb_spec n 0), (Z.ltb_spec n' 0); try lia;
      destruct (Z.leb_spec n 30), (Z.leb_spec n' 30); try lia;
      destruct (Z.leb_spec n 90), (Z.leb_spec n' 90); try lia;
      cbn; split; (lia || congruence || discriminate).
Qed.

Lemma X2_status_advances_with_time_witness :
  exists r' n',
    analyzeCardExpiration 0 (localMidnight 0 2026 12 20) (Some (of_string "1226"))
    = Some r'
    /\ daysUntilExpiration r' = Num n'
    /\ n' <= 46.
Proof.
  destruct (X2_status_advances_with_time 0 (localMidnight 0 2026 11 15)
              (localMidnight 0 2026 12 20) (Some (of_string "1226"))
              (mkExpirationStatus ExpiringLater (Num 46)
                 (mkDate (Num (localMidnight 0 2026 12 31))) Warning) 46)
    as (r' & n' & H1 & H2 & H3 & _);
    [vm_compute; discriminate|reflexivity|reflexivity|].
  exists r', n'. repeat split; assumption.
Defined.

(** ** Dates in a zone whose offset changes *)

Lemma DateFromTime_same_day (t n : Z) :
  n * msPerDay <= t < n * msPerDay + msPerDay ->
  DateFromTime t = DateFromTime (n * msPerDay).
Proof.
  intros H.
  assert (E : Day t = Day (n * msPerDay)).
  { rewrite Day_of_midnight. unfold Day, msPerDay in *. zdiv. }
  unfold DateFromTime, MonthFromTime, DayWithinYear, InLeapYear, YearFromTime.
  rewrite E. reflexivity.
Qed.

Lemma newDate_zone (zone : Zone) (y m d n : Z) :
  100 <= y ->
  MakeDay (Num y) (Num m) (Num d) = Num n ->
  -1000000 <= n <= 4000000 ->
  Z.abs (zone (n * msPerDay) false) <= msPerDay ->
  newDate zone (Num y) (Num m) (Num d)
  = mkDate (Num (n * msPerDay - zone (n * msPerDay) false)).
Proof.
  intros Hy Hn Hb Hz. unfold newDate.
  replace ((0 <=? y) && (y <=? 99)) with false
    by (symmetry; apply andb_false_iff; right; apply Z.leb_gt; lia).
  rewrite Hn. unfold MakeDate, MakeTime, UTC, TimeClip.
  replace (n * msPerDay + (0 * 3600000 + 0 * 60000 + 0 * 1000 + 0))
    with (n * msPerDay) by lia.
  set (off := zone (n * msPerDay) false) in *.
  unfold msPerDay in *.
  destruct (Z.leb_spec (Z.abs (n * 86400000 - off)) 8640000000000000);
    [reflexivity|lia].
Qed.

Lemma getLastDayOfMonth_zone (zone : Zone) (y m : Z) :
  100 <= y <= 9999 -> 1 <= m <= 12 ->
  Z.abs (zone (lastDayStart y m) false) <= msPerDay ->
  keepsDay zone (lastDayStart y m) ->
  CardExpirationAnalyzer.getLastDayOfMonth zone (Num y) (Num m)
  = Num (daysInMonth y m).
Proof.
  intros Hy Hm Hz Hk. unfold CardExpirationAnalyzer.getLastDayOfMonth.
  pose proof (daysInMonth_range y m Hm) as Hr.
  unfold lastDayStart, localStart in *.
  rewrite (newDate_zone zone y m 0 _ ltac:(lia) (MakeDay_day0 y m Hm))
    by (try apply dayNumber_bounds; try assumption; lia).
  unfold getDate, timeValue, LocalTime. f_equal.
  unfold keepsDay in Hk. cbv zeta in Hk.
  rewrite (DateFromTime_same_day _ (dayNumber y (m - 1) (daysInMonth y m)))
    by lia.
  apply (civil_roundtrip y (m - 1) (daysInMonth y m)); [lia|].
  replace (m - 1 + 1) with m by lia. lia.
Qed.

Lemma parseExpirationDate_zone (zone : Zone) (a b c d y m : Z) :
  isDigit a = true -> isDigit b = true -> isDigit c = true -> isDigit d = true ->
  m = twoDigits a b -> y = 2000 + twoDigits c d -> 1 <= m <= 12 ->
  Z.abs (zone (lastDayStart y m) false) <= msPerDay ->
  keepsDay zone (lastDayStart y m) ->
  CardExpirationAnalyzer.parseExpirationDate zone (Some [a; b; c; d])
  = Some (mkDate (Num (zonedMidnight zone y m (daysInMonth y m)))).
Proof.
  intros Ha Hb Hc Hd Em Ey Hm Hz Hk.
  pose proof (twoDigits_range c d Hc Hd) as Hy.
  unfold CardExpirationAnalyzer.parseExpirationDate.
  change (negb (Nat.eqb (List.length [a; b; c; d]) 4)) with false. cbv iota.
  change (substring [a; b; c; d] 0 2) with [a; b].
  change (substring [a; b; c; d] 2 4) with [c; d].
  rewrite !parseInt10_two_digits by assumption.
  unfold num_add, num_sub.
  replace (twoDigits c d + 2000) with y by lia. rewrite <- Em.
  rewrite (getLastDayOfMonth_zone zone y m) by (try assumption; lia).
  pose proof (daysInMonth_range y m Hm) as Hr.
  unfold zonedMidnight, lastDayStart, localStart in *.
  apply f_equal.
  apply newDate_zone; [lia| | |assumption].
  - rewrite MakeDay_civil by lia. reflexivity.
  - apply dayNumber_bounds; lia.
Qed.

Lemma dayNumber_next_month (y m : Z) :
  1 <= m <= 12 ->
  dayNumber (y + m / 12) (m mod 12 + 1 - 1) 1
  = dayNumber y (m - 1) (daysInMonth y m) + 1.
Proof.
  intros Hm. pose proof (MakeDay_day0 y m Hm) as H.
  unfold MakeDay in H. injection H as H.
  replace (m mod 12 + 1 - 1) with (m mod 12) by lia.
  unfold dayNumber at 1. unfold leapDay. lia.
Qed.

(** X3: in any host zone, a card with a four-digit code MMYY (month 1..12)
    is classified expired exactly from 24 hours after the instant at which
    the last day of its month starts, and until then its day count is not
    negative.  When the offset of the zone is the same at the start of the
    first day of the following month, that instant is the local midnight
    that begins that day. *)
Theorem X3_expired_from_first_of_next_month (zone : Zone) (now a b c d y m : Z) :
  isDigit a = true -> isDigit b = true -> isDigit c = true -> isDigit d = true ->
  m = twoDigits a b -> y = 2000 + twoDigits c d -> 1 <= m <= 12 ->
  Z.abs (zone (lastDayStart y m) false) <= msPerDay ->
  keepsDay zone (lastDayStart y m) ->
  exists r n,
    analyzeCardExpiration zone now (Some [a; b; c; d]) = Some r
    /\ daysUntilExpiration r = Num n
    /\ (status r = Expired
        <-> zonedMidnight zone y m (daysInMonth y m) + msPerDay <= now)
    /\ (0 <= n <-> now < zonedMidnight zone y m (daysInMonth y m) + msPerDay)
    /\ (zone (lastDayStart y m + msPerDay) false = zone (lastDayStart y m) false ->
        firstOfNextMonth zone y m
        = zonedMidnight zone y m (daysInMonth y m) + msPerDay).
Proof.
  intros Ha Hb Hc Hd Em Ey Hm Hz Hk.
  pose proof (parseExpirationDate_zone zone a b c d y m Ha Hb Hc Hd Em Ey Hm Hz Hk)
    as Hp.
  pose proof (analyzeCardExpiration_resolved zone now _ _ _ Hp eq_refl) as Hr.
  cbv zeta in Hr.
  set (e := zonedMidnight zone y m (daysInMonth y m)) in *.
  set (n := ceil_div (e - now) msPerDay) in *.
  pose proof (ceil_div_spec (e - now) msPerDay ltac:(reflexivity)) as Hn.
  fold n in Hn.
  assert (Hneg : n < 0 <-> e + msPerDay <= now) by (unfold msPerDay in *; nia).
  eexists. exists n. split; [exact Hr|].
  cbn [daysUntilExpiration status]. split; [reflexivity|].
  split; [|split].
  - rewrite <- Hneg.
    destruct (Z.ltb_spec n 0); [tauto|].
    destruct (n <=? 30); [|destruct (n <=? 90)];
      (split; [intros H0; discriminate H0|lia]).
  - lia.
  - intros Hsame. unfold firstOfNextMonth, e, zonedMidnight, lastDayStart, localStart in *.
    rewrite (dayNumber_next_month y m Hm).
    replace ((dayNumber y (m - 1) (daysInMonth y m) + 1) * msPerDay)
      with (dayNumber y (m - 1) (daysInMonth y m) * msPerDay + msPerDay) by lia.
    rewrite Hsame. lia.
Qed.

(** In a zone that moves its clocks forward on 31 March 2024 (from one hour
    to two hours ahead of UTC, at 01:00 UTC), the code "0324" turns expired
    24 hours after the start of 31 March. *)
Lemma X3_expired_from_first_of_next_month_witness :
  let zone := switchingZone (localMidnight 0 2024 3 31 + 3600000) 3600000 7200000 in
  let now := firstOfNextMonth zone 2024 3 in
  exists r n,
    analyzeCardExpiration zone now (Some (of_string "0324")) = Some r
    /\ daysUntilExpiration r = Num n
    /\ (status r = Expired
        <-> zonedMidnight zone 2024 3 31 + msPerDay <= now).
Proof.
  cbv zeta.
  destruct (X3_expired_from_first_of_next_month
              (switchingZone (localMidnight 0 2024 3 31 + 3600000) 3600000 7200000)
              (firstOfNextMonth
                 (switchingZone (localMidnight 0 2024 3 31 + 3600000) 3600000 7200000)
                 2024 3)
              48 51 50 52 2024 3)
    as (r & n & H1 & H2 & H3 & _);
    try reflexivity;
    [vm_compute; split; discriminate|vm_compute; discriminate
    |vm_compute; split; [discriminate|reflexivity]|].
  exists r, n. repeat split; try assumption; apply H3.
Defined.

(** In that zone the card is still expiring soon at the local midnight that
    begins 1 April, and expired one hour later; in a zone of fixed offset
    it is expired from that midnight. *)
Example expired_after_the_clocks_moved :
  let zone := switchingZone (localMidnight 0 2024 3 31 + 3600000) 3600000 7200000 in
  let midnight := firstOfNextMonth zone 2024 3 in
  option_map status (analyzeCardExpiration zone midnight (Some (of_string "0324")))
  = Some ExpiringSoon
  /\ option_map status
       (analyzeCardExpiration zone (midnight + 3600000 - 1) (Some (of_string "0324")))
     = Some ExpiringSoon
  /\ option_map status
       (analyzeCardExpiration zone (midnight + 3600000) (Some (of_string "0324")))
     = Some Expired
  /\ option_map status
       (analyzeCardExpiration 3600000 (firstOfNextMonth 3600000 2024 3)
          (Some (of_string "0324")))
     = Some Expired.
Proof. repeat split; reflexivity. Qed.

Example expired_on_first_of_march :
  option_map status
    (analyzeCardExpiration 0 (localMidnight 0 2028 3 1) (Some (of_string "0228")))
  = Some Expired
  /\ option_map status
       (analyzeCardExpiration 0 (localMidnight 0 2028 3 1 - 1) (Some (of_string "0228")))
     = Some ExpiringSoon.
Proof. split; reflexivity. Qed.

Lemma sumZ_le {A : Type} (f g : A -> Z) (l : list A) :
  (forall x, In x l -> f x <= g x) -> sumZ f l <= sumZ g l.
Proof.
  induction l as [|x l IH]; intros H; cbn [sumZ]; [lia|].
  pose proof (H x (or_introl eq_refl)).
  pose proof (IH (fun z Hz => H z (or_intror Hz))). lia.
Qed.

Lemma sumZ_const_one {A : Type} (l : list A) :
  sumZ (fun _ => 1) l = Z.of_nat (List.length l).
Proof. induction l as [|x l IH]; cbn [sumZ List.length]; lia. Qed.

Lemma sumZ_ext {A : Type} (f g : A -> Z) (l : list A) :
  (forall x, In x l -> f x = g x) -> sumZ f l = sumZ g l.
Proof.
  induction l as [|x l IH]; intros H; cbn [sumZ]; [reflexivity|].
  rewrite (H x (or_introl eq_refl)), (IH (fun z Hz => H z (or_intror Hz))).
  reflexivity.
Qed.

Lemma sumZ_map {A B : Type} (f : B -> Z) (g : A -> B) (l : list A) :
  sumZ f (map g l) = sumZ (fun x => f (g x)) l.
Proof. induction l as [|x l IH]; cbn [sumZ map]; [reflexivity|rewrite IH; reflexivity]. Qed.

Lemma sumZ_nonneg {A : Type} (f : A -> Z) (l : list A) :
  (forall x, 0 <= f x) -> 0 <= sumZ f l.
Proof.
  intros H. induction l as [|x l IH]; cbn [sumZ]; [lia|].
  pose proof (H x). lia.
Qed.

Lemma bucket_bounds (st : Status) (cs : list CustomerWithExpiration) :
  0 <= Z.of_nat (List.length (filterByStatus cs [st])) <= Z.of_nat (List.length cs)
  /\ 0 <= countRecords (filterByStatus cs [st]) <= sumZ records cs.
Proof.
  destruct (bucket_reports st cs) as [H1 H2]. cbn [bucketCustomers bucketCards] in *.
  rewrite H2. split; [split; [lia|]|split].
  - rewrite H1, <- sumZ_const_one. apply sumZ_le. intros x _.
    destruct (flaggedb st x); lia.
  - apply sumZ_nonneg. intros x. unfold records. destruct (flaggedb st x); lia.
  - apply sumZ_le. intros x _. unfold records. destruct (flaggedb st x); lia.
Qed.

(** X4: in the summary of any population each of the three buckets counts
    at most as many customers as there are customers.  For a population
    produced by [analyzeCustomers] the total card count is at most the
    number of classification records, and when no customer has its cards in
    the nested shape the two are equal, so that no bucket reports more
    cards than the total. *)
Theorem X4_summary_bounds (zone : Zone) (now : Z) (cs : list Customer) :
  let s := generateSummary (analyzeCustomers zone now cs) in
  let recordsTotal := sumZ records (analyzeCustomers zone now cs) in
  (forall b, b = summaryExpired s \/ b = summaryExpiringSoon s
             \/ b = summaryExpiringLater s ->
             0 <= bucketCustomers b <= totalCustomers s
             /\ 0 <= bucketCards b <= recordsTotal)
  /\ 0 <= totalCards s <= recordsTotal
  /\ ((forall c, In c cs -> flatShape c) -> totalCards s = recordsTotal).
Proof.
  cbv zeta. set (an := analyzeCustomers zone now cs).
  split; [|split].
  - intros b Hb. unfold generateSummary in Hb.
    cbn [summaryExpired summaryExpiringSoon summaryExpiringLater] in Hb.
    unfold getExpiredCards, getExpiringSoonCards, getExpiringLaterCards in Hb.
    unfold generateSummary. cbn [totalCustomers].
    destruct Hb as [-> | [-> | ->] ]; cbn [bucketCustomers bucketCards];
      apply bucket_bounds.
  - rewrite totalCards_sum. unfold an, analyzeCustomers. rewrite !sumZ_map.
    split.
    + apply sumZ_nonneg. intros x. lia.
    + apply sumZ_le. intros c _. unfold records, analyzeCustomer, rawCardArray, cardsOf.
      cbn [expirationAnalysis customer]. rewrite length_map.
      destruct (cards c) as [|l|[l|]]; cbn [List.length]; lia.
  - intros Hflat. rewrite totalCards_sum. unfold an, analyzeCustomers.
    rewrite !sumZ_map. apply sumZ_ext. intros c Hc. specialize (Hflat c Hc).
    unfold records, analyzeCustomer, rawCardArray, cardsOf, flatShape in *.
    cbn [expirationAnalysis customer]. rewrite length_map.
    destruct (cards c) as [|l|[l|]]; try contradiction; reflexivity.
Qed.

Lemma hasStatusIn_spec (sts : list Status) (c : CustomerWithExpiration) :
  hasStatusIn sts c = true
  <-> exists a, In a (expirationAnalysis c) /\ In (status (expiration a)) sts.
Proof.
  unfold hasStatusIn. rewrite existsb_exists. split.
  - intros (a & Ha & H). apply existsb_exists in H as (st & Hst & He).
    apply Status_eqb_eq in He. subst st. eauto.
  - intros (a & Ha & H). exists a. split; [assumption|].
    apply existsb_exists. exists (status (expiration a)). split; [assumption|].
    apply Status_eqb_eq. reflexivity.
Qed.

(** X5: after [analyzeCustomers], a customer appears in a status list
    exactly when one of its cards is classified with one of the listed
    statuses.  So a customer without cards is in no status list, and a
    customer none of whose cards has a parsable code (absent, empty or not
    four characters) is in none of the expired, expiring-soon and
    expiring-later lists. *)
Theorem X5_status_lists_after_analysis (zone : Zone) (now : Z) (cs : list Customer)
  (sts : list Status) (c : Customer) :
  (In (analyzeCustomer zone now c) (filterByStatus (analyzeCustomers zone now cs) sts)
   <-> In (analyzeCustomer zone now c) (analyzeCustomers zone now cs)
       /\ exists k, In k (cardsOf c)
                    /\ In (status (expiration (analyzeCard zone now k))) sts)
  /\ (cardsOf c = [] ->
      ~ In (analyzeCustomer zone now c) (filterByStatus (analyzeCustomers zone now cs) sts))
  /\ ((forall k, In k (cardsOf c) -> noParsableCode k) -> ~ In Valid sts ->
      ~ In (analyzeCustomer zone now c) (filterByStatus (analyzeCustomers zone now cs) sts)).
Proof.
  assert (Hiff : In (analyzeCustomer zone now c)
                    (filterByStatus (analyzeCustomers zone now cs) sts)
                 <-> In (analyzeCustomer zone now c) (analyzeCustomers zone now cs)
                     /\ exists k, In k (cardsOf c)
                          /\ In (status (expiration (analyzeCard zone now k))) sts).
  { unfold filterByStatus. rewrite filter_In, hasStatusIn_spec.
    cbn [analyzeCustomer expirationAnalysis]. split.
    - intros (Hin & a & Ha & Hs). split; [assumption|].
      apply in_map_iff in Ha as (k & <- & Hk). eauto.
    - intros (Hin & k & Hk & Hs). split; [assumption|].
      exists (analyzeCard zone now k). split; [apply in_map; assumption|assumption]. }
  split; [exact Hiff|split].
  - intros Hnil H. apply Hiff in H as (_ & k & Hk & _). rewrite Hnil in Hk. exact Hk.
  - intros Hno Hv H. apply Hiff in H as (_ & k & Hk & Hs).
    specialize (Hno k Hk). unfold noParsableCode in Hno.
    assert (Hnone : analyzeCardExpiration zone now (Clover.expirationDate k) = None).
    { apply analyzeCardExpiration_none, parseExpirationDate_none.
      destruct (Clover.expirationDate k) as [s0|]; [right; eauto|left; reflexivity]. }
    unfold analyzeCard in Hs. rewrite Hnone in Hs. cbn in Hs. contradiction.
Qed.

(* ===================================================================== *)
(** * Further properties of the client status                             *)
(* ===================================================================== *)

Lemma requiresAction_by_tag (now : Z) (c : Customer) (an : option (list Analysis)) :
  requiresAction (analyzeClientStatus now c an)
  = match clientStatusTag (analyzeClientStatus now c an) with
    | ExpiredCards | ExpiringCards | NewNeedsPayment => true
    | AllGood | InactiveOld => false
    end.
Proof.
  unfold analyzeClientStatus.
  destruct (truthyNum (creationTime c)) as [t|];
    [|destruct (hasPaymentMethods c); reflexivity].
  destruct an as [l|]; destruct (hasPaymentMethods c); cbn [negb andb];
    repeat match goal with
           | |- context [if ?b then _ else _] => destruct b
           end; reflexivity.
Qed.

Lemma tag_partition (l : list CustomerWithStatus) :
  let n tag :=
    Z.of_nat (List.length
                (filter (fun c => ClientStatusTag_eqb
                                    (clientStatusTag (clientStatus c)) tag) l)) in
  n NewNeedsPayment + n ExpiredCards + n ExpiringCards + n AllGood + n InactiveOld
  = Z.of_nat (List.length l).
Proof.
  cbv zeta. induction l as [|c l IH]; [reflexivity|].
  cbn [filter]. destruct (clientStatusTag (clientStatus c));
    cbn [ClientStatusTag_eqb List.length]; lia.
Qed.

(** X6: in the status summary every customer is counted under exactly one
    of the five statuses, so the five counts add up to the total; and for
    customers classified by [analyzeCustomersWithStatus] the count of
    customers requiring action is the sum of the new-needs-payment,
    expired-cards and expiring-cards counts. *)
Theorem X6_status_summary_partition (now : Z)
  (xs : list (Customer * option (list Analysis))) (l : list CustomerWithStatus) :
  (let s := generateStatusSummary l in
   countNewNeedsPayment s + countExpiredCards s + countExpiringCards s
   + countAllGood s + countInactiveOld s = total s
   /\ 0 <= countRequiresAction s <= total s)
  /\ (let s := generateStatusSummary (analyzeCustomersWithStatus now xs) in
      countRequiresAction s
      = countNewNeedsPayment s + countExpiredCards s + countExpiringCards s
      /\ total s = Z.of_nat (List.length xs)).
Proof.
  split; cbv zeta; unfold generateStatusSummary;
    cbn [countNewNeedsPayment countExpiredCards countExpiringCards countAllGood
         countInactiveOld total countRequiresAction].
  - split; [apply tag_partition|].
    split; [lia|]. apply Nat2Z.inj_le, filter_length_le.
  - unfold analyzeCustomersWithStatus.
    split; [|rewrite length_map; reflexivity].
    induction xs as [|x xs IH]; [reflexivity|].
    cbn [map filter clientStatus]. rewrite requiresAction_by_tag.
    destruct (clientStatusTag (analyzeClientStatus now (fst x) (snd x)));
      cbn [ClientStatusTag_eqb List.length]; lia.
Qed.

Lemma expired_cards_by_creationTime (zone : Zone) (now : Z) (c : Customer) :
  let r := analyzeClientStatus now c
             (Some (expirationAnalysis (analyzeCustomer zone now c))) in
  (clientStatusTag r = ExpiredCards
   <-> truthyNum (creationTime c) <> None
       /\ exists k, In k (cardsOf c)
                    /\ status (expiration (analyzeCard zone now k)) = Expired)
  /\ (truthyNum (creationTime c) = None ->
      requiresAction r = false /\ priority r = PNone).
Proof.
  cbv zeta. cbn [analyzeCustomer expirationAnalysis].
  assert (Hex : existsb (fun a => Status_eqb (status (expiration a)) Expired)
                  (map (analyzeCard zone now) (cardsOf c)) = true
                <-> exists k, In k (cardsOf c)
                     /\ status (expiration (analyzeCard zone now k)) = Expired).
  { rewrite existsb_status. split.
    - intros (a & Ha & Hs). apply in_map_iff in Ha as (k & <- & Hk). eauto.
    - intros (k & Hk & Hs). exists (analyzeCard zone now k).
      split; [apply in_map; assumption|assumption]. }
  pose proof (hasPaymentMethods_cardsOf c) as Hcards.
  split.
  - unfold analyzeClientStatus.
    destruct (truthyNum (creationTime c)) as [t|].
    + destruct (hasPaymentMethods c) eqn:Hc.
      * destruct (existsb (fun a => Status_eqb (status (expiration a)) Expired)
                    (map (analyzeCard zone now) (cardsOf c))) eqn:He.
        -- cbn [clientStatusTag]. split; [|reflexivity].
           intros _. split; [discriminate|]. apply Hex. reflexivity.
        -- split.
           ++ cbn [negb andb].
              repeat match goal with
                     | |- context [if ?b then _ else _] => destruct b
                     end; cbn [clientStatusTag]; intros H0; discriminate H0.
           ++ intros [_ H]. apply Hex in H. discriminate H.
      * split.
        -- cbn [negb andb].
           repeat match goal with
                  | |- context [if ?b then _ else _] => destruct b
                  end; cbn [clientStatusTag]; intros H0; discriminate H0.
        -- intros [_ (k & Hk & _)]. exfalso.
           assert (Hne : cardsOf c <> []) by (intros E; rewrite E in Hk; exact Hk).
           apply Hcards in Hne. discriminate Hne.
    + destruct (hasPaymentMethods c); cbn [clientStatusTag];
        (split; [intros H0; discriminate H0|intros [H _]; contradiction]).
  - intros Ht. unfold analyzeClientStatus. rewrite Ht. split; reflexivity.
Qed.

(** X7: for a customer classified from its own cards (the records of
    [analyzeCustomer] passed to [analyzeClientStatus]), the status is
    expired-cards exactly when the customer has a creation timestamp
    ([createdTime], else [customerSince], not 0) and one of its cards is
    classified expired; without a creation timestamp no action is
    required, whatever the cards. *)
Theorem X7_expired_cards_end_to_end (zone : Zone) (now : Z) (c : Customer) :
  let r := analyzeClientStatus now c
             (Some (expirationAnalysis (analyzeCustomer zone now c))) in
  (clientStatusTag r = ExpiredCards
   <-> (exists t, timestampOf c t)
       /\ exists k, In k (cardsOf c)
                    /\ status (expiration (analyzeCard zone now k)) = Expired)
  /\ ((forall t, ~ timestampOf c t) ->
      requiresAction r = false /\ priority r = PNone).
Proof.
  cbv zeta.
  destruct (expired_cards_by_creationTime zone now c) as [H1 H2]. cbv zeta in H1, H2.
  split.
  - rewrite H1. split; intros [Ht Hk]; (split; [|exact Hk]).
    + destruct (truthyNum (creationTime c)) as [t|] eqn:E; [|contradiction].
      exists t. apply creationTime_spec. exact E.
    + destruct Ht as (t & Ht). apply creationTime_spec in Ht. congruence.
  - intros Hno. apply H2, creationTime_none, Hno.
Qed.

(* ===================================================================== *)
(** * The monitor service                                                 *)
(* ===================================================================== *)

(** X8: the urgent list is the customers with an expired record followed by
    the customers with an expiring-soon record, its length is the sum of
    the two customer counts of the summary, and a customer with records of
    both kinds is listed twice. *)
Theorem X8_urgent_customers_list_twice (zone : Zone) (now : Z) (cs : list Customer)
  (errors : list ExpirationMonitorService.MerchantError) :
  let result := ExpirationMonitorService.runAnalysis zone now cs errors in
  let urgent := ExpirationMonitorService.getUrgentCustomers zone now cs errors in
  urgent = filter (flaggedb Expired) (analyzeCustomers zone now cs)
           ++ filter (flaggedb ExpiringSoon) (analyzeCustomers zone now cs)
  /\ Z.of_nat (List.length urgent)
     = bucketCustomers (summaryExpired (ExpirationMonitorService.summary result))
       + bucketCustomers
           (summaryExpiringSoon (ExpirationMonitorService.summary result))
  /\ (forall a, In a (analyzeCustomers zone now cs) ->
        flagged Expired a -> flagged ExpiringSoon a ->
        exists l1 l2 l3, urgent = l1 ++ a :: l2 ++ a :: l3).
Proof.
  cbv zeta.
  unfold ExpirationMonitorService.getUrgentCustomers,
    ExpirationMonitorService.runAnalysis.
  cbn [ExpirationMonitorService.expired ExpirationMonitorService.expiringSoon
       ExpirationMonitorService.summary].
  unfold getExpiredCards, getExpiringSoonCards. rewrite !filterByStatus_single.
  split; [reflexivity|split].
  - rewrite length_app, Nat2Z.inj_add. unfold generateSummary.
    cbn [summaryExpired summaryExpiringSoon bucketCustomers].
    unfold getExpiredCards, getExpiringSoonCards.
    rewrite !filterByStatus_single. reflexivity.
  - intros a Ha He Hs.
    assert (H1 : In a (filter (flaggedb Expired) (analyzeCustomers zone now cs)))
      by (apply filter_In; split; [assumption|apply flaggedb_spec; assumption]).
    assert (H2 : In a (filter (flaggedb ExpiringSoon) (analyzeCustomers zone now cs)))
      by (apply filter_In; split; [assumption|apply flaggedb_spec; assumption]).
    apply in_split in H1 as (p1 & q1 & E1). apply in_split in H2 as (p2 & q2 & E2).
    rewrite E1, E2. exists p1, (q1 ++ p2), q2.
    rewrite <- ?app_assoc. cbn [app]. rewrite <- ?app_assoc. reflexivity.
Qed.

(* ===================================================================== *)
(** * The customers API loader                                            *)
(* ===================================================================== *)

Lemma jsstring_eqb_eq (a b : jsstring) : jsstring_eqb a b = true <-> a = b.
Proof.
  revert b. induction a as [|x a IH]; intros [|y b]; cbn [jsstring_eqb];
    try (split; [reflexivity || discriminate | reflexivity || discriminate]).
  rewrite andb_true_iff, Z.eqb_eq, IH. split.
  - intros [-> ->]. reflexivity.
  - intros H. injection H as -> ->. split; reflexivity.
Qed.

Lemma jsstring_eqb_refl (a : jsstring) : jsstring_eqb a a = true.
Proof. apply jsstring_eqb_eq. reflexivity. Qed.

Lemma jsstring_eqb_neq (a b : jsstring) : jsstring_eqb a b = false <-> a <> b.
Proof.
  rewrite <- jsstring_eqb_eq. destruct (jsstring_eqb a b); split; congruence.
Qed.

Lemma groupOf_pushRow (acc : ApiCustomers.Groups) (row : ApiCustomers.CardRow)
  (id : jsstring) :
  ApiCustomers.groupOf (ApiCustomers.pushRow acc row) id
  = ApiCustomers.groupOf acc id
    ++ (if jsstring_eqb (ApiCustomers.rowCustomerId row) id then [row] else []).
Proof.
  induction acc as [|[k rows] acc IH]; cbn [ApiCustomers.pushRow ApiCustomers.groupOf].
  - destruct (jsstring_eqb _ id); reflexivity.
  - destruct (jsstring_eqb k (ApiCustomers.rowCustomerId row)) eqn:Ek;
      cbn [ApiCustomers.groupOf].
    + apply jsstring_eqb_eq in Ek. subst k.
      destruct (jsstring_eqb (ApiCustomers.rowCustomerId row) id);
        [reflexivity|rewrite app_nil_r; reflexivity].
    + destruct (jsstring_eqb k id) eqn:Ei; [|exact IH].
      apply jsstring_eqb_eq in Ei. subst k.
      replace (jsstring_eqb (ApiCustomers.rowCustomerId row) id) with false;
        [rewrite app_nil_r; reflexivity|].
      symmetry. apply jsstring_eqb_neq. apply jsstring_eqb_neq in Ek. congruence.
Qed.

Lemma groupOf_fold (rows : list ApiCustomers.CardRow) (acc : ApiCustomers.Groups)
  (id : jsstring) :
  ApiCustomers.groupOf (fold_left ApiCustomers.pushRow rows acc) id
  = ApiCustomers.groupOf acc id
    ++ filter (fun r => jsstring_eqb (ApiCustomers.rowCustomerId r) id) rows.
Proof.
  revert acc. induction rows as [|r rows IH]; intros acc; cbn [fold_left filter].
  - rewrite app_nil_r. reflexivity.
  - rewrite IH, groupOf_pushRow, <- app_assoc.
    destruct (jsstring_eqb (ApiCustomers.rowCustomerId r) id); reflexivity.
Qed.

(** X9: grouping the card rows by customer attributes to each customer
    exactly the rows that carry its id, in the order of the query result;
    a customer without rows gets the empty list, and the card count of the
    payload is the number of its rows. *)
Theorem X9_cards_grouped_by_customer (zone : Zone) (now : Z)
  (cards : list ApiCustomers.CardRow) (customer : ApiCustomers.CustomerRow) :
  let mine :=
    filter (fun r => jsstring_eqb (ApiCustomers.rowCustomerId r)
                                  (ApiCustomers.rowId customer)) cards in
  let p := ApiCustomers.customerWithAnalysis zone now
             (ApiCustomers.cardsByCustomer cards) customer in
  ApiCustomers.groupOf (ApiCustomers.cardsByCustomer cards)
    (ApiCustomers.rowId customer) = mine
  /\ (forall r, In r mine
                <-> In r cards
                    /\ ApiCustomers.rowCustomerId r = ApiCustomers.rowId customer)
  /\ map ApiCustomers.pcCard (ApiCustomers.pCards p) = map ApiCustomers.rowCard mine
  /\ ApiCustomers.pTotalCards p = Z.of_nat (List.length mine).
Proof.
  cbv zeta.
  assert (Hg : ApiCustomers.groupOf (ApiCustomers.cardsByCustomer cards)
                 (ApiCustomers.rowId customer)
               = filter (fun r => jsstring_eqb (ApiCustomers.rowCustomerId r)
                                    (ApiCustomers.rowId customer)) cards).
  { unfold ApiCustomers.cardsByCustomer. rewrite groupOf_fold. reflexivity. }
  split; [exact Hg|split; [|split]].
  - intros r. rewrite filter_In, jsstring_eqb_eq. reflexivity.
  - unfold ApiCustomers.customerWithAnalysis. cbn [ApiCustomers.pCards].
    rewrite Hg, map_map. apply map_ext_in. intros r _.
    unfold ApiCustomers.cardAnalysis.
    destruct (Clover.expirationDate (ApiCustomers.rowCard r)) as [[|x s]|];
      reflexivity.
  - unfold ApiCustomers.customerWithAnalysis. cbn [ApiCustomers.pTotalCards].
    rewrite Hg. reflexivity.
Qed.

(** X10: every customer of the payload built by the loader has
    [totalCards] equal to the number of its cards and [hasExpired] and
    [hasExpiringSoon] equal to the OR of those statuses over its cards.
    Hence on the page (whose clock is past its first 90 days) such a
    customer is on the action-required worklist exactly when its business
    name is not blank and it is new, or has a card expiring soon, or has a
    card expired by at most 180 days. *)
Theorem X10_payload_customers_on_worklist (zone : Zone) (serverNow pageNow : Z)
  (groups : ApiCustomers.Groups) (customer : ApiCustomers.CustomerRow) :
  90 * msPerDay < pageNow ->
  let c := ApiCustomers.received
             (ApiCustomers.customerWithAnalysis zone serverNow groups customer) in
  PolicyA.derivedFields c
  /\ (Routes.actionRequired pageNow c = true <-> PolicyA.qualifies pageNow c).
Proof.
  intros Hnow. cbv zeta.
  pose proof (received_derivedFields zone serverNow groups customer) as Hd.
  split; [exact Hd|]. apply actionRequired_qualifies; assumption.
Qed.

Lemma X10_payload_customers_on_worklist_witness :
  let row := ApiCustomers.mkCustomerRow (of_string "C1") (Some (of_string "Acme")) None in
  let k := ApiCustomers.mkCardRow (of_string "C1")
             (mkCard None None (Some (of_string "1126")) None) in
  let c := ApiCustomers.received
             (ApiCustomers.customerWithAnalysis 0 (localMidnight 0 2026 11 15)
                (ApiCustomers.cardsByCustomer [k]) row) in
  Routes.actionRequired (localMidnight 0 2026 11 15) c = true
  <-> PolicyA.qualifies (localMidnight 0 2026 11 15) c.
Proof.
  cbv zeta.
  apply (X10_payload_customers_on_worklist 0 (localMidnight 0 2026 11 15)
           (localMidnight 0 2026 11 15)).
  vm_compute. reflexivity.
Defined.

Lemma parseInt_two_digits (a b : Z) :
  isDigit a = true -> isDigit b = true -> parseInt [a; b] = Num (twoDigits a b).
Proof.
  intros Ha Hb. digit_cases a Ha; digit_cases b Hb; reflexivity.
Qed.

Lemma ceil_div_shift (a k d : Z) :
  0 < d -> ceil_div (a - k * d) d = ceil_div a d - k.
Proof.
  intros Hd. apply ceil_div_unique; [assumption|].
  pose proof (ceil_div_spec a d Hd). nia.
Qed.

Lemma ceil_div_near (a s d : Z) :
  0 < d -> - d <= s <= d ->
  ceil_div a d - 1 <= ceil_div (a + s) d <= ceil_div a d + 1.
Proof.
  intros Hd Hs.
  pose proof (ceil_div_spec a d Hd). pose proof (ceil_div_spec (a + s) d Hd). nia.
Qed.

(** X11: for a four-digit code MMYY (month 1..12) the loader dates the card
    on the 28th of the month where the analyzer uses the last day.  When
    the host zone has the same offset at the start of both days, the day
    count of the payload is the analyzer's day count minus the number of
    days of the month beyond the 28th (0 to 3); when the offsets differ, by
    at most a day, the two counts differ by that number give or take one.
    The payload status is expired exactly when its own count is
    negative. *)
Theorem X11_payload_days_from_the_28th (zone : Zone) (now a b c d y m : Z)
  (k : CustomerCard) :
  isDigit a = true -> isDigit b = true -> isDigit c = true -> isDigit d = true ->
  m = twoDigits a b -> y = 2000 + twoDigits c d -> 1 <= m <= 12 ->
  Clover.expirationDate k = Some [a; b; c; d] ->
  Z.abs (zone (lastDayStart y m) false) <= msPerDay ->
  Z.abs (zone (localStart y m 28) false) <= msPerDay ->
  keepsDay zone (lastDayStart y m) ->
  let beyond := daysInMonth y m - 28 in
  let shift := zone (lastDayStart y m) false - zone (localStart y m 28) false in
  exists n n28,
    daysUntilExpiration (expiration (analyzeCard zone now k)) = Num n
    /\ ApiCustomers.pcDaysUntil (ApiCustomers.cardAnalysis zone now k) = Num n28
    /\ 0 <= beyond <= 3
    /\ (shift = 0 -> n28 = n - beyond)
    /\ (- msPerDay <= shift <= msPerDay ->
        n - beyond - 1 <= n28 <= n - beyond + 1)
    /\ (ApiCustomers.pcStatus (ApiCustomers.cardAnalysis zone now k) = Routes.StExpired
        <-> n28 < 0)
    /\ (status (expiration (analyzeCard zone now k)) = Expired <-> n < 0).
Proof.
  intros Ha Hb Hc Hd Em Ey Hm Hk Hz Hz28 Hkeep. cbv zeta.
  pose proof (twoDigits_range c d Hc Hd) as Hy.
  pose proof (daysInMonth_range y m Hm) as Hr.
  pose proof (parseExpirationDate_zone zone a b c d y m Ha Hb Hc Hd Em Ey Hm Hz Hkeep)
    as Hp.
  pose proof (analyzeCardExpiration_resolved zone now _ _ _ Hp eq_refl) as Han.
  cbv zeta in Han.
  set (e := zonedMidnight zone y m (daysInMonth y m)) in *.
  set (n := ceil_div (e - now) msPerDay) in *.
  set (shift := zone (lastDayStart y m) false - zone (localStart y m 28) false).
  assert (H28 : newDate zone (Num y) (Num (m - 1)) (Num 28)
                = mkDate (Num (e + shift - (daysInMonth y m - 28) * msPerDay))).
  { unfold localStart in Hz28.
    rewrite (newDate_zone zone y (m - 1) 28 (dayNumber y (m - 1) 28));
      [|lia|apply MakeDay_civil; lia|apply dayNumber_bounds; lia|assumption].
    f_equal. f_equal.
    unfold shift, e, zonedMidnight, lastDayStart, localStart, dayNumber. lia. }
  set (n28 := ceil_div (e + shift - now) msPerDay - (daysInMonth y m - 28)).
  exists n, n28. unfold analyzeCard. rewrite Hk, Han.
  cbn [expiration daysUntilExpiration status].
  unfold ApiCustomers.cardAnalysis. rewrite Hk.
  change (substring [a; b; c; d] 0 2) with [a; b].
  change (substring [a; b; c; d] 2 4) with [c; d].
  rewrite !parseInt_two_digits by assumption.
  unfold num_add, num_sub. rewrite <- Em, <- Ey. rewrite H28.
  unfold getTime, timeValue.
  change (1000 * 60 * 60 * 24) with msPerDay.
  replace (e + shift - (daysInMonth y m - 28) * msPerDay - now)
    with (e + shift - now - (daysInMonth y m - 28) * msPerDay) by lia.
  rewrite ceil_div_shift by reflexivity. fold n28.
  cbn [ApiCustomers.pcDaysUntil ApiCustomers.pcStatus].
  split; [reflexivity|]. split; [reflexivity|]. split; [lia|].
  split; [|split; [|split]].
  - intros Hs. unfold n28, n. rewrite Hs.
    replace (e + 0 - now) with (e - now) by lia. reflexivity.
  - intros Hs.
    pose proof (ceil_div_near (e - now) shift msPerDay ltac:(reflexivity) Hs) as Hc'.
    fold n in Hc'. unfold n28.
    replace (e + shift - now) with (e - now + shift) by lia. lia.
  - unfold num_ltb, num_leb.
    destruct (Z.ltb_spec n28 0); [tauto|].
    destruct (n28 <=? 30); cbv iota;
      (split; [intros H0; discriminate H0|lia]).
  - unfold num_ltb, num_leb.
    destruct (Z.ltb_spec n 0); [tauto|].
    destruct (n <=? 30); [|destruct (n <=? 90)]; cbv iota;
      (split; [intros H0; discriminate H0|lia]).
Qed.

(** On 29 November 2026, in a zone of fixed offset, the code "1126" has one
    day left for the analyzer and is one day overdue for the loader. *)
Lemma X11_payload_days_from_the_28th_witness :
  let k := mkCard None None (Some (of_string "1126")) None in
  exists n n28,
    daysUntilExpiration (expiration (analyzeCard 0 (localMidnight 0 2026 11 29) k))
    = Num n
    /\ ApiCustomers.pcDaysUntil
         (ApiCustomers.cardAnalysis 0 (localMidnight 0 2026 11 29) k)
       = Num n28
    /\ n28 = n - (daysInMonth 2026 11 - 28).
Proof.
  cbv zeta.
  destruct (X11_payload_days_from_the_28th 0 (localMidnight 0 2026 11 29) 49 49 50 54
              2026 11 (mkCard None None (Some (of_string "1126")) None))
    as (n & n28 & H1 & H2 & _ & H3 & _); try reflexivity;
    [vm_compute; split; discriminate|vm_compute; discriminate
    |vm_compute; discriminate|vm_compute; split; [discriminate|reflexivity]|].
  exists n, n28. split; [assumption|]. split; [assumption|].
  apply H3. reflexivity.
Defined.

Example loader_and_analyzer_disagree :
  let k := mkCard None None (Some (of_string "1126")) None in
  let now := localMidnight 0 2026 11 29 in
  status (expiration (analyzeCard 0 now k)) = ExpiringSoon
  /\ ApiCustomers.pcStatus (ApiCustomers.cardAnalysis 0 now k) = Routes.StExpired.
Proof. split; reflexivity. Qed.

(** In a zone that moves its clocks forward on 29 March 2026, half an hour
    after the local midnight that begins 30 March the code "0326" has one
    day left for the analyzer and is one day overdue for the loader: the
    counts differ by two, one less than the three days of March beyond the
    28th. *)
Example loader_and_analyzer_across_a_transition :
  let zone := switchingZone (localMidnight 0 2026 3 29 + 3600000) 3600000 7200000 in
  let now := zonedMidnight zone 2026 3 30 + 1800000 in
  let k := mkCard None None (Some (of_string "0326")) None in
  daysUntilExpiration (expiration (analyzeCard zone now k)) = Num 1
  /\ ApiCustomers.pcDaysUntil (ApiCustomers.cardAnalysis zone now k) = Num (-1).
Proof. split; reflexivity. Qed.


Lemma getCardStatus_cases (cards : option (list Routes.CardAnalysis)) :
  let l := match cards with Some l => l | None => [] end in
  Routes.getCardStatus cards
  = match filter isExpired l with
    | e :: es =>
        Routes.viewOf Routes.LExpired
          (Routes.reduce1
             (fun card best => Z.abs (Routes.daysUntil card)
                               <? Z.abs (Routes.daysUntil best)) e es)
    | [] =>
        match filter isExpiringSoon l with
        | e :: es =>
            Routes.viewOf Routes.LExpiring
              (Routes.reduce1
                 (fun card best => Routes.daysUntil card <? Routes.daysUntil best)
                 e es)
        | [] =>
            match l with
            | [] => noPaymentMethod
            | _ :: _ =>
                match filter isActive l with
                | e :: es =>
                    Routes.viewOf Routes.LActive
                      (Routes.reduce1
                         (fun card best => Routes.daysUntil card
                                           <? Routes.daysUntil best) e es)
                | [] => Routes.mkView Routes.LActive [] [] None
                end
            end
        end
    end.
Proof. reflexivity. Qed.

Lemma cardAnalysis_status (zone : Zone) (now : Z) (k : CustomerCard) :
  (ApiCustomers.pcStatus (ApiCustomers.cardAnalysis zone now k) = Routes.StNoExpiration
   <-> noCode k)
  /\ ApiCustomers.pcStatus (ApiCustomers.cardAnalysis zone now k) <> Routes.StActive
  /\ ApiCustomers.pcCard (ApiCustomers.cardAnalysis zone now k) = k.
Proof.
  unfold ApiCustomers.cardAnalysis, noCode.
  destruct (Clover.expirationDate k) as [[|x s]|]; cbn [ApiCustomers.pcStatus
                                                        ApiCustomers.pcCard].
  - repeat split; auto; discriminate.
  - repeat split; try reflexivity;
      repeat match goal with
             | |- context [if ?b then _ else _] => destruct b
             end; try discriminate; intros [H|H]; discriminate H.
  - repeat split; auto; discriminate.
Qed.

(** X12: on the printed list a customer of the payload shows "no payment
    method" exactly when it has no card rows, the expired label exactly
    when one of its cards has status expired, the expiring label exactly
    when none is expired and one is expiring soon, and the active label in
    the remaining case (cards, none of them expired or expiring soon).  A
    customer with card rows none of which has an expiration code shows the
    active label with no card number and no expiry. *)
Theorem X12_printed_label_of_payload_customer (zone : Zone) (now : Z)
  (groups : ApiCustomers.Groups) (customer : ApiCustomers.CustomerRow) :
  let p := ApiCustomers.customerWithAnalysis zone now groups customer in
  let v := Routes.getCardStatus (Routes.cards (ApiCustomers.received p)) in
  let some st :=
    exists c, In c (ApiCustomers.pCards p) /\ ApiCustomers.pcStatus c = st in
  (Routes.label v = Routes.LNoPaymentMethod <-> ApiCustomers.pCards p = [])
  /\ (Routes.label v = Routes.LExpired <-> some Routes.StExpired)
  /\ (Routes.label v = Routes.LExpiring
      <-> ~ some Routes.StExpired /\ some Routes.StExpiringSoon)
  /\ (Routes.label v = Routes.LActive
      <-> ApiCustomers.pCards p <> []
          /\ ~ some Routes.StExpired /\ ~ some Routes.StExpiringSoon)
  /\ (ApiCustomers.pCards p <> [] ->
      (forall c, In c (ApiCustomers.pCards p) -> noCode (ApiCustomers.pcCard c)) ->
      Routes.label v = Routes.LActive /\ Routes.cardNumber v = []
      /\ Routes.expiry v = []).
Proof.
  cbv zeta. rewrite getCardStatus_cases. cbv zeta.
  unfold ApiCustomers.received, ApiCustomers.customerWithAnalysis.
  cbn [Routes.cards ApiCustomers.pCards].
  set (ks := map (fun row => ApiCustomers.cardAnalysis zone now
                               (ApiCustomers.rowCard row))
               (ApiCustomers.groupOf groups (ApiCustomers.rowId customer))).
  assert (Hks : forall c, In c ks ->
            (ApiCustomers.pcStatus c = Routes.StNoExpiration
             <-> noCode (ApiCustomers.pcCard c))).
  { intros c Hc. apply in_map_iff in Hc as (row & <- & _).
    destruct (cardAnalysis_status zone now (ApiCustomers.rowCard row)) as (H1 & _ & H3).
    rewrite H3. assumption. }
  clearbody ks.
  set (g := fun c : ApiCustomers.PayloadCard =>
              Routes.mkCardAnalysis (ApiCustomers.pcCard c) (ApiCustomers.pcStatus c)
                match ApiCustomers.pcDaysUntil c with Num d => d | NaN => 0 end).
  assert (Hnone : forall pool, filter pool (map g ks) = [] ->
                    forall c, In c ks -> pool (g c) = false).
  { intros pool Hf c Hc. destruct (pool (g c)) eqn:E; [|reflexivity].
    assert (Hin : In (g c) (filter pool (map g ks)))
      by (apply filter_In; split; [apply in_map; assumption|assumption]).
    rewrite Hf in Hin. contradiction. }
  assert (Hsome : forall pool e es, filter pool (map g ks) = e :: es ->
                    exists c, In c ks /\ pool (g c) = true).
  { intros pool e es Hf.
    assert (Hin : In e (filter pool (map g ks))) by (rewrite Hf; left; reflexivity).
    apply filter_In in Hin as [Hin Hp]. apply in_map_iff in Hin as (c & <- & Hc).
    eauto. }
  assert (Hno : forall st, filter (fun k => Routes.CardStatus_eqb (Routes.status k) st)
                             (map g ks) = [] ->
                  ~ exists c, In c ks /\ ApiCustomers.pcStatus c = st).
  { intros st Hf (c & Hc & Hs). pose proof (Hnone _ Hf c Hc) as H.
    cbn [g Routes.status] in H. rewrite Hs in H.
    rewrite (proj2 (CardStatus_eqb_eq st st) eq_refl) in H. discriminate H. }
  assert (Hyes : forall st e es,
            filter (fun k => Routes.CardStatus_eqb (Routes.status k) st)
              (map g ks) = e :: es ->
            exists c, In c ks /\ ApiCustomers.pcStatus c = st).
  { intros st e es Hf. destruct (Hsome _ _ _ Hf) as (c & Hc & Hp).
    exists c. split; [assumption|]. apply CardStatus_eqb_eq. exact Hp. }
  assert (Hcodes : forall st, st <> Routes.StNoExpiration ->
            (exists c, In c ks /\ ApiCustomers.pcStatus c = st) ->
            ~ (forall c, In c ks -> noCode (ApiCustomers.pcCard c))).
  { intros st Hne (c & Hc & Hs) Hall. apply Hne. rewrite <- Hs.
    apply (Hks c Hc). apply Hall. assumption. }
  unfold isExpired, isExpiringSoon.
  destruct (filter (fun k => Routes.CardStatus_eqb (Routes.status k) Routes.StExpired)
              (map g ks)) as [|e es] eqn:Fe.
  - pose proof (Hno _ Fe) as Ne.
    destruct (filter (fun k => Routes.CardStatus_eqb (Routes.status k)
                                 Routes.StExpiringSoon) (map g ks))
      as [|e es] eqn:Fs.
    + pose proof (Hno _ Fs) as Ns.
      destruct ks as [|c0 ks0].
      * cbn [map]. unfold noPaymentMethod. cbn [Routes.label].
        split; [split; reflexivity|].
        split; [split; [intros H; discriminate H|intros H; contradiction]|].
        split; [split; [intros H; discriminate H|intros [_ H]; contradiction]|].
        split; [split; [intros H; discriminate H|intros [H _]; contradiction]|].
        intros H; contradiction.
      * cbn [map].
        assert (Hl : Routes.label
                       match filter isActive (g c0 :: map g ks0) with
                       | [] => Routes.mkView Routes.LActive [] [] None
                       | e :: es =>
                           Routes.viewOf Routes.LActive
                             (Routes.reduce1
                                (fun card best => Routes.daysUntil card
                                                  <? Routes.daysUntil best) e es)
                       end = Routes.LActive)
          by (destruct (filter isActive (g c0 :: map g ks0)); reflexivity).
        rewrite Hl.
        split; [split; [intros H; discriminate H|intros H; discriminate H]|].
        split; [split; [intros H; discriminate H|intros H; contradiction]|].
        split; [split; [intros H; discriminate H|intros [_ H]; contradiction]|].
        split; [split; [intros _; repeat split; try assumption; discriminate
                       |reflexivity]|].
        intros _ Hall. split; [reflexivity|].
        change (g c0 :: map g ks0) with (map g (c0 :: ks0)).
        destruct (filter isActive (map g (c0 :: ks0))) as [|e es] eqn:Fa;
          [split; reflexivity|].
        exfalso. destruct (Hsome _ _ _ Fa) as (c & Hc & Hp).
        pose proof (proj2 (Hks c Hc) (Hall c Hc)) as Hst.
        unfold isActive in Hp. cbn [g Routes.status] in Hp. rewrite Hst in Hp.
        discriminate Hp.
    + pose proof (Hyes _ _ _ Fs) as Ys.
      cbn [Routes.viewOf Routes.label].
      split; [split; [intros H; discriminate H
                     |intros H; destruct Ys as (c & Hc & _); rewrite H in Hc;
                      contradiction]|].
      split; [split; [intros H; discriminate H|intros H; contradiction]|].
      split; [split; [intros _; split; assumption|reflexivity]|].
      split; [split; [intros H; discriminate H|intros (_ & _ & H); contradiction]|].
      intros _ Hall. exfalso.
      apply (Hcodes Routes.StExpiringSoon); [discriminate|assumption|assumption].
  - pose proof (Hyes _ _ _ Fe) as Ye.
    cbn [Routes.viewOf Routes.label].
    split; [split; [intros H; discriminate H
                   |intros H; destruct Ye as (c & Hc & _); rewrite H in Hc;
                    contradiction]|].
    split; [split; [intros _; assumption|reflexivity]|].
    split; [split; [intros H; discriminate H|intros [H _]; contradiction]|].
    split; [split; [intros H; discriminate H|intros (_ & H & _); contradiction]|].
    intros _ Hall. exfalso.
    apply (Hcodes Routes.StExpired); [discriminate|assumption|assumption].
Qed.

Example active_card_with_long_code :
  let k := ApiCustomers.mkPayloadCard
             (mkCard None None (Some (of_string "12345")) None) Routes.StValid
             (Num 2000) in
  let p := ApiCustomers.mkPayloadCustomer [] None None [k] false false 1 in
  Routes.getCardStatus (Routes.cards (ApiCustomers.received p))
  = Routes.mkView Routes.LActive [] []
      (Some (Routes.mkCardAnalysis (ApiCustomers.pcCard k) Routes.StValid 2000)).
Proof. reflexivity. Qed.

(* ===================================================================== *)
(** * The customers page                                                  *)
(* ===================================================================== *)

Lemma derivedFields_flags (c : Routes.ListedCustomer) :
  PolicyA.derivedFields c ->
  0 <= Routes.totalCards c
  /\ (Routes.hasExpired c = true -> 0 < Routes.totalCards c)
  /\ (Routes.hasExpiringSoon c = true -> 0 < Routes.totalCards c).
Proof.
  intros (Ht & He & Hs). rewrite Ht, He, Hs.
  destruct (PolicyA.cardList c) as [|k l]; cbn [existsb List.length];
    repeat split; try lia; discriminate.
Qed.

(** X13: when the flags of every customer are derived from its cards, the
    four categories expired, expiring, no-cards and active partition the
    population: their sizes add up to the number of customers, and the
    urgency rank used for sorting is 4, 3, 2 and 1 on them respectively. *)
Theorem X13_categories_partition (now : Z) (customers : list Routes.ListedCustomer) :
  (forall c, In c customers -> PolicyA.derivedFields c) ->
  let cat := Routes.categorizedCustomers now customers in
  Z.of_nat (List.length (Routes.catExpired cat))
  + Z.of_nat (List.length (Routes.catExpiring cat))
  + Z.of_nat (List.length (Routes.catNoCards cat))
  + Z.of_nat (List.length (Routes.catActive cat))
  = Z.of_nat (List.length customers)
  /\ (forall c, In c customers ->
        (In c (Routes.catExpired cat) <-> Routes.getUrgency c = 4)
        /\ (In c (Routes.catExpiring cat) <-> Routes.getUrgency c = 3)
        /\ (In c (Routes.catNoCards cat) <-> Routes.getUrgency c = 2)
        /\ (In c (Routes.catActive cat) <-> Routes.getUrgency c = 1)).
Proof.
  intros Hd. cbv zeta. unfold Routes.categorizedCustomers.
  cbn [Routes.catExpired Routes.catExpiring Routes.catNoCards Routes.catActive].
  split.
  - induction customers as [|c cs IH]; [reflexivity|].
    specialize (IH (fun x Hx => Hd x (or_intror Hx))).
    destruct (derivedFields_flags c (Hd c (or_introl eq_refl))) as (H0 & H1 & H2).
    cbn [filter].
    destruct (Routes.hasExpired c), (Routes.hasExpiringSoon c);
      cbn [negb andb];
      destruct (Z.eqb_spec (Routes.totalCards c) 0);
      destruct (Z.gtb_spec (Routes.totalCards c) 0);
      cbn [andb List.length]; try lia;
      try (specialize (H1 eq_refl); lia); try (specialize (H2 eq_refl); lia).
  - intros c Hc.
    destruct (derivedFields_flags c (Hd c Hc)) as (H0 & H1 & H2).
    rewrite !filter_In. unfold Routes.getUrgency.
    destruct (Routes.hasExpired c), (Routes.hasExpiringSoon c);
      cbn [negb andb];
      destruct (Z.eqb_spec (Routes.totalCards c) 0);
      destruct (Z.gtb_spec (Routes.totalCards c) 0);
      try (specialize (H1 eq_refl)); try (specialize (H2 eq_refl));
      repeat split; intros; try lia; try tauto; try discriminate;
      try (destruct H as [_ H]; discriminate H).
Qed.

Lemma X13_categories_partition_witness :
  let k := Routes.mkCardAnalysis (mkCard None None None None) Routes.StExpired (-3) in
  let c1 := Routes.mkListedCustomer (Some (of_string "A")) None (Some [k]) true false 1 in
  let c2 := Routes.mkListedCustomer (Some (of_string "B")) None (Some []) false false 0 in
  let cat := Routes.categorizedCustomers 0 [c1; c2] in
  Z.of_nat (List.length (Routes.catExpired cat))
  + Z.of_nat (List.length (Routes.catExpiring cat))
  + Z.of_nat (List.length (Routes.catNoCards cat))
  + Z.of_nat (List.length (Routes.catActive cat))
  = 2.
Proof.
  cbv zeta.
  refine (proj1 (X13_categories_partition 0 _ _)).
  intros c [<-|[<-|[]]]; repeat split.
Defined.

(** X14: the NEW badge of a customer tile follows criterion (a) of the
    worklist (counting the cards of the customer itself), the tile lists at
    most two cards and accounts for the others under "more", and when the
    flags are derived from the cards the tile is expired, expiring or
    no-cards exactly for the customers of those categories, with an urgency
    one below the sort rank. *)
Theorem X14_customer_tile (now : Z) (c : Routes.ListedCustomer) :
  90 * msPerDay < now ->
  let tile := Routes.compactCustomerCard now c in
  (Routes.tileIsNew tile = true <-> PolicyA.isNewCustomer now c)
  /\ (List.length (Routes.tileShown tile) <= 2)%nat
  /\ Z.of_nat (List.length (Routes.tileShown tile))
     + match Routes.tileMore tile with Some n => n | None => 0 end
     = Z.of_nat (List.length
                   (filter (fun k => isExpired k || isExpiringSoon k)
                           (PolicyA.cardList c)))
  /\ (forall k, In k (Routes.tileRecentlyExpired tile)
                <-> In k (PolicyA.cardList c) /\ Routes.status k = Routes.StExpired
                    /\ Z.abs (Routes.daysUntil k) <= 180)
  /\ (PolicyA.derivedFields c ->
      Routes.tileUrgency tile = Routes.getUrgency c - 1
      /\ (Routes.tileStatus tile = Routes.TileExpired <-> Routes.hasExpired c = true)
      /\ (Routes.tileStatus tile = Routes.TileNoCards <-> Routes.totalCards c = 0)).
Proof.
  intros Hnow. cbv zeta. unfold Routes.compactCustomerCard.
  fold (PolicyA.cardList c). set (l := PolicyA.cardList c).
  change (fun k => Routes.CardStatus_eqb (Routes.status k) Routes.StExpired)
    with isExpired.
  change (fun k => Routes.CardStatus_eqb (Routes.status k) Routes.StExpiringSoon)
    with isExpiringSoon.
  set (listed := filter isExpired l ++ filter isExpiringSoon l).
  assert (Hlisted : List.length listed
                    = List.length (filter (fun k => isExpired k || isExpiringSoon k) l)).
  { unfold listed. rewrite length_app. clearbody l.
    induction l as [|k l IH]; [reflexivity|]. cbn [filter].
    unfold isExpired, isExpiringSoon in *.
    destruct (Routes.status k); cbn [Routes.CardStatus_eqb orb List.length];
      rewrite <- ?IH; lia. }
  assert (Hshown : Routes.tileShown
                     (let '(st, urgency) :=
                        match filter isExpired l, filter isExpiringSoon l, l with
                        | _ :: _, _, _ => (Routes.TileExpired, 3)
                        | [], _ :: _, _ => (Routes.TileExpiring, 2)
                        | [], [], [] => (Routes.TileNoCards, 1)
                        | [], [], _ :: _ => (Routes.TileActive, 0)
                        end in
                      Routes.mkTile st urgency
                        match truthyNum (Routes.customerSince c) with
                        | Some since =>
                            if Z.of_nat (List.length l) >? 0
                            then since >=? Routes.threeMonthsAgo now
                            else since >=? Routes.cleanupDate
                        | None => false
                        end
                        (filter (fun card => Z.abs (Routes.daysUntil card) <=? 180)
                                (filter isExpired l))
                        (firstn 2 listed)
                        (if Z.of_nat (List.length listed) >? 2
                         then Some (Z.of_nat (List.length listed) - 2) else None))
                   = firstn 2 listed)
    by (destruct (filter isExpired l), (filter isExpiringSoon l), l; reflexivity).
  split; [|split; [|split; [|split]]].
  - transitivity (match truthyNum (Routes.customerSince c) with
                  | Some since =>
                      if Z.of_nat (List.length l) >? 0
                      then since >=? Routes.threeMonthsAgo now
                      else since >=? Routes.cleanupDate
                  | None => false
                  end = true);
      [destruct (filter isExpired l), (filter isExpiringSoon l), l; reflexivity|].
    unfold PolicyA.isNewCustomer, truthyNum. fold l.
    unfold Routes.threeMonthsAgo, Routes.cleanupDate, msPerDay in *.
    destruct (Routes.customerSince c) as [since|].
    + destruct (Z.eqb_spec since 0) as [->|Hne].
      * split; [discriminate|].
        intros (s & Hs & Hc). injection Hs as <-. destruct l; lia.
      * destruct l as [|k l0]; cbn [List.length].
        -- change (Z.of_nat 0 >? 0) with false. cbv iota. rewrite Z.geb_le. split.
           ++ intros H. exists since. split; [reflexivity|exact H].
           ++ intros (s & Hs & Hc). injection Hs as <-. exact Hc.
        -- replace (Z.of_nat (S (List.length l0)) >? 0) with true
             by (symmetry; apply Z.gtb_lt; lia).
           rewrite Z.geb_le. split.
           ++ intros H. exists since. split; [reflexivity|lia].
           ++ intros (s & Hs & Hc). injection Hs as <-. lia.
    + split; [discriminate|intros (s & Hs & _); discriminate Hs].
  - rewrite Hshown. apply firstn_le_length.
  - rewrite Hshown, <- Hlisted.
    transitivity (Z.of_nat (List.length (firstn 2 listed))
                  + match (if Z.of_nat (List.length listed) >? 2
                           then Some (Z.of_nat (List.length listed) - 2) else None)
                    with Some n => n | None => 0 end);
      [destruct (filter isExpired l), (filter isExpiringSoon l), l; reflexivity|].
    rewrite length_firstn.
    destruct (Z.gtb_spec (Z.of_nat (List.length listed)) 2); lia.
  - intros k.
    transitivity (In k (filter (fun card => Z.abs (Routes.daysUntil card) <=? 180)
                               (filter isExpired l)));
      [destruct (filter isExpired l), (filter isExpiringSoon l), l; reflexivity|].
    rewrite !filter_In. unfold isExpired. rewrite CardStatus_eqb_eq, Z.leb_le. tauto.
  - intros Hd. destruct (derivedFields_flags c Hd) as (H0 & H1 & H2).
    destruct Hd as (Ht & He & Hs). fold l in Ht, He, Hs.
    unfold Routes.getUrgency.
    assert (Fe : filter isExpired l = [] <-> Routes.hasExpired c = false).
    { rewrite He. fold isExpired. clear. induction l as [|k l IH]; cbn [filter existsb];
        [tauto|]. destruct (isExpired k); cbn [orb]; [split; discriminate|exact IH]. }
    assert (Fs : filter isExpiringSoon l = [] <-> Routes.hasExpiringSoon c = false).
    { rewrite Hs. fold isExpiringSoon. clear.
      induction l as [|k l IH]; cbn [filter existsb]; [tauto|].
      destruct (isExpiringSoon k); cbn [orb]; [split; discriminate|exact IH]. }
    destruct (filter isExpired l) as [|e es].
    + rewrite (proj1 Fe eq_refl).
      destruct (filter isExpiringSoon l) as [|s ss].
      * rewrite (proj1 Fs eq_refl).
        destruct l as [|k l0]; cbn [List.length] in Ht; rewrite Ht;
          cbn [Routes.tileUrgency Routes.tileStatus];
          [change (Z.of_nat 0 =? 0) with true
          |replace (Z.of_nat (S (List.length l0)) =? 0) with false
             by (symmetry; apply Z.eqb_neq; lia)];
          repeat split; intros; try lia; try discriminate; reflexivity.
      * destruct (Routes.hasExpiringSoon c) eqn:Es;
          [|destruct Fs as [_ Fs]; specialize (Fs eq_refl); discriminate Fs].
        cbn [Routes.tileUrgency Routes.tileStatus].
        specialize (H2 eq_refl).
        repeat split; intros; try lia; try discriminate.
    + destruct (Routes.hasExpired c) eqn:Ee;
        [|destruct Fe as [_ Fe]; specialize (Fe eq_refl); discriminate Fe].
      cbn [Routes.tileUrgency Routes.tileStatus]. specialize (H1 eq_refl).
      repeat split; intros; try lia; try discriminate; reflexivity.
Qed.

Lemma X14_customer_tile_witness :
  let c := Routes.mkListedCustomer (Some (of_string "Acme"))
             (Some (localMidnight 0 2026 11 1)) (Some []) false false 0 in
  Routes.tileIsNew (Routes.compactCustomerCard (localMidnight 0 2026 11 15) c) = true
  <-> PolicyA.isNewCustomer (localMidnight 0 2026 11 15) c.
Proof.
  cbv zeta.
  refine (proj1 (X14_customer_tile (localMidnight 0 2026 11 15) _ _)).
  vm_compute. reflexivity.
Defined.

(** X15: the age shown for a timestamp is nothing for a missing or zero
    timestamp; otherwise, with [days] the whole days elapsed, it is "today"
    for 0, a day count for every other value below 30 (negative for a
    timestamp in the future), a month count between 1 and 12 for 30 to 364
    days, and a year count of at least 1 from 365 days on. *)
Theorem X15_formatDaysAgo_ranges (now : Z) (timestamp : option Z) :
  (Routes.formatDaysAgo now timestamp = Routes.AgoNull
   <-> timestamp = None \/ timestamp = Some 0)
  /\ (forall ts, timestamp = Some ts -> ts <> 0 ->
      let days := floor_div (now - ts) msPerDay in
      msPerDay * days <= now - ts < msPerDay * (days + 1)
      /\ (days = 0 -> Routes.formatDaysAgo now timestamp = Routes.AgoToday)
      /\ (days < 30 -> days <> 0 ->
          Routes.formatDaysAgo now timestamp = Routes.AgoDays days)
      /\ (30 <= days < 365 ->
          exists n, Routes.formatDaysAgo now timestamp = Routes.AgoMonths n
                    /\ 1 <= n <= 12 /\ 30 * n <= days < 30 * (n + 1))
      /\ (365 <= days ->
          exists n, Routes.formatDaysAgo now timestamp = Routes.AgoYears n
                    /\ 1 <= n /\ 365 * n <= days < 365 * (n + 1))).
Proof.
  split.
  - unfold Routes.formatDaysAgo, truthyNum.
    destruct timestamp as [ts|]; [|split; [auto|reflexivity]].
    destruct (Z.eqb_spec ts 0) as [->|Hne]; [split; [auto|reflexivity]|].
    split.
    + repeat match goal with
             | |- context [if ?b then _ else _] => destruct b
             end; intros H; discriminate H.
    + intros [H|H]; [discriminate H|injection H as ->; contradiction].
  - intros ts -> Hts. cbv zeta. unfold Routes.formatDaysAgo, truthyNum.
    replace (ts =? 0) with false by (symmetry; apply Z.eqb_neq; assumption).
    change (1000 * 60 * 60 * 24) with msPerDay.
    set (days := floor_div (now - ts) msPerDay).
    split; [unfold days, floor_div, msPerDay; zdiv|].
    destruct (Z.eqb_spec days 0); [repeat split; intros; try lia; reflexivity|].
    destruct (Z.eqb_spec days 1) as [E1|];
      [rewrite E1; repeat split; intros; try lia; reflexivity|].
    destruct (Z.ltb_spec days 30); [repeat split; intros; try lia; reflexivity|].
    destruct (Z.ltb_spec days 365).
    + repeat split; intros; try lia.
      exists (floor_div days 30). split; [reflexivity|]. unfold floor_div. zdiv.
    + repeat split; intros; try lia.
      exists (floor_div days 365). split; [reflexivity|]. unfold floor_div. zdiv.
Qed.

Example formatDaysAgo_360_days :
  Routes.formatDaysAgo (360 * msPerDay + 1) (Some 1) = Routes.AgoMonths 12
  /\ Routes.formatDaysAgo 0 (Some (5 * msPerDay)) = Routes.AgoDays (-5).
Proof. split; reflexivity. Qed.

(** ** Phone numbers on the printed list *)

Lemma digitsOnly_app (a b : jsstring) : digitsOnly (a ++ b) = digitsOnly a ++ digitsOnly b.
Proof. unfold digitsOnly. apply filter_app. Qed.

Lemma digitsOnly_all (s : jsstring) :
  Forall (fun c => isDigit c = true) (digitsOnly s).
Proof. apply Forall_forall. intros c Hc. apply filter_In in Hc. apply Hc. Qed.

Lemma digitsOnly_fix (l : jsstring) :
  Forall (fun c => isDigit c = true) l -> digitsOnly l = l.
Proof.
  unfold digitsOnly. induction 1 as [|c l Hc Hl IH]; [reflexivity|].
  cbn [filter]. rewrite Hc, IH. reflexivity.
Qed.

Lemma in_firstn_in {A : Type} (x : A) (n : nat) (l : list A) :
  In x (firstn n l) -> In x l.
Proof. intros H. rewrite <- (firstn_skipn n l). apply in_or_app. left. exact H. Qed.

Lemma in_skipn_in {A : Type} (x : A) (n : nat) (l : list A) :
  In x (skipn n l) -> In x l.
Proof. intros H. rewrite <- (firstn_skipn n l). apply in_or_app. right. exact H. Qed.

Lemma Forall_firstn_skipn {A : Type} (P : A -> Prop) (l : list A) (a b : nat) :
  Forall P l -> Forall P (firstn a (skipn b l)).
Proof.
  intros H. apply Forall_forall. intros x Hx.
  apply in_firstn_in, in_skipn_in in Hx. revert x Hx. apply Forall_forall. exact H.
Qed.

Lemma slice_pieces (l : jsstring) (a b : nat) :
  (a <= b)%nat -> slice l a b ++ sliceFrom l b = sliceFrom l a.
Proof.
  intros Hab. unfold slice, sliceFrom.
  rewrite <- (firstn_skipn (b - a) (skipn a l)) at 2. f_equal.
  rewrite skipn_skipn. f_equal. lia.
Qed.

(** X16: formatting a phone number never changes its digits: the digits of
    the result are the digits of the input, in order.  An input with 10
    digits gives a result of 14 characters, one with 11 digits starting
    with 1 gives 17, and any other input is returned as it is. *)
Theorem X16_formatPhone_keeps_digits (phone : jsstring) :
  digitsOnly (Routes.formatPhone phone) = digitsOnly phone
  /\ (List.length (digitsOnly phone) = 10%nat ->
      List.length (Routes.formatPhone phone) = 14%nat)
  /\ (List.length (digitsOnly phone) = 11%nat ->
      (exists rest, digitsOnly phone = 49 :: rest) ->
      List.length (Routes.formatPhone phone) = 17%nat)
  /\ (List.length (digitsOnly phone) <> 10%nat ->
      (List.length (digitsOnly phone) <> 11%nat
       \/ forall rest, digitsOnly phone <> 49 :: rest) ->
      Routes.formatPhone phone = phone).
Proof.
  unfold Routes.formatPhone.
  destruct phone as [|p0 ps]; [repeat split; intros; try reflexivity; discriminate|].
  set (phone := p0 :: ps). set (cl := digitsOnly phone).
  pose proof (digitsOnly_all phone) as Hall. fold cl in Hall.
  assert (Hd : forall a b : nat, digitsOnly (slice cl a b) = slice cl a b)
    by (intros a b; apply digitsOnly_fix, Forall_firstn_skipn, Hall).
  assert (Hf : forall a : nat, digitsOnly (sliceFrom cl a) = sliceFrom cl a).
  { intros a. apply digitsOnly_fix. apply Forall_forall. intros x Hx.
    apply in_skipn_in in Hx. revert x Hx. apply Forall_forall, Hall. }
  destruct (Nat.eqb_spec (List.length cl) 10) as [E10|N10].
  - split; [|split; [|split]].
    + rewrite !digitsOnly_app, !Hd, Hf.
      change (digitsOnly (of_string "(")) with (@nil Z).
      change (digitsOnly (of_string ") ")) with (@nil Z).
      change (digitsOnly (of_string "-")) with (@nil Z).
      cbn [app]. rewrite (slice_pieces cl 3 6) by lia.
      rewrite (slice_pieces cl 0 3) by lia. reflexivity.
    + intros _. rewrite !length_app. unfold slice, sliceFrom.
      rewrite !length_firstn, !length_skipn, E10. reflexivity.
    + intros H. lia.
    + intros H. contradiction.
  - cbn [andb].
    destruct (Nat.eqb_spec (List.length cl) 11) as [E11|N11]; cbn [andb].
    + destruct cl as [|c0 rest] eqn:Ecl; [discriminate E11|].
      destruct (Z.eqb_spec c0 49) as [->|Hne].
      * rewrite <- Ecl in *. split; [|split; [|split]].
        -- rewrite !digitsOnly_app, !Hd, Hf.
           change (digitsOnly (of_string "+1 (")) with [49].
           change (digitsOnly (of_string ") ")) with (@nil Z).
           change (digitsOnly (of_string "-")) with (@nil Z).
           cbn [app]. rewrite (slice_pieces cl 4 7) by lia.
           rewrite (slice_pieces cl 1 4) by lia.
           unfold sliceFrom. rewrite Ecl. reflexivity.
        -- intros H. lia.
        -- intros _ _. rewrite !length_app. unfold slice, sliceFrom.
           rewrite !length_firstn, !length_skipn, E11. reflexivity.
        -- intros _ [H|H]; [contradiction|]. exfalso. apply (H rest). exact Ecl.
      * rewrite <- Ecl in *. split; [reflexivity|split; [|split]].
        -- intros H. lia.
        -- intros _ (rest' & H). rewrite Ecl in H. injection H as H _. contradiction.
        -- reflexivity.
    + split; [reflexivity|split; [|split]]; try reflexivity; intros; lia.
Qed.

(* ===================================================================== *)
(** * The CSV export                                                      *)
(* ===================================================================== *)

Lemma prop_absent (o : ApiExport.object) (name : string) :
  (forall k v, In (k, v) o -> k <> name) -> ApiExport.prop o name = ApiExport.VUndefined.
Proof.
  induction o as [|[k v] o IH]; intros H; cbn [ApiExport.prop]; [reflexivity|].
  destruct (String.eqb_spec k name) as [E|_].
  - exfalso. apply (H k v); [left; reflexivity|exact E].
  - apply IH. intros k' v' Hin. apply (H k' v'). right. exact Hin.
Qed.

Lemma customerKeys_not_read (name : string) :
  name = "has_expired"%string \/ name = "has_expiring_soon"%string
  \/ name = "customer_since"%string \/ name = "total_cards"%string ->
  ~ In name ApiExport.customerKeys.
Proof.
  intros [-> | [-> | [-> | ->] ] ] H; cbn in H;
    repeat (destruct H as [H|H]; [discriminate H|]); exact H.
Qed.

Lemma filter_none {A : Type} (p : A -> bool) (l : list A) :
  (forall x, In x l -> p x = false) -> filter p l = [].
Proof.
  induction l as [|x l IH]; intros H; [reflexivity|].
  cbn [filter]. rewrite (H x (or_introl eq_refl)).
  apply IH. intros y Hy. apply H. right. exact Hy.
Qed.

(** X17: the export reads the properties [has_expired],
    [has_expiring_soon], [customer_since] and [total_cards], none of which
    is a property of the customer objects the customers API returns; so its
    action-required filter rejects every such customer and the export is
    empty.  For a status other than "all" and "action-required" the export
    is empty whatever the customers, and for "all" nothing is filtered. *)
Theorem X17_export_filter (stringToNumber : jsstring -> number) (now : Z)
  (customers : list ApiExport.object) :
  (forall o, ApiExport.fromCustomersApi o ->
             ApiExport.statusFilter stringToNumber ApiExport.StatusActionRequired now o
             = false)
  /\ ((forall o, In o customers -> ApiExport.fromCustomersApi o) ->
      ApiExport.exported stringToNumber ApiExport.StatusActionRequired now customers
      = [])
  /\ ApiExport.exported stringToNumber ApiExport.StatusOther now customers = []
  /\ ApiExport.exported stringToNumber ApiExport.StatusAll now customers = customers.
Proof.
  assert (H : forall o, ApiExport.fromCustomersApi o ->
            ApiExport.statusFilter stringToNumber ApiExport.StatusActionRequired now o
            = false).
  { intros o Ho. unfold ApiExport.statusFilter.
    assert (Hu : forall name,
              name = "has_expired"%string \/ name = "has_expiring_soon"%string
              \/ name = "customer_since"%string \/ name = "total_cards"%string ->
              ApiExport.prop o name = ApiExport.VUndefined).
    { intros name Hn. apply prop_absent. intros k v Hin ->.
      apply (customerKeys_not_read _ Hn). apply (Ho _ v). exact Hin. }
    rewrite !Hu by tauto. reflexivity. }
  split; [exact H|split; [|split]].
  - intros Hall. unfold ApiExport.exported. apply filter_none.
    intros o Ho. apply H, Hall, Ho.
  - unfold ApiExport.exported. apply filter_none. reflexivity.
  - reflexivity.
Qed.

(* ===================================================================== *)
(** * The cache                                                           *)
(* ===================================================================== *)

Section CacheFacts.
Context {T : Type}.
Implicit Types (m : Cache.Store T) (c : Cache.SimpleCache T) (e : Cache.CacheEntry T).

Lemma mapGet_mapSet_same m key e : Cache.mapGet (Cache.mapSet m key e) key = Some e.
Proof.
  induction m as [|[k e0] m IH]; cbn [Cache.mapSet Cache.mapGet].
  - rewrite jsstring_eqb_refl. reflexivity.
  - destruct (jsstring_eqb k key) eqn:E; cbn [Cache.mapGet]; rewrite E; auto.
Qed.

Lemma mapGet_mapSet_other m key key' e :
  key' <> key -> Cache.mapGet (Cache.mapSet m key e) key' = Cache.mapGet m key'.
Proof.
  intros Hne. induction m as [|[k e0] m IH]; cbn [Cache.mapSet Cache.mapGet].
  - replace (jsstring_eqb key key') with false
      by (symmetry; apply jsstring_eqb_neq; congruence). reflexivity.
  - destruct (jsstring_eqb k key) eqn:E; cbn [Cache.mapGet].
    + apply jsstring_eqb_eq in E. subst k.
      replace (jsstring_eqb key key') with false
        by (symmetry; apply jsstring_eqb_neq; congruence). reflexivity.
    + destruct (jsstring_eqb k key'); [reflexivity|exact IH].
Qed.

Lemma mapGet_mapDelete_other m key key' :
  key' <> key -> Cache.mapGet (Cache.mapDelete m key) key' = Cache.mapGet m key'.
Proof.
  intros Hne. induction m as [|[k e0] m IH]; cbn [Cache.mapDelete Cache.mapGet];
    [reflexivity|].
  destruct (jsstring_eqb k key) eqn:E; cbn [Cache.mapGet].
  - apply jsstring_eqb_eq in E. subst k.
    replace (jsstring_eqb key key') with false
      by (symmetry; apply jsstring_eqb_neq; congruence). reflexivity.
  - destruct (jsstring_eqb k key'); [reflexivity|exact IH].
Qed.

Lemma mapGet_none_iff m key : Cache.mapGet m key = None <-> ~ In key (map fst m).
Proof.
  induction m as [|[k e0] m IH]; cbn [Cache.mapGet map fst In]; [tauto|].
  destruct (jsstring_eqb k key) eqn:E.
  - apply jsstring_eqb_eq in E. split; [discriminate|intros H; exfalso; auto].
  - apply jsstring_eqb_neq in E. rewrite IH. tauto.
Qed.

Lemma keys_mapSet m key e :
  map fst (Cache.mapSet m key e)
  = if Cache.mapHas m key then map fst m else map fst m ++ [key].
Proof.
  unfold Cache.mapHas.
  induction m as [|[k e0] m IH]; cbn [Cache.mapSet Cache.mapGet map fst app];
    [reflexivity|].
  destruct (jsstring_eqb k key) eqn:E; cbn [map fst]; [reflexivity|].
  rewrite IH. destruct (Cache.mapGet m key); reflexivity.
Qed.

Lemma in_mapDelete m key x : In x (Cache.mapDelete m key) -> In x m.
Proof.
  induction m as [|[k e0] m IH]; cbn [Cache.mapDelete]; [auto|].
  destruct (jsstring_eqb k key); [intros H; right; exact H|].
  intros [H|H]; [left; exact H|right; apply IH; exact H].
Qed.

Lemma NoDup_mapDelete m key :
  NoDup (map fst m) -> NoDup (map fst (Cache.mapDelete m key)).
Proof.
  induction m as [|[k e0] m IH]; cbn [Cache.mapDelete map fst]; [auto|].
  intros H. inversion H as [|? ? Hk Hm]; subst.
  destruct (jsstring_eqb k key); [exact Hm|].
  cbn [map fst]. constructor; [|apply IH; exact Hm].
  intros Hin. apply Hk. apply in_map_iff in Hin as ([k' e'] & Hf & Hin).
  apply in_map_iff. exists (k', e'). split; [exact Hf|].
  apply (in_mapDelete m key). exact Hin.
Qed.

Lemma mapGet_mapDelete_same m key :
  NoDup (map fst m) -> Cache.mapGet (Cache.mapDelete m key) key = None.
Proof.
  induction m as [|[k e0] m IH]; cbn [Cache.mapDelete Cache.mapGet map fst];
    [reflexivity|].
  intros H. inversion H as [|? ? Hk Hm]; subst.
  destruct (jsstring_eqb k key) eqn:E; cbn [Cache.mapGet].
  - apply jsstring_eqb_eq in E. subst k. apply mapGet_none_iff. exact Hk.
  - rewrite E. apply IH. exact Hm.
Qed.

Lemma NoDup_mapSet m key e :
  NoDup (map fst m) -> NoDup (map fst (Cache.mapSet m key e)).
Proof.
  intros H. rewrite keys_mapSet. unfold Cache.mapHas.
  destruct (Cache.mapGet m key) eqn:E; [exact H|].
  apply mapGet_none_iff in E.
  apply NoDup_app; [exact H|constructor; [intros []|constructor]|].
  intros x Hx [<-|[]]. contradiction.
Qed.

Lemma effectiveTTL_truthy c ttlArg :
  match truthyNum ttlArg with Some t => t | None => Cache.defaultTTL c end
  = Cache.effectiveTTL c ttlArg.
Proof.
  unfold truthyNum, Cache.effectiveTTL. destruct ttlArg as [t|]; [|reflexivity].
  destruct (Z.eqb_spec t 0) as [->|Hne]; [reflexivity|].
  destruct t; try reflexivity. contradiction.
Qed.

(** X18: data stored with [set] is returned by [get] on the same key as
    long as the clock has advanced by no more than the entry's time to
    live (the [ttl] argument, or the default when it is missing or zero),
    and the cache is left as it was; [get] after that returns nothing and
    leaves a cache without the key.  Storing again replaces the entry. *)
Theorem X18_cache_set_then_get c key (d : option T) (ttlArg : option Z) (t0 t1 : Z) :
  Cache.wellFormed c ->
  let c1 := Cache.set t0 c key d ttlArg in
  Cache.mapGet (Cache.cache c1) key
  = Some (Cache.mkEntry d t0 (Cache.effectiveTTL c ttlArg))
  /\ (t1 - t0 <= Cache.effectiveTTL c ttlArg -> Cache.get t1 c1 key = (d, c1))
  /\ (Cache.effectiveTTL c ttlArg < t1 - t0 ->
      fst (Cache.get t1 c1 key) = None
      /\ Cache.mapGet (Cache.cache (snd (Cache.get t1 c1 key))) key = None
      /\ forall t2, fst (Cache.get t2 (snd (Cache.get t1 c1 key)) key) = None)
  /\ (forall d' ttl' t,
        Cache.mapGet (Cache.cache (Cache.set t c1 key d' ttl')) key
        = Some (Cache.mkEntry d' t (Cache.effectiveTTL c ttl'))).
Proof.
  intros Hwf. cbv zeta.
  assert (Hget : forall c0 d0 a t,
            Cache.mapGet (Cache.cache (Cache.set t c0 key d0 a)) key
            = Some (Cache.mkEntry d0 t (Cache.effectiveTTL c0 a))).
  { intros c0 d0 a t. unfold Cache.set. cbn [Cache.cache].
    rewrite mapGet_mapSet_same, effectiveTTL_truthy. reflexivity. }
  split; [apply Hget|split; [|split]].
  - intros Hle. unfold Cache.get. rewrite Hget. unfold Cache.isExpired.
    cbn [Cache.timestamp Cache.ttl Cache.data].
    destruct (Z.gtb_spec (t1 - t0) (Cache.effectiveTTL c ttlArg)); [lia|reflexivity].
  - intros Hgt.
    assert (Hnone : Cache.mapGet
                      (Cache.mapDelete (Cache.cache (Cache.set t0 c key d ttlArg)) key)
                      key = None).
    { apply mapGet_mapDelete_same. unfold Cache.set. cbn [Cache.cache].
      apply NoDup_mapSet. exact Hwf. }
    assert (Hg : Cache.get t1 (Cache.set t0 c key d ttlArg) key
                 = (None, Cache.mkCache
                            (Cache.mapDelete
                               (Cache.cache (Cache.set t0 c key d ttlArg)) key)
                            (Cache.defaultTTL (Cache.set t0 c key d ttlArg)))).
    { unfold Cache.get. rewrite Hget. unfold Cache.isExpired.
      cbn [Cache.timestamp Cache.ttl].
      destruct (Z.gtb_spec (t1 - t0) (Cache.effectiveTTL c ttlArg)); [reflexivity|lia]. }
    rewrite Hg. cbn [fst snd Cache.cache].
    split; [reflexivity|split; [exact Hnone|]].
    intros t2. unfold Cache.get. cbn [Cache.cache]. rewrite Hnone. reflexivity.
  - intros d' ttl' t. rewrite Hget. reflexivity.
Qed.

Lemma get_fst c key (t : Z) :
  fst (Cache.get t c key)
  = match Cache.mapGet (Cache.cache c) key with
    | Some e => if Cache.isExpired t e then None else Cache.data e
    | None => None
    end.
Proof.
  unfold Cache.get. destruct (Cache.mapGet (Cache.cache c) key) as [e|]; [|reflexivity].
  destruct (Cache.isExpired t e); reflexivity.
Qed.

Lemma get_cache_other c key key' (t : Z) :
  key' <> key ->
  Cache.mapGet (Cache.cache (snd (Cache.get t c key))) key'
  = Cache.mapGet (Cache.cache c) key'.
Proof.
  intros Hne. unfold Cache.get.
  destruct (Cache.mapGet (Cache.cache c) key) as [e|]; [|reflexivity].
  destruct (Cache.isExpired t e); [|reflexivity].
  cbn [snd Cache.cache]. apply mapGet_mapDelete_other. exact Hne.
Qed.

(** X19: operations on one key do not disturb another: after [set],
    [delete] or [get] on [key], a [get] on a different key returns what it
    would have returned before. *)
Theorem X19_cache_keys_independent c key key' (d : option T) (ttlArg : option Z)
  (t0 t : Z) :
  key' <> key ->
  fst (Cache.get t (Cache.set t0 c key d ttlArg) key') = fst (Cache.get t c key')
  /\ fst (Cache.get t (snd (Cache.delete c key)) key') = fst (Cache.get t c key')
  /\ fst (Cache.get t (snd (Cache.get t0 c key)) key') = fst (Cache.get t c key').
Proof.
  intros Hne. rewrite !get_fst. split; [|split].
  - unfold Cache.set. cbn [Cache.cache]. rewrite mapGet_mapSet_other by exact Hne.
    reflexivity.
  - unfold Cache.delete. cbn [snd Cache.cache].
    rewrite mapGet_mapDelete_other by exact Hne. reflexivity.
  - rewrite get_cache_other by exact Hne. reflexivity.
Qed.

Lemma fold_delete_skip (keys : list jsstring) m k e :
  ~ In k keys ->
  fold_left Cache.mapDelete keys ((k, e) :: m)
  = (k, e) :: fold_left Cache.mapDelete keys m.
Proof.
  revert m. induction keys as [|key keys IH]; intros m Hk; cbn [fold_left];
    [reflexivity|].
  cbn [Cache.mapDelete].
  replace (jsstring_eqb k key) with false.
  - apply IH. intros H. apply Hk. right. exact H.
  - symmetry. apply jsstring_eqb_neq. intros ->. apply Hk. left. reflexivity.
Qed.

Lemma fold_delete_filter (p : jsstring * Cache.CacheEntry T -> bool) m :
  NoDup (map fst m) ->
  fold_left Cache.mapDelete (map fst (filter p m)) m
  = filter (fun ke => negb (p ke)) m.
Proof.
  induction m as [|[k e] m IH]; intros H; [reflexivity|].
  cbn [map fst] in H. inversion H as [|? ? Hk Hm]; subst.
  cbn [filter]. destruct (p (k, e)); cbn [negb map fst fold_left].
  - cbn [Cache.mapDelete]. rewrite jsstring_eqb_refl. apply IH. exact Hm.
  - rewrite fold_delete_skip; [rewrite IH by exact Hm; reflexivity|].
    intros Hin. apply Hk. apply in_map_iff in Hin as (ke & Hf & Hin).
    apply filter_In in Hin as [Hin _]. apply in_map_iff. exists ke. auto.
Qed.

Lemma NoDup_filter_keys (q : jsstring * Cache.CacheEntry T -> bool) m :
  NoDup (map fst m) -> NoDup (map fst (filter q m)).
Proof.
  induction m as [|[k e] m IH]; intros H; [constructor|].
  cbn [map fst] in H. inversion H as [|? ? Hk Hm]; subst.
  cbn [filter]. destruct (q (k, e)); [|apply IH; exact Hm].
  cbn [map fst]. constructor; [|apply IH; exact Hm].
  intros Hin. apply Hk. apply in_map_iff in Hin as (ke & Hf & Hin).
  apply filter_In in Hin as [Hin _]. apply in_map_iff. exists ke. auto.
Qed.

Lemma mapGet_filter_entry (q : Cache.CacheEntry T -> bool) m key :
  NoDup (map fst m) ->
  Cache.mapGet (filter (fun ke => q (snd ke)) m) key
  = match Cache.mapGet m key with
    | Some e => if q e then Some e else None
    | None => None
    end.
Proof.
  induction m as [|[k e] m IH]; intros H; [reflexivity|].
  cbn [map fst] in H. inversion H as [|? ? Hk Hm]; subst.
  cbn [filter Cache.mapGet snd].
  destruct (jsstring_eqb k key) eqn:E.
  - apply jsstring_eqb_eq in E. subst k.
    destruct (q e); cbn [Cache.mapGet]; [rewrite jsstring_eqb_refl; reflexivity|].
    apply mapGet_none_iff. intros Hin. apply Hk.
    apply in_map_iff in Hin as (ke & Hf & Hin).
    apply filter_In in Hin as [Hin _]. apply in_map_iff. exists ke. auto.
  - destruct (q e); cbn [Cache.mapGet]; [rewrite E|]; apply IH; exact Hm.
Qed.

Lemma mapGet_filter_key (q : jsstring -> bool) m key :
  Cache.mapGet (filter (fun ke => q (fst ke)) m) key
  = if q key then Cache.mapGet m key else None.
Proof.
  induction m as [|[k e] m IH]; [destruct (q key); reflexivity|].
  cbn [filter Cache.mapGet fst].
  destruct (jsstring_eqb k key) eqn:E.
  - apply jsstring_eqb_eq in E. subst k.
    destruct (q key); cbn [Cache.mapGet];
      [rewrite jsstring_eqb_refl; reflexivity|exact IH].
  - destruct (q k); cbn [Cache.mapGet]; [rewrite E|]; exact IH.
Qed.

Lemma cleanup_cache (now : Z) c :
  Cache.wellFormed c ->
  Cache.cache (snd (Cache.cleanup now c))
  = filter (fun ke => negb (Cache.isExpired now (snd ke))) (Cache.cache c).
Proof.
  intros Hwf. unfold Cache.cleanup. cbn [snd Cache.cache].
  apply (fold_delete_filter (fun ke => Cache.isExpired now (snd ke))). exact Hwf.
Qed.

(** X20: with pairwise different keys, the statistics split the entries
    into valid and expired; [cleanup] returns the number of expired entries
    and removes exactly those, so that afterwards nothing is expired, the
    entries are the valid ones, and every [get] at that time returns what
    it returned before. *)
Theorem X20_cache_cleanup (now : Z) c :
  Cache.wellFormed c ->
  let stats := Cache.getStats now c in
  let after := snd (Cache.cleanup now c) in
  Cache.validEntries stats + Cache.expiredEntries stats = Cache.totalEntries stats
  /\ fst (Cache.cleanup now c) = Cache.expiredEntries stats
  /\ Cache.totalEntries (Cache.getStats now after) = Cache.validEntries stats
  /\ Cache.expiredEntries (Cache.getStats now after) = 0
  /\ (forall key, fst (Cache.get now after key) = fst (Cache.get now c key))
  /\ Cache.wellFormed after.
Proof.
  intros Hwf. cbv zeta.
  pose proof (cleanup_cache now c Hwf) as Hc.
  assert (Hneg : forall l : Cache.Store T,
            filter (fun ke => negb (Cache.isExpired now (snd ke))) l
            = filter (fun ke => now - Cache.timestamp (snd ke) <=? Cache.ttl (snd ke)) l).
  { intros l. apply filter_ext. intros ke. unfold Cache.isExpired.
    destruct (Z.gtb_spec (now - Cache.timestamp (snd ke)) (Cache.ttl (snd ke)));
      destruct (Z.leb_spec (now - Cache.timestamp (snd ke)) (Cache.ttl (snd ke)));
      try reflexivity; lia. }
  split; [|split; [|split; [|split; [|split]]]].
  - unfold Cache.getStats.
    cbn [Cache.validEntries Cache.expiredEntries Cache.totalEntries].
    clear Hc Hwf.
    induction (Cache.cache c) as [|ke l IH]; [reflexivity|].
    cbn [filter].
    destruct (Z.gtb_spec (now - Cache.timestamp (snd ke)) (Cache.ttl (snd ke)));
      destruct (Z.leb_spec (now - Cache.timestamp (snd ke)) (Cache.ttl (snd ke)));
      cbn [List.length]; lia.
  - unfold Cache.cleanup, Cache.getStats. cbn [fst Cache.expiredEntries].
    rewrite length_map. reflexivity.
  - unfold Cache.getStats at 1. cbn [Cache.totalEntries]. rewrite Hc, Hneg.
    reflexivity.
  - unfold Cache.getStats. cbn [Cache.expiredEntries]. rewrite Hc.
    replace (filter (fun ke => now - Cache.timestamp (snd ke) >? Cache.ttl (snd ke))
               (filter (fun ke => negb (Cache.isExpired now (snd ke))) (Cache.cache c)))
      with (@nil (jsstring * Cache.CacheEntry T)); [reflexivity|].
    symmetry. apply filter_none. intros ke Hke. apply filter_In in Hke as [_ Hke].
    unfold Cache.isExpired in Hke. destruct (_ >? _); [discriminate Hke|reflexivity].
  - intros key. rewrite !get_fst, Hc.
    rewrite (mapGet_filter_entry (fun e => negb (Cache.isExpired now e))) by exact Hwf.
    destruct (Cache.mapGet (Cache.cache c) key) as [e|]; [|reflexivity].
    destruct (Cache.isExpired now e) eqn:E; cbn [negb]; [reflexivity|].
    rewrite E. reflexivity.
  - unfold Cache.wellFormed. rewrite Hc. apply NoDup_filter_keys. exact Hwf.
Qed.

Lemma get_after_set c key (d : option T) (ttlArg : option Z) (t0 t1 : Z) :
  t1 - t0 <= Cache.effectiveTTL c ttlArg ->
  Cache.get t1 (Cache.set t0 c key d ttlArg) key = (d, Cache.set t0 c key d ttlArg).
Proof.
  intros Hle. unfold Cache.get, Cache.set at 1. cbn [Cache.cache].
  rewrite mapGet_mapSet_same, effectiveTTL_truthy. unfold Cache.isExpired.
  cbn [Cache.timestamp Cache.ttl Cache.data].
  destruct (Z.gtb_spec (t1 - t0) (Cache.effectiveTTL c ttlArg)); [lia|reflexivity].
Qed.

Lemma get_defaultTTL c key (t : Z) :
  Cache.defaultTTL (snd (Cache.get t c key)) = Cache.defaultTTL c.
Proof.
  unfold Cache.get. destruct (Cache.mapGet (Cache.cache c) key) as [e|]; [|reflexivity].
  destruct (Cache.isExpired t e); reflexivity.
Qed.

(** X21: [withCache] runs [fn] only on a miss.  After a miss whose result
    is not [null], a call on the same key before the time to live has
    passed returns that result without running its function and leaves the
    cache as it is.  A [null] result is stored but never served: every
    later call runs its function again. *)
Theorem X21_withCache_runs_fn_on_miss c key (fn fn2 : unit -> option T)
  (ttlArg ttl2 : option Z) (now later t2 t3 : Z) :
  let first := Cache.withCache now later c key fn ttlArg in
  let c1 := snd (fst first) in
  (snd first = false <-> exists v, fst (Cache.get now c key) = Some v)
  /\ (snd first = false -> fst (fst first) = fst (Cache.get now c key))
  /\ (snd first = true -> fst (fst first) = fn tt)
  /\ (snd first = true -> forall v, fn tt = Some v ->
      t2 - later <= Cache.effectiveTTL c ttlArg ->
      Cache.withCache t2 t3 c1 key fn2 ttl2 = (Some v, c1, false))
  /\ (snd first = true -> fn tt = None ->
      snd (Cache.withCache t2 t3 c1 key fn2 ttl2) = true).
Proof.
  cbv zeta.
  assert (Hfirst : Cache.withCache now later c key fn ttlArg
                   = match Cache.get now c key with
                     | (Some cached, c') => (Some cached, c', false)
                     | (None, c') =>
                         (fn tt, Cache.set later c' key (fn tt) ttlArg, true)
                     end) by reflexivity.
  rewrite Hfirst. clear Hfirst.
  pose proof (get_defaultTTL c key now) as Httl.
  destruct (Cache.get now c key) as [[v|] c'] eqn:G; cbn [fst snd] in *.
  - split; [split; [eauto|reflexivity]|].
    repeat split; intros; try reflexivity; congruence.
  - split; [split; [discriminate|intros (v & Hv); discriminate Hv]|].
    split; [discriminate|]. split; [reflexivity|]. split.
    + intros _ v Hv Hle. rewrite Hv. unfold Cache.withCache.
      rewrite get_after_set; [reflexivity|].
      unfold Cache.effectiveTTL in *. rewrite Httl. exact Hle.
    + intros _ Hv. rewrite Hv. unfold Cache.withCache.
      pose proof (get_fst (Cache.set later c' key None ttlArg) key t2) as Hf.
      unfold Cache.set in Hf at 2. cbn [Cache.cache] in Hf.
      rewrite mapGet_mapSet_same in Hf. cbn [Cache.data] in Hf.
      destruct (Cache.get t2 (Cache.set later c' key None ttlArg) key) as [[w|] c2];
        cbn [fst] in Hf; [|reflexivity].
      destruct (Cache.isExpired t2 _); discriminate Hf.
Qed.

Lemma get_wellFormed c key (t : Z) :
  Cache.wellFormed c -> Cache.wellFormed (snd (Cache.get t c key)).
Proof.
  intros H. unfold Cache.get.
  destruct (Cache.mapGet (Cache.cache c) key) as [e|]; [|exact H].
  destruct (Cache.isExpired t e); [|exact H].
  unfold Cache.wellFormed. cbn [snd Cache.cache]. apply NoDup_mapDelete. exact H.
Qed.

Lemma set_wellFormed c key (d : option T) (ttlArg : option Z) (t : Z) :
  Cache.wellFormed c -> Cache.wellFormed (Cache.set t c key d ttlArg).
Proof.
  intros H. unfold Cache.wellFormed, Cache.set. cbn [Cache.cache].
  apply NoDup_mapSet. exact H.
Qed.

Lemma clearCustomerCaches_fold (now : Z) (entries : Cache.Store T) :
  forall (n : Z) c,
    fold_left
      (fun (acc : Z * Cache.SimpleCache T) (info : Cache.KeyInfo) =>
         if startsWith (Cache.infoKey info) Cache.customersPrefix
         then (fst acc + 1, snd (Cache.delete (snd acc) (Cache.infoKey info)))
         else acc)
      (map (fun ke => Cache.mkKeyInfo (fst ke) (now - Cache.timestamp (snd ke))
                        (Cache.ttl (snd ke))
                        (now - Cache.timestamp (snd ke) >? Cache.ttl (snd ke)))
           entries)
      (n, c)
    = (n + Z.of_nat (List.length
                       (filter (fun ke => startsWith (fst ke) Cache.customersPrefix)
                               entries)),
       Cache.mkCache
         (fold_left Cache.mapDelete
            (map fst (filter (fun ke => startsWith (fst ke) Cache.customersPrefix)
                             entries))
            (Cache.cache c))
         (Cache.defaultTTL c)).
Proof.
  induction entries as [|[k e] entries IH]; intros n c; cbn [map fold_left filter fst].
  - destruct c. cbn. f_equal. lia.
  - cbn [Cache.infoKey]. destruct (startsWith k Cache.customersPrefix).
    + cbn [fst snd]. rewrite IH. unfold Cache.delete.
      cbn [snd Cache.cache Cache.defaultTTL map fst fold_left List.length].
      f_equal. lia.
    + apply IH.
Qed.

(** X22: with pairwise different keys, clearing the customer caches
    removes exactly the entries whose key starts with [customers_] and
    returns their number; entries under other keys are kept as they are,
    and the keys stay pairwise different. *)
Theorem X22_clearCustomerCaches (now : Z) c :
  Cache.wellFormed c ->
  let cleared := fst (Cache.clearCustomerCaches now c) in
  let after := snd (Cache.clearCustomerCaches now c) in
  cleared = Z.of_nat (List.length
                        (filter (fun ke => startsWith (fst ke) Cache.customersPrefix)
                                (Cache.cache c)))
  /\ Cache.cache after
     = filter (fun ke => negb (startsWith (fst ke) Cache.customersPrefix))
              (Cache.cache c)
  /\ (forall key, startsWith key Cache.customersPrefix = true ->
        Cache.mapGet (Cache.cache after) key = None)
  /\ (forall key, startsWith key Cache.customersPrefix = false ->
        Cache.mapGet (Cache.cache after) key = Cache.mapGet (Cache.cache c) key)
  /\ Cache.wellFormed after.
Proof.
  intros Hwf. cbv zeta. unfold Cache.clearCustomerCaches, Cache.getStats.
  cbn [Cache.cacheKeys]. rewrite clearCustomerCaches_fold. cbn [fst snd Cache.cache].
  rewrite (fold_delete_filter
             (fun ke => startsWith (fst ke) Cache.customersPrefix)) by exact Hwf.
  split; [lia|split; [reflexivity|split; [|split]]].
  - intros key Hk.
    rewrite (mapGet_filter_key (fun k => negb (startsWith k Cache.customersPrefix))).
    rewrite Hk. reflexivity.
  - intros key Hk.
    rewrite (mapGet_filter_key (fun k => negb (startsWith k Cache.customersPrefix))).
    rewrite Hk. reflexivity.
  - unfold Cache.wellFormed. cbn [Cache.cache]. apply NoDup_filter_keys. exact Hwf.
Qed.

Lemma startsWith_app (p s : jsstring) : startsWith (p ++ s) p = true.
Proof.
  induction p as [|x p IH]; [destruct s; reflexivity|].
  cbn [app startsWith]. rewrite Z.eqb_refl. exact IH.
Qed.

(** X23: the key [clearMerchantCache] deletes is never the key under which
    the client caches the customers of that merchant and currency.  So
    customers cached for a merchant are still served after
    [clearMerchantCache] for the same merchant, whereas
    [clearCustomerCaches] does remove them. *)
Theorem X23_clearMerchantCache_misses_the_entry c (merchantId currency : jsstring)
  (d : option T) (ttlArg : option Z) (t0 t now : Z) :
  Cache.wellFormed c ->
  let key := Cache.customersCacheKey merchantId currency in
  let c1 := Cache.set t0 c key d ttlArg in
  Cache.merchantKey merchantId currency <> key
  /\ fst (Cache.get t (snd (Cache.clearMerchantCache c1 merchantId currency)) key)
     = fst (Cache.get t c1 key)
  /\ fst (Cache.get t (snd (Cache.clearCustomerCaches now c1)) key) = None.
Proof.
  intros Hwf. cbv zeta.
  assert (Hne : Cache.merchantKey merchantId currency
                <> Cache.customersCacheKey merchantId currency).
  { intros H. apply (f_equal (@List.length _)) in H.
    unfold Cache.merchantKey, Cache.customersCacheKey in H.
    rewrite !length_app in H. cbn in H. lia. }
  split; [exact Hne|split].
  - rewrite !get_fst. unfold Cache.clearMerchantCache, Cache.delete.
    cbn [snd Cache.cache].
    rewrite mapGet_mapDelete_other by congruence. reflexivity.
  - rewrite get_fst.
    pose proof (Hwf1 := set_wellFormed c (Cache.customersCacheKey merchantId currency)
                             d ttlArg t0 Hwf).
    unfold Cache.clearCustomerCaches, Cache.getStats. cbn [Cache.cacheKeys].
    rewrite clearCustomerCaches_fold. cbn [snd Cache.cache].
    rewrite (fold_delete_filter
               (fun ke => startsWith (fst ke) Cache.customersPrefix)) by exact Hwf1.
    rewrite (mapGet_filter_key (fun k => negb (startsWith k Cache.customersPrefix))).
    replace (startsWith (Cache.customersCacheKey merchantId currency)
               Cache.customersPrefix) with true; [reflexivity|].
    symmetry. unfold Cache.customersCacheKey, Cache.customersPrefix.
    change (of_string "customers_v6_production_")
      with (of_string "customers_" ++ of_string "v6_production_").
    rewrite <- !app_assoc. apply startsWith_app.
Qed.

(** X24: the keys of a cache stay pairwise different: they are in a new
    cache and after [clear], and [set], [get], [has], [delete], [cleanup]
    and [withCache] keep them so. *)
Theorem X24_cache_keys_stay_unique c key (d : option T) (ttlArg : option Z)
  (fn : unit -> option T) (t later : Z) :
  Cache.wellFormed c ->
  Cache.wellFormed (Cache.newCache T)
  /\ Cache.wellFormed (Cache.clear c)
  /\ Cache.wellFormed (Cache.set t c key d ttlArg)
  /\ Cache.wellFormed (snd (Cache.get t c key))
  /\ Cache.wellFormed (snd (Cache.has t c key))
  /\ Cache.wellFormed (snd (Cache.delete c key))
  /\ Cache.wellFormed (snd (Cache.cleanup t c))
  /\ Cache.wellFormed (snd (fst (Cache.withCache t later c key fn ttlArg)))
  /\ (fst (Cache.has t c key) = true <-> exists v, fst (Cache.get t c key) = Some v)
  /\ (fst (Cache.delete c key) = true <-> In key (map fst (Cache.cache c))).
Proof.
  intros Hwf.
  split; [constructor|]. split; [constructor|].
  split; [apply set_wellFormed; exact Hwf|].
  split; [apply get_wellFormed; exact Hwf|].
  split; [|split; [|split; [|split; [|split]]]].
  - pose proof (get_wellFormed c key t Hwf) as H. unfold Cache.has.
    destruct (Cache.get t c key) as [[v|] c']; exact H.
  - unfold Cache.wellFormed, Cache.delete. cbn [snd Cache.cache].
    apply NoDup_mapDelete. exact Hwf.
  - unfold Cache.wellFormed. rewrite cleanup_cache by exact Hwf.
    apply NoDup_filter_keys. exact Hwf.
  - pose proof (get_wellFormed c key t Hwf) as H. unfold Cache.withCache.
    destruct (Cache.get t c key) as [[v|] c']; cbn [fst snd] in *; [exact H|].
    apply set_wellFormed. exact H.
  - unfold Cache.has. destruct (Cache.get t c key) as [[v|] c']; cbn [fst].
    + split; [eauto|reflexivity].
    + split; [discriminate|intros (v & Hv); discriminate Hv].
  - unfold Cache.delete, Cache.mapHas. cbn [fst].
    destruct (Cache.mapGet (Cache.cache c) key) eqn:E.
    + split; [|reflexivity]. intros _.
      destruct (in_dec (list_eq_dec Z.eq_dec) key (map fst (Cache.cache c)))
        as [Hin|Hnin]; [exact Hin|].
      apply mapGet_none_iff in Hnin. congruence.
    + apply mapGet_none_iff in E. split; [discriminate|contradiction].
Qed.

End CacheFacts.

(** Instances on a new cache holding numbers. *)

Lemma X18_cache_set_then_get_witness :
  Cache.get 1000 (Cache.set 0 (Cache.newCache Z) (of_string "k") (Some 7) None)
    (of_string "k")
  = (Some 7, Cache.set 0 (Cache.newCache Z) (of_string "k") (Some 7) None).
Proof.
  refine (proj1 (proj2 (@X18_cache_set_then_get Z (Cache.newCache Z) (of_string "k")
                          (Some 7) None 0 1000 _)) _).
  - constructor.
  - vm_compute. discriminate.
Defined.

Lemma X19_cache_keys_independent_witness :
  fst (Cache.get 5 (Cache.set 0 (Cache.newCache Z) (of_string "a") (Some 1) None)
         (of_string "b"))
  = fst (Cache.get 5 (Cache.newCache Z) (of_string "b")).
Proof.
  refine (proj1 (@X19_cache_keys_independent Z (Cache.newCache Z) (of_string "a")
                   (of_string "b") (Some 1) None 0 5 _)).
  discriminate.
Defined.

Lemma X20_cache_cleanup_witness :
  fst (Cache.cleanup 10 (Cache.set 0 (Cache.newCache Z) (of_string "k") (Some 7) (Some 5)))
  = Cache.expiredEntries
      (Cache.getStats 10
         (Cache.set 0 (Cache.newCache Z) (of_string "k") (Some 7) (Some 5))).
Proof.
  refine (proj1 (proj2 (@X20_cache_cleanup Z 10 _ _))).
  repeat constructor. intros [].
Defined.

Lemma X22_clearCustomerCaches_witness :
  fst (Cache.clearCustomerCaches 0
         (Cache.set 0 (Cache.newCache Z) (of_string "customers_x") (Some 7) None))
  = 1.
Proof.
  refine (proj1 (@X22_clearCustomerCaches Z 0 _ _)).
  repeat constructor. intros [].
Defined.

Lemma X23_clearMerchantCache_misses_the_entry_witness :
  Cache.merchantKey (of_string "M1") (of_string "USD")
  <> Cache.customersCacheKey (of_string "M1") (of_string "USD").
Proof.
  refine (proj1 (@X23_clearMerchantCache_misses_the_entry Z (Cache.newCache Z)
                   (of_string "M1") (of_string "USD") None None 0 0 0 _)).
  constructor.
Defined.

Lemma X24_cache_keys_stay_unique_witness :
  Cache.wellFormed
    (Cache.set 0 (Cache.newCache Z) (of_string "k") (Some 7) None).
Proof.
  refine (proj1 (proj2 (proj2 (@X24_cache_keys_stay_unique Z (Cache.newCache Z)
                                 (of_string "k") (Some 7) None (fun _ => None) 0 0 _)))).
  constructor.
Defined.
